(** * Staking position and reward accounting engine

    A shallow embedding of the staking back end:

    - [StakingService] (src/modules/staking/staking.service.ts):
      [stakeTokens], [unstakeTokens], [finalizeUnstake],
      [calculatePowerMultiplier], [getTierPenaltyMultiplier];
    - [RewardsService] ([claimRewards], [calculateProRataReward],
      [applyApyCap]);
    - [CooldownFinalizerProcessor.handleCooldownFinalization];
    - [RewardDistributionProcessor.handleWeeklyDistribution].

    Modelling conventions.

    - A [BigInt] column is a [Z].  A JavaScript [number] argument or local is
      the [Z] it holds: the model covers integer arguments.  An integer of
      magnitude 2^53 or more can be passed as an argument only if it is a
      double; the statements quantify over every [Z] and hold of the code
      for the arguments that can be passed.
    - Token quantities (amounts, staking power, pool balances, rewards and
      penalties) are not bounded by anything in the service, and the service
      computes on them in doubles.  Every [Number(x)], product, sum,
      difference and floored quotient of such quantities goes through the
      operations of [Js], which round to the nearest double (53 bits, ties
      to even) as IEEE 754 does.  The exponent range is not modelled: no
      quantity comes near 2^1023, where a product would overflow.  The
      non-finite values a division by zero produces ([Infinity], [NaN]) are
      kept, see [Js.num].
    - Times (clock readings, stored timestamps, configured periods,
      durations in months, the epoch counter) are bounded by the clock;
      sums, differences and quotients of them are exact in doubles and are
      written with the operations of [Z].
    - A wallet is a well-formed base58 key: [convertToPublicKey] returns.
    - The Prisma tables are lists of rows, in insertion order.  [create]
      appends, [update] rewrites the rows selected by its [where] clause.
    - Every service method is a computation in the monad [M]: it reads and
      writes the database and either returns or throws.  Writes done before
      a throw stay (the source opens no transaction).
    - Clock readings and fresh identifiers ([uuidv4()]) are arguments:
      [now] is [Math.floor(Date.now() / 1000)], [dateNow] is the reading in
      milliseconds that replaces a missing seed. *)

From Stdlib Require Import ZArith List String Bool Lia.
Import ListNotations.
Open Scope Z_scope.

(** ** JavaScript numbers *)

Module Js.

(** A number that may not be finite: an integer, or one of the values a
    division by zero produces. *)
Inductive num : Type :=
  | Fin (z : Z)
  | PosInf
  | NegInf
  | NaN.

(** 2^53: below it every integer is a double. *)
Definition two53 : Z := 9007199254740992.

(** The integer nearest to [n / d], ties to the even one ([n >= 0],
    [d > 0]). *)
Definition rne (n d : Z) : Z :=
  let q := n / d in
  let r := n mod d in
  if 2 * r <? d then q
  else if d <? 2 * r then q + 1
  else if Z.even q then q else q + 1.

(** The double nearest to the integer [x]: [x] itself below 2^53, otherwise
    [x] rounded to 53 significant bits. *)
Definition round (x : Z) : Z :=
  let a := Z.abs x in
  if a <? two53 then x
  else
    let e := Z.log2 a - 52 in
    Z.sgn x * (rne a (2 ^ e) * 2 ^ e).

(** [Number(x)] for a [BigInt] [x]. *)
Definition Number (x : Z) : Z := round x.

(** [a * b], [a + b] and [a - b] on numbers holding integers. *)
Definition mul (a b : Z) : Z := round (a * b).
Definition plus (a b : Z) : Z := round (a + b).
Definition minus (a b : Z) : Z := round (a - b).

(** The exponent [e] of the double nearest to [n / d] ([n, d > 0]): the one
    with [2^52 <= (n / d) / 2^e < 2^53]. *)
Definition exponent (n d : Z) : Z :=
  let k := Z.log2 n - Z.log2 d in
  if (if 0 <=? k then n <? d * 2 ^ k else n * 2 ^ (- k) <? d)
  then k - 53 else k - 52.

(** [Math.floor(a / b)] for [b <> 0]: the quotient is rounded to the nearest
    double [m * 2^e] first, then floored. *)
Definition floor_quot (a b : Z) : Z :=
  if a =? 0 then 0
  else
    let n := Z.abs a in
    let d := Z.abs b in
    let e := exponent n d in
    let s := Z.sgn a * Z.sgn b in
    if 0 <=? e then s * rne n (d * 2 ^ e) * 2 ^ e
    else (s * rne (n * 2 ^ (- e)) d) / 2 ^ (- e).

(** [Math.floor(a / b)] where [b] can be zero.  [b] is a number read from a
    column or an argument, so a zero [b] is [+0]. *)
Definition floor_div (a b : Z) : num :=
  if b =? 0 then
    if a =? 0 then NaN else if 0 <? a then PosInf else NegInf
  else Fin (floor_quot a b).

Definition neg (x : num) : num :=
  match x with
  | Fin z => Fin (- z)
  | PosInf => NegInf
  | NegInf => PosInf
  | NaN => NaN
  end.

(** [Math.floor(n / (a * b))].  A product that is zero is [-0] when its
    other factor is negative, and dividing by [-0] flips the sign of the
    infinity. *)
Definition floor_div_mul (n a b : Z) : num :=
  if (mul a b =? 0) && ((a <? 0) || (b <? 0)) then neg (floor_div n 0)
  else floor_div n (mul a b).

(** [x > m] for a finite [m]; every comparison with [NaN] is false. *)
Definition gt (x : num) (m : Z) : bool :=
  match x with
  | Fin z => m <? z
  | PosInf => true
  | NegInf => false
  | NaN => false
  end.

(** [Math.ceil(a / b)]. *)
Definition ceil_div (a b : Z) : Z := - ((- a) / b).

(** [Math.max(0, x)]. *)
Definition max0 (x : Z) : Z := Z.max 0 x.

(** [x + y]. *)
Definition add (x y : num) : num :=
  match x, y with
  | NaN, _ | _, NaN => NaN
  | Fin a, Fin b => Fin (plus a b)
  | PosInf, NegInf | NegInf, PosInf => NaN
  | PosInf, _ | _, PosInf => PosInf
  | NegInf, _ | _, NegInf => NegInf
  end.

(** Truthiness of a nullable [BigInt]: [null] and [0n] are falsy. *)
Definition truthy (x : option Z) : bool :=
  match x with
  | Some v => negb (v =? 0)
  | None => false
  end.

End Js.

(** ** Data model *)

(** [new anchor.BN(number)] for a number argument.  bn.js keeps the sign
    apart from the magnitude and asserts that the magnitude is below 2^53;
    [toArrayLike(Buffer, 'le', 8)], the only use the service makes of the
    value, writes the magnitude.  The result is the integer those eight
    bytes hold, [None] when the assertion fails. *)
Module anchor.
Definition BN (number : Z) : option Z :=
  if Z.abs number <? Js.two53 then Some (Z.abs number) else None.
End anchor.

(** Program derived addresses.  [PublicKey.findProgramAddressSync] hashes a
    tag, the owner key and the eight seed bytes; the model keeps the three
    inputs, that is, it takes the hash to be injective. *)
Inductive Pda : Type :=
| StakePositionPda (owner : string) (seed : Z)
| RewardNftPda (owner : string) (seed : Z).

Definition pda_eqb (a b : Pda) : bool :=
  match a, b with
  | StakePositionPda o s, StakePositionPda o' s' => String.eqb o o' && (s =? s')
  | RewardNftPda o s, RewardNftPda o' s' => String.eqb o o' && (s =? s')
  | _, _ => false
  end.

(** The two address derivations, each with the [new anchor.BN(seed)] that
    precedes it in every caller: [None] when the constructor throws. *)
Definition findStakePositionPda (owner : string) (positionSeed : Z)
  : option Pda :=
  option_map (StakePositionPda owner) (anchor.BN positionSeed).

Definition findRewardNftPda (owner : string) (nftSeed : Z) : option Pda :=
  option_map (RewardNftPda owner) (anchor.BN nftSeed).

Record StakingTier : Type := mkTier {
  tier_tierId : Z;
  tier_multiplier : Z;
  minMonths : Z;
  maxMonths : Z;
  tier_isActive : bool
}.

Record StakePosition : Type := mkPosition {
  id : string;
  owner : string;
  pda : Pda;
  amount : Z;
  durationMonths : Z;
  tierId : Z;
  isLocked : bool;
  powerMultiplier : Z;
  stakingPower : Z;
  startTs : Z;
  unlockTs : Z;
  lastRewardTs : Z;
  lastClaimTs : option Z;
  cooldownEnd : option Z;
  pendingPrincipal : option Z;
  isActive : bool;
  positionSeed : Z
}.

Record PenaltyTransaction : Type := mkPenalty {
  pen_positionId : string;
  pen_wallet : string;
  penaltyAmount : Z;
  toRewardPool : Z;
  toProtocol : Z;
  tierMultiplier : Z
}.

Record RewardNft : Type := mkRewardNft {
  nft_id : string;
  nft_owner : string;
  nft_pda : Pda;
  rewardAmount : Z;
  vestTs : Z;
  nft_isActive : bool;
  nftSeed : Z;
  nft_positionId : string
}.

Record ProgramState : Type := mkProgramState {
  isPaused : bool;
  currentEpoch : Z;
  currentEpochStartTs : Z;
  currentWeeklyEmission : option Z;
  totalStaked : Z;
  totalRewardPool : Z;
  totalStakingPower : Z
}.

(** The database.  [programState] is the singleton table read with
    [findFirst]: [None] when it has no row. *)
Record Db : Type := mkDb {
  stakingTiers : list StakingTier;
  stakePositions : list StakePosition;
  penaltyTransactions : list PenaltyTransaction;
  rewardNfts : list RewardNft;
  programState : option ProgramState
}.

(** Configuration keys read through [ConfigService.get]; [None] is an unset
    key. *)
Record Config : Type := mkConfig {
  cfg_cooldownPeriod : option Z;
  cfg_vestingPeriod : option Z
}.

(** *** Field updates *)

Definition set_amount (v : Z) (p : StakePosition) : StakePosition :=
  mkPosition (id p) (owner p) (pda p) v (durationMonths p) (tierId p)
    (isLocked p) (powerMultiplier p) (stakingPower p) (startTs p) (unlockTs p)
    (lastRewardTs p) (lastClaimTs p) (cooldownEnd p) (pendingPrincipal p)
    (isActive p) (positionSeed p).

Definition set_lastRewardTs (v : Z) (p : StakePosition) : StakePosition :=
  mkPosition (id p) (owner p) (pda p) (amount p) (durationMonths p) (tierId p)
    (isLocked p) (powerMultiplier p) (stakingPower p) (startTs p) (unlockTs p)
    v (lastClaimTs p) (cooldownEnd p) (pendingPrincipal p)
    (isActive p) (positionSeed p).

Definition set_lastClaimTs (v : option Z) (p : StakePosition) : StakePosition :=
  mkPosition (id p) (owner p) (pda p) (amount p) (durationMonths p) (tierId p)
    (isLocked p) (powerMultiplier p) (stakingPower p) (startTs p) (unlockTs p)
    (lastRewardTs p) v (cooldownEnd p) (pendingPrincipal p)
    (isActive p) (positionSeed p).

Definition set_cooldownEnd (v : option Z) (p : StakePosition) : StakePosition :=
  mkPosition (id p) (owner p) (pda p) (amount p) (durationMonths p) (tierId p)
    (isLocked p) (powerMultiplier p) (stakingPower p) (startTs p) (unlockTs p)
    (lastRewardTs p) (lastClaimTs p) v (pendingPrincipal p)
    (isActive p) (positionSeed p).

Definition set_pendingPrincipal (v : option Z) (p : StakePosition)
  : StakePosition :=
  mkPosition (id p) (owner p) (pda p) (amount p) (durationMonths p) (tierId p)
    (isLocked p) (powerMultiplier p) (stakingPower p) (startTs p) (unlockTs p)
    (lastRewardTs p) (lastClaimTs p) (cooldownEnd p) v
    (isActive p) (positionSeed p).

Definition set_isActive (v : bool) (p : StakePosition) : StakePosition :=
  mkPosition (id p) (owner p) (pda p) (amount p) (durationMonths p) (tierId p)
    (isLocked p) (powerMultiplier p) (stakingPower p) (startTs p) (unlockTs p)
    (lastRewardTs p) (lastClaimTs p) (cooldownEnd p) (pendingPrincipal p)
    v (positionSeed p).

Definition set_stakePositions (ps : list StakePosition) (db : Db) : Db :=
  mkDb (stakingTiers db) ps (penaltyTransactions db) (rewardNfts db)
    (programState db).

Definition set_penaltyTransactions (ts : list PenaltyTransaction) (db : Db)
  : Db :=
  mkDb (stakingTiers db) (stakePositions db) ts (rewardNfts db)
    (programState db).

Definition set_rewardNfts (ns : list RewardNft) (db : Db) : Db :=
  mkDb (stakingTiers db) (stakePositions db) (penaltyTransactions db) ns
    (programState db).

Definition set_programState (s : option ProgramState) (db : Db) : Db :=
  mkDb (stakingTiers db) (stakePositions db) (penaltyTransactions db)
    (rewardNfts db) s.

(** ** Errors and the service monad *)

(** One constructor per [throw] of the modelled methods. *)
Inductive Error : Type :=
| InvalidTier              (* 'Staking tier not active or does not exist' *)
| InvalidDuration          (* 'Duration must be between ... months' *)
| NotFound                 (* 'Stake position not found' *)
| NotActive                (* 'Stake position is not active' *)
| CooldownAlreadyActive    (* 'Cooldown already active for this position' *)
| StillActive              (* 'Position is still active' *)
| NoCooldown               (* 'No cooldown active for this position' *)
| CooldownNotElapsed (hoursRemaining : Z)
| TooSoonToClaim (hoursRemaining : Z)
| ProgramStateNotInitialized
| NothingAccrued           (* 'No rewards accrued yet' *)
| NoRewardAvailable        (* 'No rewards available' *)
| UniqueConstraint         (* Prisma: create on an existing unique key *)
| AssertionFailed.         (* bn.js: 'Assertion failed' *)

Inductive Outcome (A : Type) : Type :=
| Ok (a : A)
| Throw (e : Error).
Arguments Ok {A} a.
Arguments Throw {A} e.

Definition M (A : Type) : Type := Db -> Outcome A * Db.

Definition ret {A} (a : A) : M A := fun db => (Ok a, db).

Definition throw {A} (e : Error) : M A := fun db => (Throw e, db).

Definition bind {A B} (m : M A) (k : A -> M B) : M B :=
  fun db =>
    match m db with
    | (Ok a, db') => k a db'
    | (Throw e, db') => (Throw e, db')
    end.

Notation "x <- m ;; k" := (bind m (fun x => k))
  (at level 61, m at next level, right associativity).
Notation "m ;;; k" := (bind m (fun _ => k))
  (at level 61, right associativity).

(** *** Prisma calls *)

Module prisma.

Definition updateWhere {A} (sel : A -> bool) (f : A -> A) (rows : list A)
  : list A :=
  map (fun r => if sel r then f r else r) rows.

Module stakingTier.
Definition findUnique (tierId : Z) : M (option StakingTier) :=
  fun db =>
    (Ok (find (fun t => tier_tierId t =? tierId) (stakingTiers db)), db).
End stakingTier.

Module stakePosition.
Definition findUnique (k : Pda) : M (option StakePosition) :=
  fun db => (Ok (find (fun p => pda_eqb (pda p) k) (stakePositions db)), db).

Definition findMany (where_ : StakePosition -> bool)
  : M (list StakePosition) :=
  fun db => (Ok (filter where_ (stakePositions db)), db).

(** [id] is the primary key and [pda] is unique (it is the key of
    [findUnique]): [create] rejects a row that repeats either. *)
Definition create (row : StakePosition) : M StakePosition :=
  fun db =>
    if existsb (fun p => pda_eqb (pda p) (pda row) || String.eqb (id p) (id row))
         (stakePositions db)
    then (Throw UniqueConstraint, db)
    else (Ok row, set_stakePositions (stakePositions db ++ [row]) db).

Definition updateByPda (k : Pda) (data : StakePosition -> StakePosition)
  : M unit :=
  fun db =>
    (Ok tt,
     set_stakePositions
       (updateWhere (fun p => pda_eqb (pda p) k) data (stakePositions db)) db).

Definition updateById (i : string) (data : StakePosition -> StakePosition)
  : M unit :=
  fun db =>
    (Ok tt,
     set_stakePositions
       (updateWhere (fun p => String.eqb (id p) i) data (stakePositions db)) db).
End stakePosition.

Module penaltyTransaction.
Definition create (row : PenaltyTransaction) : M unit :=
  fun db =>
    (Ok tt, set_penaltyTransactions (penaltyTransactions db ++ [row]) db).
End penaltyTransaction.

Module rewardNft.
Definition create (row : RewardNft) : M RewardNft :=
  fun db =>
    if existsb (fun n => pda_eqb (nft_pda n) (nft_pda row)
                         || String.eqb (nft_id n) (nft_id row))
         (rewardNfts db)
    then (Throw UniqueConstraint, db)
    else (Ok row, set_rewardNfts (rewardNfts db ++ [row]) db).
End rewardNft.

Module programState.
Definition findFirst : M (option ProgramState) :=
  fun db => (Ok (programState db), db).

(** [update({ where: { id: programState.id }, data })] on the single
    row. *)
Definition update (data : ProgramState -> ProgramState) : M unit :=
  fun db => (Ok tt, set_programState (option_map data (programState db)) db).
End programState.

End prisma.

(** ** StakingService *)

Module StakingService.

Record StakeResult : Type := mkStakeResult {
  sr_positionId : string;
  sr_pda : Pda;
  sr_positionSeed : Z;
  sr_amount : Z;
  sr_durationMonths : Z;
  sr_powerMultiplier : Z;
  sr_stakingPower : Z;
  sr_unlockTimestamp : Z
}.

Record UnstakeResult : Type := mkUnstakeResult {
  ur_positionId : string;
  ur_pda : Pda;
  ur_cooldownEnd : Z;
  ur_isEarlyUnstake : bool
}.

(** [fr_amount] is the number printed by
    [position.pendingPrincipal?.toString() || '0']. *)
Record FinalizeResult : Type := mkFinalizeResult {
  fr_positionId : string;
  fr_pda : Pda;
  fr_amount : Z
}.

Definition calculatePowerMultiplier (durationMonths : Z) : Z :=
  if (1 <=? durationMonths) && (durationMonths <=? 5) then 100
  else if (6 <=? durationMonths) && (durationMonths <=? 11) then 150
  else if (12 <=? durationMonths) && (durationMonths <=? 17) then 200
  else if (18 <=? durationMonths) && (durationMonths <=? 23) then 250
  else if (24 <=? durationMonths) && (durationMonths <=? 35) then 300
  else if 36 <=? durationMonths then 400
  else 100.

(** The literal object [tierPenalties]. *)
Definition tierPenalties (tierId : Z) : option Z :=
  if tierId =? 1 then Some 500
  else if tierId =? 2 then Some 750
  else if tierId =? 3 then Some 1000
  else if tierId =? 4 then Some 1250
  else None.

(** [tierPenalties[tierId] || 500]. *)
Definition getTierPenaltyMultiplier (tierId : Z) : Z :=
  match tierPenalties tierId with
  | Some v => if v =? 0 then 500 else v
  | None => 500
  end.

(** [positionSeed || Date.now()]: an absent seed and the seed 0 are both
    replaced by the clock reading (in milliseconds). *)
Definition seedOrNow (positionSeed : option Z) (dateNow : Z) : Z :=
  match positionSeed with
  | Some s => if s =? 0 then dateNow else s
  | None => dateNow
  end.

Definition stakeTokens (uuid : string) (dateNow now : Z)
    (wallet : string) (amount durationMonths tierId : Z) (isLocked : bool)
    (positionSeed : option Z) : M StakeResult :=
  let seed := seedOrNow positionSeed dateNow in
  match findStakePositionPda wallet seed with
  | None => throw AssertionFailed
  | Some stakePositionPda =>
    tier <- prisma.stakingTier.findUnique tierId ;;
    match tier with
    | None => throw InvalidTier
    | Some tier =>
      if negb (tier_isActive tier) then throw InvalidTier
      else if (durationMonths <? minMonths tier)
              || (maxMonths tier <? durationMonths)
      then throw InvalidDuration
      else
        let powerMultiplier := calculatePowerMultiplier durationMonths in
        let stakingPower :=
          Js.floor_quot (Js.mul amount powerMultiplier) 100 in
        let unlockTimestamp := now + durationMonths * 30 * 24 * 60 * 60 in
        stakePosition <- prisma.stakePosition.create
          (mkPosition uuid wallet stakePositionPda amount durationMonths tierId
             isLocked powerMultiplier stakingPower now unlockTimestamp now
             (Some now) None None true seed) ;;
        ret (mkStakeResult (id stakePosition) (pda stakePosition) seed amount
               durationMonths powerMultiplier stakingPower unlockTimestamp)
    end
  end.

(** [configService.get('staking.cooldownPeriod') ?? 604800]. *)
Definition cooldownPeriod (cfg : Config) : Z :=
  match cfg_cooldownPeriod cfg with
  | Some v => v
  | None => 604800
  end.

(** [position.cooldownEnd && position.cooldownEnd > 0]. *)
Definition cooldownAlreadyActive (p : StakePosition) : bool :=
  match cooldownEnd p with
  | Some c => negb (c =? 0) && (0 <? c)
  | None => false
  end.

Definition add_totalRewardPool (d : Z) (s : ProgramState) : ProgramState :=
  mkProgramState (isPaused s) (currentEpoch s) (currentEpochStartTs s)
    (currentWeeklyEmission s) (totalStaked s) (totalRewardPool s + d)
    (totalStakingPower s).

(** The [if (isEarlyUnstake)] block: returns [principalAfterPenalty]. *)
Definition applyEarlyPenalty (wallet : string) (position : StakePosition)
  : M Z :=
  let tierMultiplier := getTierPenaltyMultiplier (tierId position) in
  let penaltyAmount :=
    Js.floor_quot (Js.mul (Js.Number (amount position)) tierMultiplier) 10000 in
  let toRewardPool := Js.floor_quot penaltyAmount 2 in
  let toProtocol := Js.floor_quot penaltyAmount 2 in
  let principalAfterPenalty :=
    Js.minus (Js.Number (amount position)) penaltyAmount in
  prisma.penaltyTransaction.create
    (mkPenalty (id position) wallet penaltyAmount toRewardPool toProtocol
       tierMultiplier) ;;;
  programState <- prisma.programState.findFirst ;;
  match programState with
  | Some _ => prisma.programState.update (add_totalRewardPool toRewardPool)
  | None => ret tt
  end ;;;
  ret principalAfterPenalty.

Definition unstakeTokens (cfg : Config) (now : Z) (wallet : string)
    (positionSeed : Z) : M UnstakeResult :=
  match findStakePositionPda wallet positionSeed with
  | None => throw AssertionFailed
  | Some stakePositionPda =>
    position <- prisma.stakePosition.findUnique stakePositionPda ;;
    match position with
    | None => throw NotFound
    | Some position =>
      if negb (isActive position) then throw NotActive
      else if cooldownAlreadyActive position then throw CooldownAlreadyActive
      else
        let cooldownEnd := now + cooldownPeriod cfg in
        let isEarlyUnstake := now <? unlockTs position in
        principalAfterPenalty <-
          (if isEarlyUnstake then applyEarlyPenalty wallet position
           else ret (Js.Number (amount position))) ;;
        prisma.stakePosition.updateByPda stakePositionPda
          (fun p => set_isActive false
                      (set_pendingPrincipal (Some principalAfterPenalty)
                         (set_cooldownEnd (Some cooldownEnd) p))) ;;;
        ret (mkUnstakeResult (id position) (pda position) cooldownEnd
               isEarlyUnstake)
    end
  end.

Definition finalizeUnstake (now : Z) (wallet : string) (positionSeed : Z)
  : M FinalizeResult :=
  match findStakePositionPda wallet positionSeed with
  | None => throw AssertionFailed
  | Some stakePositionPda =>
    position <- prisma.stakePosition.findUnique stakePositionPda ;;
    match position with
    | None => throw NotFound
    | Some position =>
      if isActive position then throw StillActive
      else
        match cooldownEnd position with
        | None => throw NoCooldown
        | Some cooldownEnd =>
          if cooldownEnd =? 0 then throw NoCooldown
          else if now <? cooldownEnd then
            let remaining := cooldownEnd - now in
            throw (CooldownNotElapsed (Js.ceil_div remaining 3600))
          else
            prisma.stakePosition.updateByPda stakePositionPda
              (fun p => set_amount 0
                          (set_pendingPrincipal (Some 0)
                             (set_cooldownEnd (Some 0) p))) ;;;
            ret (mkFinalizeResult (id position) (pda position)
                   (match pendingPrincipal position with
                    | Some v => v
                    | None => 0
                    end))
        end
    end
  end.

End StakingService.

(** ** RewardsService *)

Module RewardsService.

Record ClaimResult : Type := mkClaimResult {
  cr_rewardNftId : string;
  cr_pda : Pda;
  cr_nftSeed : Z;
  cr_rewardAmount : Z;
  cr_vestTimestamp : Z;
  cr_weeksElapsed : Z
}.

Definition weekInSeconds : Z := 7 * 24 * 60 * 60.
Definition weeklyEmissionRate : Z := 21.
Definition emissionPrecision : Z := 10000.
Definition maxApyBasisPoints : Z := 7500.

Definition annualizedRate (stakedAmount rewardAmount weeks : Z) : Js.num :=
  Js.floor_div_mul (Js.mul (Js.mul rewardAmount 52) 10000) stakedAmount weeks.

Definition cappedReward (stakedAmount weeks : Z) : Z :=
  Js.floor_quot (Js.mul (Js.mul stakedAmount maxApyBasisPoints) weeks)
    (10000 * 52).

Definition applyApyCap (stakedAmount rewardAmount weeks : Z) : Z :=
  if weeks =? 0 then rewardAmount
  else if Js.gt (annualizedRate stakedAmount rewardAmount weeks) maxApyBasisPoints
  then cappedReward stakedAmount weeks
  else rewardAmount.

Definition weeklyPoolEmission (rewardPool : Z) : Z :=
  Js.floor_quot (Js.mul rewardPool weeklyEmissionRate) emissionPrecision.

(** Only evaluated behind the guard [totalStakingPower === 0], so the
    quotient is finite. *)
Definition userWeeklyShare (userStakingPower totalStakingPower rewardPool : Z)
  : Z :=
  Js.floor_quot (Js.mul (weeklyPoolEmission rewardPool) userStakingPower)
    totalStakingPower.

Definition totalReward (userStakingPower totalStakingPower rewardPool weeks : Z)
  : Z :=
  Js.mul (userWeeklyShare userStakingPower totalStakingPower rewardPool) weeks.

Definition calculateProRataReward
    (userStakingPower totalStakingPower rewardPool weeks : Z) : Z :=
  if (totalStakingPower =? 0) || (userStakingPower =? 0) then 0
  else applyApyCap userStakingPower
         (totalReward userStakingPower totalStakingPower rewardPool weeks)
         weeks.

(** [position.lastClaimTs ? Number(position.lastClaimTs)
                          : Number(position.startTs)]. *)
Definition lastClaimOf (position : StakePosition) : Z :=
  match lastClaimTs position with
  | Some t => if t =? 0 then startTs position else t
  | None => startTs position
  end.

(** [configService.get('staking.vestingPeriod') || 31536000]. *)
Definition vestingPeriod (cfg : Config) : Z :=
  match cfg_vestingPeriod cfg with
  | Some v => if v =? 0 then 31536000 else v
  | None => 31536000
  end.

(** [nftSeed || Date.now()]. *)
Definition nftSeedOrNow (nftSeed : option Z) (dateNow : Z) : Z :=
  match nftSeed with
  | Some s => if s =? 0 then dateNow else s
  | None => dateNow
  end.

Definition claimRewards (cfg : Config) (uuid : string) (dateNow now : Z)
    (wallet : string) (positionSeed : Z) (nftSeed : option Z)
  : M ClaimResult :=
  match findStakePositionPda wallet positionSeed with
  | None => throw AssertionFailed
  | Some stakePositionPda =>
    position <- prisma.stakePosition.findUnique stakePositionPda ;;
    match position with
    | None => throw NotFound
    | Some position =>
      if negb (isActive position) then throw NotActive
      else
        let lastClaim := lastClaimOf position in
        if now <? lastClaim + weekInSeconds then
          let remaining := lastClaim + weekInSeconds - now in
          throw (TooSoonToClaim (Js.ceil_div remaining 3600))
        else
          programState <- prisma.programState.findFirst ;;
          match programState with
          | None => throw ProgramStateNotInitialized
          | Some programState =>
            let stakingPower := Js.Number (stakingPower position) in
            let totalStakingPower :=
              Js.Number (totalStakingPower programState) in
            let rewardPool := Js.Number (totalRewardPool programState) in
            let timeElapsed := now - lastRewardTs position in
            let weeksElapsed := timeElapsed / weekInSeconds in
            if weeksElapsed =? 0 then throw NothingAccrued
            else
              let rewardAmount :=
                calculateProRataReward stakingPower totalStakingPower rewardPool
                  weeksElapsed in
              if rewardAmount =? 0 then throw NoRewardAvailable
              else
                let seed := nftSeedOrNow nftSeed dateNow in
                match findRewardNftPda wallet seed with
                | None => throw AssertionFailed
                | Some rewardNftPda =>
                  let vestTimestamp := now + vestingPeriod cfg in
                  rewardNft <- prisma.rewardNft.create
                    (mkRewardNft uuid wallet rewardNftPda rewardAmount
                       vestTimestamp true seed (id position)) ;;
                  prisma.stakePosition.updateByPda stakePositionPda
                    (fun p => set_lastClaimTs (Some now)
                                (set_lastRewardTs now p)) ;;;
                  ret (mkClaimResult (nft_id rewardNft) (nft_pda rewardNft) seed
                         rewardAmount vestTimestamp weeksElapsed)
                end
          end
    end
  end.

End RewardsService.

(** ** CooldownFinalizerProcessor *)

Module CooldownFinalizerProcessor.

Record FinalizedEntry : Type := mkFinalizedEntry {
  fe_positionId : string;
  fe_pda : Pda;
  fe_owner : string;
  fe_amount : Z
}.

(** [finalized] and, when the loop ran, [total] and [results]. *)
Record SweepResult : Type := mkSweepResult {
  finalized : Z;
  total : option Z;
  results : list FinalizedEntry
}.

(** The [where] clause of [findMany]. *)
Definition expiredCooldown (now : Z) (p : StakePosition) : bool :=
  Bool.eqb (isActive p) true
  && match cooldownEnd p with
     | Some c => c <=? now
     | None => false
     end
  && match pendingPrincipal p with
     | Some v => 0 <? v
     | None => false
     end.

Definition set_totals (staked power : Z) (s : ProgramState) : ProgramState :=
  mkProgramState (isPaused s) (currentEpoch s) (currentEpochStartTs s)
    (currentWeeklyEmission s) staked (totalRewardPool s) power.

(** The body of the [for] loop on one selected row ([position] is the row
    as [findMany] returned it).  Neither call throws, so the [catch] branch
    of the source is never taken. *)
Definition finalizePosition (position : StakePosition) : M unit :=
  prisma.stakePosition.updateById (id position)
    (fun p => set_cooldownEnd None
                (set_pendingPrincipal (Some 0) (set_isActive false p))) ;;;
  programState <- prisma.programState.findFirst ;;
  match programState with
  | Some programState =>
    let newTotalStaked :=
      Js.minus (Js.Number (totalStaked programState))
        (Js.Number (amount position)) in
    let newTotalStakingPower :=
      Js.minus (Js.Number (totalStakingPower programState))
        (Js.Number (stakingPower position)) in
    prisma.programState.update
      (set_totals (Js.max0 newTotalStaked) (Js.max0 newTotalStakingPower))
  | None => ret tt
  end.

Definition entryOf (position : StakePosition) : FinalizedEntry :=
  mkFinalizedEntry (id position) (pda position) (owner position)
    (match pendingPrincipal position with
     | Some v => v
     | None => 0
     end).

Fixpoint finalizeLoop (positions : list StakePosition) (finalizedCount : Z)
    (results : list FinalizedEntry) : M (Z * list FinalizedEntry) :=
  match positions with
  | [] => ret (finalizedCount, results)
  | position :: rest =>
    finalizePosition position ;;;
    finalizeLoop rest (finalizedCount + 1) (results ++ [entryOf position])
  end.

Definition handleCooldownFinalization (now : Z) : M SweepResult :=
  positionsToFinalize <- prisma.stakePosition.findMany (expiredCooldown now) ;;
  if Z.of_nat (List.length positionsToFinalize) =? 0 then
    ret (mkSweepResult 0 None [])
  else
    r <- finalizeLoop positionsToFinalize 0 [] ;;
    ret (mkSweepResult (fst r) (Some (Z.of_nat (List.length positionsToFinalize)))
           (snd r)).

End CooldownFinalizerProcessor.

(** ** RewardDistributionProcessor *)

Module RewardDistributionProcessor.

Inductive DistributionResult : Type :=
| Skipped                          (* { skipped: true, reason } *)
| NoActivePositions                (* { distributed: 0, amount: 0 } *)
| Distributed (epoch positionsUpdated : Z) (totalDistributed : Js.num)
    (weeklyEmission : Z).

Definition userShare (weeklyPoolEmission totalStakingPower : Z)
    (position : StakePosition) : Js.num :=
  let stakingPower := Js.Number (stakingPower position) in
  Js.floor_div (Js.mul weeklyPoolEmission stakingPower) totalStakingPower.

Fixpoint distributeLoop (now weeklyPoolEmission totalStakingPower : Z)
    (positions : list StakePosition) (distributedCount : Z)
    (totalDistributed : Js.num) : M (Z * Js.num) :=
  match positions with
  | [] => ret (distributedCount, totalDistributed)
  | position :: rest =>
    let share := userShare weeklyPoolEmission totalStakingPower position in
    if Js.gt share 0 then
      prisma.stakePosition.updateById (id position) (set_lastRewardTs now) ;;;
      distributeLoop now weeklyPoolEmission totalStakingPower rest
        (distributedCount + 1) (Js.add totalDistributed share)
    else
      distributeLoop now weeklyPoolEmission totalStakingPower rest
        distributedCount totalDistributed
  end.

Definition set_epoch (epoch startTs emission : Z) (s : ProgramState)
  : ProgramState :=
  mkProgramState (isPaused s) epoch startTs (Some emission) (totalStaked s)
    (totalRewardPool s) (totalStakingPower s).

Definition handleWeeklyDistribution (now : Z) : M DistributionResult :=
  programState <- prisma.programState.findFirst ;;
  match programState with
  | None => throw ProgramStateNotInitialized
  | Some programState =>
    if isPaused programState then ret Skipped
    else
      activePositions <- prisma.stakePosition.findMany
                           (fun p => Bool.eqb (isActive p) true) ;;
      if Z.of_nat (List.length activePositions) =? 0 then ret NoActivePositions
      else
        let totalStakingPower := Js.Number (totalStakingPower programState) in
        let rewardPool := Js.Number (totalRewardPool programState) in
        let weeklyPoolEmission := Js.floor_quot (Js.mul rewardPool 21) 10000 in
        r <- distributeLoop now weeklyPoolEmission totalStakingPower
               activePositions 0 (Js.Fin 0) ;;
        let newEpoch := currentEpoch programState + 1 in
        prisma.programState.update (set_epoch newEpoch now weeklyPoolEmission) ;;;
        ret (Distributed newEpoch (fst r) (snd r) weeklyPoolEmission)
  end.

End RewardDistributionProcessor.

(** ** Executions *)

(** The operations of the position lifecycle and the hourly sweep, with the
    clock readings and identifiers each call consumes. *)
Inductive Op : Type :=
| Open (uuid : string) (dateNow now : Z) (wallet : string)
    (amount durationMonths tierId : Z) (isLocked : bool)
    (positionSeed : option Z)
| InitiateClose (now : Z) (wallet : string) (positionSeed : Z)
| FinalizeClose (now : Z) (wallet : string) (positionSeed : Z)
| Sweep (now : Z).

(** Runs one operation; the value is the list of addresses the operation
    finalized (a ghost record, not stored by the service). *)
Definition exec (cfg : Config) (op : Op) : M (list Pda) :=
  match op with
  | Open uuid dateNow now wallet amount durationMonths tierId isLocked seed =>
    StakingService.stakeTokens uuid dateNow now wallet amount durationMonths
      tierId isLocked seed ;;;
    ret []
  | InitiateClose now wallet seed =>
    StakingService.unstakeTokens cfg now wallet seed ;;; ret []
  | FinalizeClose now wallet seed =>
    r <- StakingService.finalizeUnstake now wallet seed ;;
    ret [StakingService.fr_pda r]
  | Sweep now =>
    r <- CooldownFinalizerProcessor.handleCooldownFinalization now ;;
    ret (map CooldownFinalizerProcessor.fe_pda
           (CooldownFinalizerProcessor.results r))
  end.

(** A request that throws is answered with an error and the next one is
    served. *)
Definition step (cfg : Config) (st : Db * list Pda) (op : Op)
  : Db * list Pda :=
  match exec cfg op (fst st) with
  | (Ok l, db') => (db', snd st ++ l)
  | (Throw _, db') => (db', snd st)
  end.

Definition run (cfg : Config) (ops : list Op) (st : Db * list Pda)
  : Db * list Pda :=
  fold_left (step cfg) ops st.

Definition isSweep (op : Op) : bool :=
  match op with
  | Sweep _ => true
  | _ => false
  end.

(** Clock readings are Unix times, after the epoch. *)
Definition clockPositive (op : Op) : Prop :=
  match op with
  | Open _ _ now _ _ _ _ _ _ => 0 < now
  | InitiateClose now _ _ => 0 < now
  | FinalizeClose now _ _ => 0 < now
  | Sweep now => 0 < now
  end.

(** A position is opened with a positive principal (the request DTO asks
    for at least 1_000_000). *)
Definition principalPositive (op : Op) : Prop :=
  match op with
  | Open _ _ _ _ amount _ _ _ _ => 0 < amount
  | _ => True
  end.

(** ** Aggregates and invariants *)

Definition sumActive (f : StakePosition -> Z) (db : Db) : Z :=
  fold_right Z.add 0
    (map f (filter (fun p => isActive p) (stakePositions db))).

(** The round-trip property of the specification: the global totals are the
    sums over the active positions. *)
Definition aggregatesMatch (db : Db) : Prop :=
  match programState db with
  | Some s =>
    sumActive amount db = totalStaked s
    /\ sumActive stakingPower db = totalStakingPower s
  | None => False
  end.

(** A cooldown is set when [cooldownEnd] is neither [null] nor [0n]: the
    test of [unstakeTokens] and [finalizeUnstake]. *)
Definition cooldownSet (p : StakePosition) : bool := Js.truthy (cooldownEnd p).

(** A pending principal is set under the same test: neither [null] nor
    [0n]. *)
Definition pendingSet (p : StakePosition) : bool :=
  Js.truthy (pendingPrincipal p).

(** The three states of a position, against the ghost record [log] of
    finalized addresses: open, in cooldown, finalized. *)
Definition positionShape (log : list Pda) (p : StakePosition) : Prop :=
  (isActive p = true /\ cooldownEnd p = None /\ pendingPrincipal p = None
   /\ 0 < amount p /\ ~ In (pda p) log)
  \/ (isActive p = false
      /\ (exists c v, cooldownEnd p = Some c /\ c <> 0
                      /\ pendingPrincipal p = Some v /\ v <> 0)
      /\ ~ In (pda p) log)
  \/ (isActive p = false /\ cooldownEnd p = Some 0
      /\ pendingPrincipal p = Some 0 /\ In (pda p) log).

Definition lifecycleInv (st : Db * list Pda) : Prop :=
  NoDup (map pda (stakePositions (fst st)))
  /\ Forall (positionShape (snd st)) (stakePositions (fst st))
  /\ (forall k, In k (snd st) -> In k (map pda (stakePositions (fst st)))).

Definition set_stakingTiers (ts : list StakingTier) (db : Db) : Db :=
  mkDb ts (stakePositions db) (penaltyTransactions db) (rewardNfts db)
    (programState db).

Definition valueOf {A} (r : Outcome A * Db) : option A :=
  match fst r with
  | Ok a => Some a
  | Throw _ => None
  end.

(** ** Scenario data *)

Module Scenario.

Definition cfg : Config := mkConfig (Some 604800) (Some 31536000).

(** The tier of the specification's scenario: months 1 to 60. *)
Definition tier1 : StakingTier := mkTier 1 10000 1 60 true.

(** The program state of the seed script. *)
Definition seedState : ProgramState :=
  mkProgramState false 1 1700000000 (Some 1000000000) 0 1000000000000 0.

Definition db0 : Db := mkDb [tier1] [] [] [] (Some seedState).

Definition t0 : Z := 1700000000.

Definition openOp : Op :=
  Open "id-1" (t0 * 1000) t0 "alice" 1000000000 6 1 true (Some 7).

(** After the open. *)
Definition db1 : Db := fst (run cfg [openOp] (db0, [])).

(** After the open and an immediate initiate-close. *)
Definition db2 : Db :=
  fst (run cfg [openOp; InitiateClose t0 "alice" 7] (db0, [])).

(** A pool whose weekly emission rounds to zero. *)
Definition dustState : ProgramState :=
  mkProgramState false 1 1700000000 None 0 400 1000000000.

Definition dustPosition : StakePosition :=
  mkPosition "id-1" "alice" (StakePositionPda "alice" 7) 1000000000 6 1
    true 150 1500000000 t0 (t0 + 15552000) t0 (Some t0) None None true 7.

Definition dustDb : Db := mkDb [tier1] [dustPosition] [] [] (Some dustState).

(** The reward scenario of the end-to-end test: a position holding all of
    the staking power, two weeks after its last accrual. *)
Definition rewardState : ProgramState :=
  mkProgramState false 1 1700000000 None 0 1000000000000 100000000.

Definition rewardPosition : StakePosition :=
  mkPosition "id-1" "alice" (StakePositionPda "alice" 7) 100000000 3 1
    true 100 100000000 t0 (t0 + 7776000) t0 (Some t0) None None true 7.

Definition rewardDb : Db :=
  mkDb [tier1] [rewardPosition] [] [] (Some rewardState).

End Scenario.

(** ** Closed forms of the writes *)

(** The penalty of an early close of [p]. *)
Definition penaltyOf (p : StakePosition) : Z :=
  Js.floor_quot
    (Js.mul (Js.Number (amount p))
       (StakingService.getTierPenaltyMultiplier (tierId p))) 10000.

(** What [unstakeTokens] leaves pending for [p] at time [now]. *)
Definition pendingAfterClose (now : Z) (p : StakePosition) : Z :=
  if now <? unlockTs p then Js.minus (Js.Number (amount p)) (penaltyOf p)
  else Js.Number (amount p).

Definition closing (cfg : Config) (now pending : Z) (p : StakePosition)
  : StakePosition :=
  set_isActive false
    (set_pendingPrincipal (Some pending)
       (set_cooldownEnd (Some (now + StakingService.cooldownPeriod cfg)) p)).

Definition closed (p : StakePosition) : StakePosition :=
  set_amount 0 (set_pendingPrincipal (Some 0) (set_cooldownEnd (Some 0) p)).

(** [p] is the row stored under the derived address [k]; no row is stored
    under a derivation that failed. *)
Definition hasPda (k : option Pda) (p : StakePosition) : bool :=
  match k with
  | Some a => pda_eqb (pda p) a
  | None => false
  end.

(** The row [stakeTokens] creates. *)
Definition opened (uuid : string) (dateNow now : Z) (wallet : string)
    (amount durationMonths tierId : Z) (isLocked : bool)
    (positionSeed : option Z) : StakePosition :=
  mkPosition uuid wallet
    (StakePositionPda wallet
       (Z.abs (StakingService.seedOrNow positionSeed dateNow)))
    amount durationMonths tierId isLocked
    (StakingService.calculatePowerMultiplier durationMonths)
    (Js.floor_quot
       (Js.mul amount (StakingService.calculatePowerMultiplier durationMonths))
       100)
    now (now + durationMonths * 30 * 24 * 60 * 60) now (Some now) None None true
    (StakingService.seedOrNow positionSeed dateNow).

(** What the weekly job does to a row: the accrual clock moves for an
    active position whose share of the emission is positive. *)
Definition touched (now weeklyPoolEmission totalStakingPower : Z)
    (p : StakePosition) : StakePosition :=
  if isActive p
     && Js.gt (RewardDistributionProcessor.userShare weeklyPoolEmission
                 totalStakingPower p) 0
  then set_lastRewardTs now p
  else p.

(** The emission and the total power the weekly job computes from the
    stored program state. *)
Definition weeklyEmissionOf (s : ProgramState) : Z :=
  RewardsService.weeklyPoolEmission (Js.Number (totalRewardPool s)).

Definition totalPowerOf (s : ProgramState) : Z :=
  Js.Number (totalStakingPower s).

(** The row the sweep writes. *)
Definition swept (p : StakePosition) : StakePosition :=
  set_cooldownEnd None (set_pendingPrincipal (Some 0) (set_isActive false p)).

(** ** Further services *)

(** The methods below throw errors of their own; each module carries its
    error type and returns [Done] or [Fail] beside the database. *)
Inductive Res (E A : Type) : Type :=
| Done (a : A)
| Fail (e : E).
Arguments Done {E A} a.
Arguments Fail {E A} e.

(** *** RewardsService.vestReward *)

Module RewardsVesting.

Inductive VestError : Type :=
| SeedAssertionFailed                    (* bn.js: 'Assertion failed' *)
| RewardNftNotFound                      (* 'Reward NFT not found' *)
| AlreadyVested                          (* 'Reward NFT already vested' *)
| VestingNotComplete (daysRemaining : Z).

(** [vr_amount] is the number printed by [rewardAmount.toString()]. *)
Record VestResult : Type := mkVestResult {
  vr_rewardNftId : string;
  vr_pda : Pda;
  vr_amount : Z
}.

Definition set_nft_isActive (v : bool) (n : RewardNft) : RewardNft :=
  mkRewardNft (nft_id n) (nft_owner n) (nft_pda n) (rewardAmount n) (vestTs n)
    v (nftSeed n) (nft_positionId n).

(** [n] is the receipt stored under the derived address [k]. *)
Definition hasNftPda (k : option Pda) (n : RewardNft) : bool :=
  match k with
  | Some a => pda_eqb (nft_pda n) a
  | None => false
  end.

Definition vestReward (now : Z) (wallet : string) (nftSeed : Z) (db : Db)
  : Res VestError VestResult * Db :=
  match findRewardNftPda wallet nftSeed with
  | None => (Fail SeedAssertionFailed, db)
  | Some rewardNftPda =>
    match find (fun n => pda_eqb (nft_pda n) rewardNftPda) (rewardNfts db) with
    | None => (Fail RewardNftNotFound, db)
    | Some rewardNft =>
      if negb (nft_isActive rewardNft) then (Fail AlreadyVested, db)
      else if now <? vestTs rewardNft then
        let remaining := vestTs rewardNft - now in
        let daysRemaining := Js.ceil_div remaining (24 * 60 * 60) in
        (Fail (VestingNotComplete daysRemaining), db)
      else
        (Done (mkVestResult (nft_id rewardNft) (nft_pda rewardNft)
                 (rewardAmount rewardNft)),
         set_rewardNfts
           (prisma.updateWhere (fun n => pda_eqb (nft_pda n) rewardNftPda)
              (set_nft_isActive false) (rewardNfts db)) db)
    end
  end.

End RewardsVesting.

(** *** AdminService *)

Module AdminService.

Inductive AdminError : Type :=
| AdminNotConfigured      (* Forbidden: 'Admin wallet not configured' *)
| AdminRequired           (* Forbidden: 'Admin access required' *)
| MinExceedsMax           (* 'Min duration cannot exceed max duration' *)
| TierExists              (* 'Tier ... already exists' *)
| TierNotFound            (* 'Tier ... not found' *)
| StateNotInitialized     (* 'Program state not initialized' *)
| AlreadyPaused           (* 'Program already paused' *)
| NotPaused.              (* 'Program is not paused' *)

(** [adminWallet] is the configured admin key, [None] when
    [getAdminKeypair()] returns nothing.  [None] is returned when access is
    granted. *)
Definition checkAdminAccess (adminWallet : option string) (wallet : string)
  : option AdminError :=
  match adminWallet with
  | None => Some AdminNotConfigured
  | Some a => if String.eqb wallet a then None else Some AdminRequired
  end.

Definition createTier (adminWallet : option string) (wallet : string)
    (tierId multiplier minMonths maxMonths : Z) (isActive : bool) (db : Db)
  : Res AdminError StakingTier * Db :=
  match checkAdminAccess adminWallet wallet with
  | Some e => (Fail e, db)
  | None =>
    if maxMonths <? minMonths then (Fail MinExceedsMax, db)
    else
      match find (fun t => tier_tierId t =? tierId) (stakingTiers db) with
      | Some _ => (Fail TierExists, db)
      | None =>
        let tier := mkTier tierId multiplier minMonths maxMonths isActive in
        (Done tier, set_stakingTiers (stakingTiers db ++ [tier]) db)
      end
  end.

(** The optional fields of the [updates] object; an absent field, and a
    multiplier of 0, leave the column as it is. *)
Record TierUpdates : Type := mkTierUpdates {
  up_multiplier : option Z;
  up_minMonths : option Z;
  up_maxMonths : option Z;
  up_isActive : option bool
}.

Definition orKeep {A} (v : option A) (old : A) : A :=
  match v with
  | Some x => x
  | None => old
  end.

Definition applyUpdates (u : TierUpdates) (t : StakingTier) : StakingTier :=
  mkTier (tier_tierId t)
    (match up_multiplier u with
     | Some m => if m =? 0 then tier_multiplier t else m
     | None => tier_multiplier t
     end)
    (orKeep (up_minMonths u) (minMonths t))
    (orKeep (up_maxMonths u) (maxMonths t))
    (orKeep (up_isActive u) (tier_isActive t)).

Definition updateTier (adminWallet : option string) (wallet : string)
    (tierId : Z) (updates : TierUpdates) (db : Db)
  : Res AdminError StakingTier * Db :=
  match checkAdminAccess adminWallet wallet with
  | Some e => (Fail e, db)
  | None =>
    match find (fun t => tier_tierId t =? tierId) (stakingTiers db) with
    | None => (Fail TierNotFound, db)
    | Some tier =>
      (Done (applyUpdates updates tier),
       set_stakingTiers
         (prisma.updateWhere (fun t => tier_tierId t =? tierId)
            (applyUpdates updates) (stakingTiers db)) db)
    end
  end.

Definition set_isPaused (v : bool) (s : ProgramState) : ProgramState :=
  mkProgramState v (currentEpoch s) (currentEpochStartTs s)
    (currentWeeklyEmission s) (totalStaked s) (totalRewardPool s)
    (totalStakingPower s).

Definition set_totalRewardPool (v : Z) (s : ProgramState) : ProgramState :=
  mkProgramState (isPaused s) (currentEpoch s) (currentEpochStartTs s)
    (currentWeeklyEmission s) (totalStaked s) v (totalStakingPower s).

(** Returns the new [isPaused]. *)
Definition pauseProgram (adminWallet : option string) (wallet : string)
    (db : Db) : Res AdminError bool * Db :=
  match checkAdminAccess adminWallet wallet with
  | Some e => (Fail e, db)
  | None =>
    match programState db with
    | None => (Fail StateNotInitialized, db)
    | Some programState =>
      if isPaused programState then (Fail AlreadyPaused, db)
      else (Done true, set_programState (Some (set_isPaused true programState)) db)
    end
  end.

Definition unpauseProgram (adminWallet : option string) (wallet : string)
    (db : Db) : Res AdminError bool * Db :=
  match checkAdminAccess adminWallet wallet with
  | Some e => (Fail e, db)
  | None =>
    match programState db with
    | None => (Fail StateNotInitialized, db)
    | Some programState =>
      if negb (isPaused programState) then (Fail NotPaused, db)
      else (Done false, set_programState (Some (set_isPaused false programState)) db)
    end
  end.

(** Returns [(amountAdded, newPoolBalance)]. *)
Definition replenishRewardPool (adminWallet : option string) (wallet : string)
    (amount : Z) (db : Db) : Res AdminError (Z * Z) * Db :=
  match checkAdminAccess adminWallet wallet with
  | Some e => (Fail e, db)
  | None =>
    match programState db with
    | None => (Fail StateNotInitialized, db)
    | Some programState =>
      let newPoolBalance :=
        Js.plus (Js.Number (totalRewardPool programState)) amount in
      (Done (amount, newPoolBalance),
       set_programState
         (Some (set_totalRewardPool newPoolBalance programState)) db)
    end
  end.

End AdminService.

(** *** InsightsService.getRewardPreview *)

Module InsightsService.

Record PositionPreview : Type := mkPositionPreview {
  pv_pda : Pda;
  pv_stakingPower : Z;
  pv_weeklyShare : Z;
  pv_weeksElapsed : Z;
  pv_estimatedReward : Z;
  pv_lastRewardTs : Z;
  pv_canClaim : bool;
  pv_canClaimAt : Z;
  pv_nextClaimIn : Z
}.

Record RewardPreview : Type := mkRewardPreview {
  rp_estimatedRewards : Z;
  rp_weeklyPoolEmission : option Z;
  rp_positions : list PositionPreview
}.

(** The callback of [positions.map]. *)
Definition previewOf (now totalStakingPower weeklyPoolEmission : Z)
    (position : StakePosition) : PositionPreview :=
  let weekInSeconds := 7 * 24 * 60 * 60 in
  let stakingPower := Js.Number (stakingPower position) in
  let lastRewardTs := lastRewardTs position in
  let timeElapsed := now - lastRewardTs in
  let weeksElapsed := timeElapsed / weekInSeconds in
  let userWeeklyShare :=
    if 0 <? totalStakingPower
    then Js.floor_quot (Js.mul weeklyPoolEmission stakingPower)
           totalStakingPower
    else 0 in
  let estimatedReward := Js.mul userWeeklyShare (Z.max weeksElapsed 0) in
  let lastClaim := RewardsService.lastClaimOf position in
  let canClaimAt := lastClaim + weekInSeconds in
  let canClaim := canClaimAt <=? now in
  mkPositionPreview (pda position) stakingPower userWeeklyShare weeksElapsed
    estimatedReward lastRewardTs canClaim canClaimAt
    (if canClaim then 0 else canClaimAt - now).

Definition getRewardPreview (now : Z) (owner_ : string) (db : Db)
  : RewardPreview :=
  let positions :=
    filter (fun p => String.eqb (owner p) owner_ && Bool.eqb (isActive p) true)
      (stakePositions db) in
  if Z.of_nat (List.length positions) =? 0 then mkRewardPreview 0 None []
  else
    match programState db with
    | None => mkRewardPreview 0 None []
    | Some programState =>
      let totalStakingPower := Js.Number (totalStakingPower programState) in
      let rewardPool := Js.Number (totalRewardPool programState) in
      let weeklyPoolEmission := Js.floor_quot (Js.mul rewardPool 21) 10000 in
      let positionPreviews :=
        map (previewOf now totalStakingPower weeklyPoolEmission) positions in
      let totalEstimatedRewards :=
        fold_left (fun sum p => Js.plus sum (pv_estimatedReward p))
          positionPreviews 0 in
      mkRewardPreview totalEstimatedRewards (Some weeklyPoolEmission)
        positionPreviews
    end.

End InsightsService.

(** *** IndexerSyncProcessor *)

Module IndexerSyncProcessor.

(** One entry of [getSignaturesForAddress]. *)
Record SigInfo : Type := mkSigInfo {
  si_signature : string;
  si_slot : Z;
  si_blockTime : option Z
}.

(** What [getTransaction] answers for a signature: a transaction, with
    its first instruction if it has one, [null], or a thrown error. *)
Inductive TxAnswer : Type :=
| TxFound (hasInstruction : bool)
| TxNull
| TxThrows.

Record Event : Type := mkEvent {
  ev_signature : string;
  ev_programId : string;
  ev_instruction : string;
  ev_slot : Z;
  ev_timestamp : Z;
  ev_commitment : string;
  ev_finalized : bool
}.

(** The [event] table and the processor's [lastProcessedSlot] field. *)
Record IndexerState : Type := mkIndexerState {
  events : list Event;
  lastProcessedSlot : Z
}.

Inductive SyncResult : Type :=
| CaughtUp (currentSlot lastProcessed : Z)
| Synced (processed startSlot endSlot currentSlot : Z).

(** The name [parseInstruction] gives. *)
Definition parseInstruction (hasInstruction : bool) : string :=
  if hasInstruction then "program_instruction" else "unknown".

(** [sigInfo.blockTime || Math.floor(Date.now() / 1000)]. *)
Definition timestampOf (si : SigInfo) (now : Z) : Z :=
  match si_blockTime si with
  | Some t => if t =? 0 then now else t
  | None => now
  end.

Definition known (sig : string) (evs : list Event) : bool :=
  existsb (fun e => String.eqb (ev_signature e) sig) evs.

(** The [for] loop over the signatures, with its [try]/[catch] around each
    one: a known signature, a [null] transaction and a throwing lookup all
    leave the table alone. *)
Fixpoint syncLoop (programId : string) (now : Z)
    (getTransaction : string -> TxAnswer) (signatures : list SigInfo)
    (evs : list Event) (processedCount : Z) : list Event * Z :=
  match signatures with
  | [] => (evs, processedCount)
  | sigInfo :: rest =>
    if known (si_signature sigInfo) evs then
      syncLoop programId now getTransaction rest evs processedCount
    else
      match getTransaction (si_signature sigInfo) with
      | TxFound hasInstruction =>
        syncLoop programId now getTransaction rest
          (evs ++ [mkEvent (si_signature sigInfo) programId
                     (parseInstruction hasInstruction) (si_slot sigInfo)
                     (timestampOf sigInfo now) "confirmed" false])
          (processedCount + 1)
      | TxNull | TxThrows =>
        syncLoop programId now getTransaction rest evs processedCount
      end
  end.

(** [currentSlot] and [signatures] are what [getSlot] and
    [getSignaturesForAddress] answered: the model covers the runs in which
    both calls return.  The [payload] column is not modelled. *)
Definition handleIndexerSync (programId : string) (now currentSlot : Z)
    (signatures : list SigInfo) (getTransaction : string -> TxAnswer)
    (st : IndexerState) : SyncResult * IndexerState :=
  let last :=
    if lastProcessedSlot st =? 0 then Z.max 0 (currentSlot - 100)
    else lastProcessedSlot st in
  if currentSlot - last <? 2 then
    (CaughtUp currentSlot last, mkIndexerState (events st) last)
  else
    let batchSize := 50 in
    let startSlot := last + 1 in
    let endSlot := Z.min (startSlot + batchSize) currentSlot in
    let r := syncLoop programId now getTransaction signatures (events st) 0 in
    (Synced (snd r) startSlot endSlot currentSlot,
     mkIndexerState (fst r) endSlot).

End IndexerSyncProcessor.

(** ** More closed forms *)

(** The fields of a position that no operation rewrites. *)
Definition identityOf (p : StakePosition)
  : string * string * Pda * Z * Z * Z * Z * Z * Z * Z :=
  (id p, owner p, pda p, durationMonths p, tierId p, powerMultiplier p,
   stakingPower p, startTs p, unlockTs p, positionSeed p).

(** The weekly job's running total over the selected rows. *)
Definition distributedTotal (weeklyPoolEmission totalStakingPower : Z)
    (positions : list StakePosition) (start : Js.num) : Js.num :=
  fold_left
    (fun acc q =>
       if Js.gt (RewardDistributionProcessor.userShare weeklyPoolEmission
                   totalStakingPower q) 0
       then Js.add acc
              (RewardDistributionProcessor.userShare weeklyPoolEmission
                 totalStakingPower q)
       else acc)
    positions start.

(** The totals after the sweep has gone through the selected rows. *)
Definition sweptTotal (f : StakePosition -> Z) (selected : list StakePosition)
    (start : Z) : Z :=
  fold_left (fun t q => Js.max0 (Js.minus (Js.Number t) (Js.Number (f q))))
    selected start.

(** ** More scenario data *)

Module Scenario2.

(** Two weeks after the reward scenario, when its position claims. *)
Definition claimTime : Z := Scenario.t0 + 1209600.

Definition claimedDb : Db :=
  snd (RewardsService.claimRewards Scenario.cfg "nft-1" 0 claimTime "alice" 7
         (Some 9) Scenario.rewardDb).

Definition claimedNft : RewardNft :=
  mkRewardNft "nft-1" "alice" (RewardNftPda "alice" 9) 2884615
    (claimTime + 31536000) true 9 "id-1".

Definition admin : option string := Some "admin"%string.

(** A row the sweep selects: still active, cooldown over, principal
    pending. *)
Definition expiredPosition : StakePosition :=
  mkPosition "id-9" "carol" (StakePositionPda "carol" 3) 700 6 1 true 150 1050
    Scenario.t0 (Scenario.t0 + 15552000) Scenario.t0 (Some Scenario.t0)
    (Some (Scenario.t0 + 10)) (Some 665) true 3.

Definition sweepState : ProgramState :=
  mkProgramState false 1 1700000000 None 1000 5000 1000.

Definition sweepDb : Db :=
  mkDb [Scenario.tier1] [expiredPosition] [] [] (Some sweepState).

(** A program state whose total staking power is still zero. *)
Definition zeroPowerDb : Db :=
  mkDb [Scenario.tier1] [Scenario.rewardPosition] [] []
    (Some Scenario.seedState).

Definition sig1 : IndexerSyncProcessor.SigInfo :=
  IndexerSyncProcessor.mkSigInfo "sig-1" 1000 (Some 1700000123).

Definition sig2 : IndexerSyncProcessor.SigInfo :=
  IndexerSyncProcessor.mkSigInfo "sig-2" 1001 None.

Definition rpc (sig : string) : IndexerSyncProcessor.TxAnswer :=
  IndexerSyncProcessor.TxFound true.

Definition indexer0 : IndexerSyncProcessor.IndexerState :=
  IndexerSyncProcessor.mkIndexerState [] 0.

End Scenario2.

(** ** Scenario data beyond 2^53 *)

Module Scenario3.

(** A principal whose product with the rate 500 is above 2^53. *)
Definition largePrincipal : Z := 289055769320180.

(** A tier the penalty table does not list. *)
Definition tier9 : StakingTier := mkTier 9 10000 1 60 true.

Definition largeDb0 : Db :=
  mkDb [Scenario.tier1; tier9] [] [] [] (Some Scenario.seedState).

(** One position of that principal on tier 1 and one on tier 9. *)
Definition largeDb : Db :=
  fst (run Scenario.cfg
         [Open "id-1" (Scenario.t0 * 1000) Scenario.t0 "alice" largePrincipal
            6 1 true (Some 7);
          Open "id-2" (Scenario.t0 * 1000) Scenario.t0 "bob" largePrincipal
            6 9 true (Some 8)]
         (largeDb0, [])).



(** A pool whose product with 21 is above 2^53. *)
Definition largePoolState : ProgramState :=
  mkProgramState false 1 1700000000 None 0 576510038107619 100000000.

Definition largePoolDb : Db :=
  mkDb [Scenario.tier1] [Scenario.rewardPosition] [] []
    (Some largePoolState).

(** A position opened with a principal of zero, then closed. *)
Definition zeroPrincipalDb : Db :=
  fst (run Scenario.cfg
         [Open "id-1" (Scenario.t0 * 1000) Scenario.t0 "alice" 0 6 1 true
            (Some 7);
          InitiateClose Scenario.t0 "alice" 7]
         (Scenario.db0, [])).

(** The scenario position after open, initiate-close and finalize-close,
    with the addresses finalized. *)
Definition finalizedRun : Db * list Pda :=
  run Scenario.cfg
    [Scenario.openOp; InitiateClose Scenario.t0 "alice" 7;
     FinalizeClose (Scenario.t0 + 604800) "alice" 7]
    (Scenario.db0, []).

(** A pool at 2^53. *)
Definition fullPoolState : ProgramState :=
  mkProgramState false 1 1700000000 None 0 9007199254740992 0.

Definition fullPoolDb : Db := mkDb [] [] [] [] (Some fullPoolState).

End Scenario3.

(** * Properties *)

(** ** Double arithmetic *)

Section Doubles.

Lemma round_small (x : Z) : Z.abs x < Js.two53 -> Js.round x = x.
Proof.
  intros H. unfold Js.round.
  destruct (Z.ltb_spec (Z.abs x) Js.two53); [reflexivity | lia].
Qed.

Lemma rne_lower (n d : Z) : n / d <= Js.rne n d.
Proof.
  unfold Js.rne. destruct (_ <? _); [lia |].
  destruct (_ <? _); [lia |]. destruct (Z.even _); lia.
Qed.

Lemma rne_upper (n d : Z) : Js.rne n d <= n / d + 1.
Proof.
  unfold Js.rne. destruct (_ <? _); [lia |].
  destruct (_ <? _); [lia |]. destruct (Z.even _); lia.
Qed.

(** Rounding keeps the sign. *)
Lemma round_pos (x : Z) : 0 < x -> 0 < Js.round x.
Proof.
  intros Hx. unfold Js.round.
  destruct (Z.ltb_spec (Z.abs x) Js.two53); [exact Hx |].
  rewrite Z.abs_eq in * by lia. rewrite Z.sgn_pos by lia.
  set (e := Z.log2 x - 52).
  assert (He : 0 <= e).
  { unfold e. assert (53 <= Z.log2 x); [| lia].
    apply Z.log2_le_pow2; [lia |]. exact H. }
  assert (Hp : 0 < 2 ^ e) by (apply Z.pow_pos_nonneg; lia).
  assert (Hq : 0 < x / 2 ^ e).
  { apply Z.div_str_pos. split; [exact Hp |].
    transitivity (2 ^ Z.log2 x); [apply Z.pow_le_mono_r; unfold e; lia |].
    apply Z.log2_spec. lia. }
  pose proof (rne_lower x (2 ^ e)). nia.
Qed.

Lemma round_opp (x : Z) : Js.round (- x) = - Js.round x.
Proof.
  unfold Js.round. rewrite Z.abs_opp, Z.sgn_opp.
  destruct (_ <? _); [reflexivity | lia].
Qed.

Lemma round_neg (x : Z) : x < 0 -> Js.round x < 0.
Proof.
  intros Hx. pose proof (round_pos (- x) ltac:(lia)) as H.
  rewrite round_opp in H. lia.
Qed.

Lemma round_nonneg (x : Z) : 0 <= x -> 0 <= Js.round x.
Proof.
  intros Hx. destruct (Z.eq_dec x 0) as [-> | Hne]; [reflexivity |].
  pose proof (round_pos x ltac:(lia)). lia.
Qed.

Lemma round_eq_0 (x : Z) : Js.round x = 0 <-> x = 0.
Proof.
  split; [| intros ->; reflexivity].
  intros H. destruct (Z.lt_trichotomy x 0) as [Hx | [Hx | Hx]]; [| exact Hx |].
  - pose proof (round_neg x Hx). lia.
  - pose proof (round_pos x Hx). lia.
Qed.

(** A positive value at most doubles when rounded. *)
Lemma round_le_double (y : Z) : 0 <= y -> Js.round y <= 2 * y.
Proof.
  intros Hy. unfold Js.round.
  destruct (Z.ltb_spec (Z.abs y) Js.two53); [lia |].
  rewrite Z.abs_eq in * by lia.
  assert (Hpos : 0 < y) by (unfold Js.two53 in *; lia).
  rewrite Z.sgn_pos by lia.
  set (e := Z.log2 y - 52).
  assert (He : 0 <= e).
  { unfold e. assert (53 <= Z.log2 y); [| lia].
    apply Z.log2_le_pow2; [lia |]. exact H. }
  assert (Hp : 0 < 2 ^ e) by (apply Z.pow_pos_nonneg; lia).
  assert (Hle : 2 ^ e <= y).
  { transitivity (2 ^ Z.log2 y); [apply Z.pow_le_mono_r; unfold e; lia |].
    apply Z.log2_spec. lia. }
  pose proof (rne_upper y (2 ^ e)).
  pose proof (Z.mul_div_le y (2 ^ e) Hp).
  nia.
Qed.

Lemma Number_exact (x : Z) : Z.abs x < Js.two53 -> Js.Number x = x.
Proof. apply round_small. Qed.

Lemma mul_exact (a b : Z) : Z.abs (a * b) < Js.two53 -> Js.mul a b = a * b.
Proof. apply round_small. Qed.

Lemma plus_exact (a b : Z) : Z.abs (a + b) < Js.two53 -> Js.plus a b = a + b.
Proof. apply round_small. Qed.

Lemma minus_exact (a b : Z) : Z.abs (a - b) < Js.two53 -> Js.minus a b = a - b.
Proof. apply round_small. Qed.

(** The exponent [Js.exponent] picks leaves at least 53 bits in the
    scaled quotient. *)
Lemma exponent_lower (n d : Z) :
  0 < n -> 0 < d ->
  let e := Js.exponent n d in
  (0 <= e -> Js.two53 / 2 * (d * 2 ^ e) <= n)
  /\ (e < 0 -> Js.two53 / 2 * d <= n * 2 ^ (- e)).
Proof.
  intros Hn Hd e.
  change (Js.two53 / 2) with (2 ^ 52).
  pose proof (Z.log2_spec n Hn) as [Ln Un].
  pose proof (Z.log2_spec d Hd) as [Ld Ud].
  pose proof (Z.log2_nonneg n) as Nn.
  pose proof (Z.log2_nonneg d) as Nd.
  unfold e, Js.exponent.
  set (ln := Z.log2 n) in *. set (ld := Z.log2 d) in *.
  set (k := ln - ld).
  rewrite Z.pow_succ_r in Un, Ud by assumption.
  destruct (Z.leb_spec 0 k) as [Hk | Hk].
  - assert (Ek : 2 ^ ln = 2 ^ ld * 2 ^ k).
    { rewrite <- Z.pow_add_r by lia. f_equal. unfold k. lia. }
    assert (Pk : 0 < 2 ^ k) by (apply Z.pow_pos_nonneg; lia).
    destruct (Z.ltb_spec n (d * 2 ^ k)) as [Hb | Hb].
    + split; intros He.
      * assert (E2 : 2 ^ k = 2 ^ 53 * 2 ^ (k - 53)).
        { rewrite <- Z.pow_add_r by lia. f_equal. lia. }
        assert (0 < 2 ^ (k - 53)) by (apply Z.pow_pos_nonneg; lia).
        change (2 ^ 53) with (2 * 2 ^ 52) in E2.
        nia.
      * assert (E2 : 2 ^ 53 = 2 ^ k * 2 ^ (- (k - 53))).
        { rewrite <- Z.pow_add_r by lia. f_equal. lia. }
        assert (0 < 2 ^ (- (k - 53))) by (apply Z.pow_pos_nonneg; lia).
        change (2 ^ 53) with (2 * 2 ^ 52) in E2.
        nia.
    + split; intros He.
      * assert (E2 : 2 ^ k = 2 ^ 52 * 2 ^ (k - 52)).
        { rewrite <- Z.pow_add_r by lia. f_equal. lia. }
        nia.
      * assert (E2 : 2 ^ 52 = 2 ^ k * 2 ^ (- (k - 52))).
        { rewrite <- Z.pow_add_r by lia. f_equal. lia. }
        assert (0 < 2 ^ (- (k - 52))) by (apply Z.pow_pos_nonneg; lia).
        nia.
  - assert (Ek : 2 ^ ld = 2 ^ ln * 2 ^ (- k)).
    { rewrite <- Z.pow_add_r by lia. f_equal. unfold k. lia. }
    assert (Pk : 0 < 2 ^ (- k)) by (apply Z.pow_pos_nonneg; lia).
    destruct (Z.ltb_spec (n * 2 ^ (- k)) d) as [Hb | Hb].
    + split; intros He; [lia |].
      assert (E2 : 2 ^ (- (k - 53)) = 2 ^ 53 * 2 ^ (- k)).
      { rewrite <- Z.pow_add_r by lia. f_equal. lia. }
      change (2 ^ 53) with (2 * 2 ^ 52) in E2.
      rewrite E2. nia.
    + split; intros He; [lia |].
      assert (E2 : 2 ^ (- (k - 52)) = 2 ^ 52 * 2 ^ (- k)).
      { rewrite <- Z.pow_add_r by lia. f_equal. lia. }
      rewrite E2. nia.
Qed.

(** Below 2^53 the floored quotient of doubles is the floored quotient of
    integers: the rounding of the quotient never reaches the next
    integer. *)
Lemma floor_quot_exact (a b : Z) :
  0 <= a < Js.two53 -> 0 < b -> Js.floor_quot a b = a / b.
Proof.
  intros [Ha0 Ha] Hb. unfold Js.floor_quot.
  destruct (Z.eqb_spec a 0) as [-> | Hne]; [now rewrite Z.div_0_l by lia |].
  assert (Hpos : 0 < a) by lia.
  rewrite (Z.abs_eq a), (Z.abs_eq b), (Z.sgn_pos a), (Z.sgn_pos b) by lia.
  change (1 * 1) with 1.
  destruct (exponent_lower a b Hpos Hb) as [Hge Hlt].
  change (Js.two53 / 2) with 4503599627370496 in *.
  unfold Js.two53 in Ha.
  set (e := Js.exponent a b) in *.
  destruct (Z.leb_spec 0 e) as [He | He].
  - specialize (Hge He).
    assert (Hp : 0 < 2 ^ e) by (apply Z.pow_pos_nonneg; lia).
    assert (b * 2 ^ e = 1) by nia.
    assert (b = 1) by nia. assert (2 ^ e = 1) by nia.
    subst b. rewrite H1. rewrite !Z.mul_1_l, Z.mul_1_r.
    unfold Js.rne. rewrite Z.mod_1_r, !Z.div_1_r. reflexivity.
  - specialize (Hlt He). rewrite Z.mul_1_l.
    set (t := 2 ^ (- e)) in *.
    assert (Ht : 2 <= t).
    { unfold t. change 2 with (2 ^ 1) at 1. apply Z.pow_le_mono_r; lia. }
    set (N := a * t) in *.
    assert (HQt : N / b / t = a / b).
    { unfold N. rewrite Z.div_div by lia.
      rewrite Z.div_mul_cancel_r by lia. reflexivity. }
    pose proof (Z.div_mod N b ltac:(lia)) as Hdm.
    pose proof (Z.mod_pos_bound N b Hb) as Hmb.
    assert (HQ : 4503599627370496 <= N / b)
      by (apply Z.div_le_lower_bound; lia).
    unfold Js.rne.
    destruct (Z.ltb_spec (2 * (N mod b)) b) as [H1 | H1]; [exact HQt |].
    assert (Hup : (N / b + 1) / t = a / b).
    { rewrite <- HQt.
      set (Q := N / b) in *. set (R := N mod b) in *.
      pose proof (Z.div_mod Q t ltac:(lia)) as Hq.
      pose proof (Z.mod_pos_bound Q t ltac:(lia)) as Hqb.
      set (c := Q / t) in *. set (r := Q mod t) in *.
      destruct (Z.eq_dec r (t - 1)) as [Hr | Hr].
      - exfalso.
        assert (E1 : a * t = (t * (c + 1) - 1) * b + R)
          by (unfold N in Hdm; nia).
        assert (E2 : b - R = t * ((c + 1) * b - a)) by nia.
        assert (E3 : 1 <= (c + 1) * b - a) by nia.
        assert (E4 : 2 * t <= b) by nia.
        assert (E5 : 2 * Q + 1 <= a) by nia.
        lia.
      - symmetry. apply (Z.div_unique (Q + 1) t c (r + 1)); lia. }
    destruct (Z.ltb_spec b (2 * (N mod b))); [exact Hup |].
    destruct (Z.even (N / b)); [exact HQt | exact Hup].
Qed.

Lemma floor_quot_nonneg (z d : Z) : 0 <= z -> 0 < d -> 0 <= Js.floor_quot z d.
Proof.
  intros Hz Hd. unfold Js.floor_quot.
  destruct (Z.eqb_spec z 0) as [-> | Hne]; [lia |].
  assert (Hpos : 0 < z) by lia.
  rewrite (Z.abs_eq z), (Z.abs_eq d), (Z.sgn_pos z), (Z.sgn_pos d) by lia.
  change (1 * 1) with 1. rewrite !Z.mul_1_l.
  set (e := Js.exponent z d).
  destruct (Z.leb_spec 0 e) as [He | He].
  - assert (0 < 2 ^ e) by (apply Z.pow_pos_nonneg; lia).
    pose proof (rne_lower z (d * 2 ^ e)).
    assert (0 <= z / (d * 2 ^ e)) by (apply Z.div_pos; nia).
    nia.
  - assert (0 < 2 ^ (- e)) by (apply Z.pow_pos_nonneg; lia).
    pose proof (rne_lower (z * 2 ^ (- e)) d).
    assert (0 <= z * 2 ^ (- e) / d) by (apply Z.div_pos; nia).
    apply Z.div_pos; lia.
Qed.

(** A floored quotient of doubles is at most twice the exact quotient. *)
Lemma floor_quot_le_double (z d : Z) :
  0 <= z -> 0 < d -> d * Js.floor_quot z d <= 2 * z.
Proof.
  intros Hz Hd. unfold Js.floor_quot.
  destruct (Z.eqb_spec z 0) as [-> | Hne]; [lia |].
  assert (Hpos : 0 < z) by lia.
  rewrite (Z.abs_eq z), (Z.abs_eq d), (Z.sgn_pos z), (Z.sgn_pos d) by lia.
  change (1 * 1) with 1.
  destruct (exponent_lower z d Hpos Hd) as [Hge Hlt].
  change (Js.two53 / 2) with 4503599627370496 in *.
  set (e := Js.exponent z d) in *.
  destruct (Z.leb_spec 0 e) as [He | He].
  - specialize (Hge He).
    assert (Hp : 0 < 2 ^ e) by (apply Z.pow_pos_nonneg; lia).
    set (D := d * 2 ^ e) in *.
    assert (HD : 0 < D) by (unfold D; nia).
    pose proof (rne_upper z D).
    pose proof (Z.mul_div_le z D HD).
    assert (1 <= z / D) by (apply Z.div_le_lower_bound; lia).
    rewrite Z.mul_1_l.
    replace (d * (Js.rne z D * 2 ^ e)) with (D * Js.rne z D)
      by (unfold D; ring).
    nia.
  - specialize (Hlt He). rewrite Z.mul_1_l.
    set (t := 2 ^ (- e)) in *.
    assert (Ht : 0 < t) by (apply Z.pow_pos_nonneg; lia).
    set (N := z * t) in *.
    pose proof (rne_upper N d).
    pose proof (Z.mul_div_le N d Hd).
    assert (1 <= N / d) by (apply Z.div_le_lower_bound; lia).
    pose proof (Z.mul_div_le (Js.rne N d) t Ht).
    assert (d * Js.rne N d <= 2 * N) by nia.
    unfold N in *. nia.
Qed.

(** Rounding does not fall below a bound that is itself at most 2^53. *)
Lemma round_ge_small (c y : Z) :
  0 <= c <= Js.two53 -> c <= y -> c <= Js.round y.
Proof.
  intros [Hc0 Hc] Hy. unfold Js.round.
  destruct (Z.ltb_spec (Z.abs y) Js.two53); [lia |].
  rewrite Z.abs_eq in * by lia.
  assert (Hpos : 0 < y) by (unfold Js.two53 in *; lia).
  rewrite Z.sgn_pos by lia.
  set (e := Z.log2 y - 52).
  assert (He : 1 <= e).
  { unfold e. assert (53 <= Z.log2 y); [| lia].
    apply Z.log2_le_pow2; [lia |]. exact H. }
  assert (Hp : 2 <= 2 ^ e).
  { change 2 with (2 ^ 1) at 1. apply Z.pow_le_mono_r; lia. }
  assert (Hle : 2 ^ 52 * 2 ^ e <= y).
  { rewrite <- Z.pow_add_r by lia.
    replace (52 + e) with (Z.log2 y) by (unfold e; lia).
    apply Z.log2_spec. lia. }
  assert (Hq : 2 ^ 52 <= y / 2 ^ e)
    by (apply Z.div_le_lower_bound; lia).
  pose proof (rne_lower y (2 ^ e)).
  change (2 ^ 52) with 4503599627370496 in *. unfold Js.two53 in *.
  nia.
Qed.

(** A quotient of at least 1 stays at least 1. *)
Lemma floor_quot_pos (z d : Z) : 0 < d -> d <= z -> 0 < Js.floor_quot z d.
Proof.
  intros Hd Hz. unfold Js.floor_quot.
  destruct (Z.eqb_spec z 0) as [-> | Hne]; [lia |].
  assert (Hpos : 0 < z) by lia.
  rewrite (Z.abs_eq z), (Z.abs_eq d), (Z.sgn_pos z), (Z.sgn_pos d) by lia.
  change (1 * 1) with 1. rewrite !Z.mul_1_l.
  destruct (exponent_lower z d Hpos Hd) as [Hge Hlt].
  change (Js.two53 / 2) with 4503599627370496 in *.
  set (e := Js.exponent z d) in *.
  destruct (Z.leb_spec 0 e) as [He | He].
  - specialize (Hge He).
    assert (Hp : 0 < 2 ^ e) by (apply Z.pow_pos_nonneg; lia).
    pose proof (rne_lower z (d * 2 ^ e)).
    assert (4503599627370496 <= z / (d * 2 ^ e))
      by (apply Z.div_le_lower_bound; nia).
    nia.
  - set (t := 2 ^ (- e)) in *.
    assert (Ht : 0 < t) by (apply Z.pow_pos_nonneg; lia).
    pose proof (rne_lower (z * t) d).
    assert (t <= z * t / d) by (apply Z.div_le_lower_bound; nia).
    assert (1 <= Js.rne (z * t) d / t)
      by (apply Z.div_le_lower_bound; lia).
    lia.
Qed.

End Doubles.

(** ** Reward arithmetic *)

Section RewardMath.

Import RewardsService.

(** Where the product [rewardPool * 21] is below 2^53 the emission is the
    integer formula. *)
Lemma weeklyPoolEmission_exact (rewardPool : Z) :
  0 <= rewardPool -> rewardPool * 21 < Js.two53 ->
  weeklyPoolEmission rewardPool = rewardPool * 21 / 10000.
Proof.
  intros H0 H. unfold weeklyPoolEmission, weeklyEmissionRate, emissionPrecision.
  rewrite mul_exact by lia. apply floor_quot_exact; lia.
Qed.

Lemma weeklyPoolEmission_floor (rewardPool : Z) :
  0 <= rewardPool -> rewardPool * 21 < Js.two53 ->
  10000 * weeklyPoolEmission rewardPool <= rewardPool * 21
  < 10000 * (weeklyPoolEmission rewardPool + 1).
Proof.
  intros H0 H. rewrite weeklyPoolEmission_exact by assumption.
  pose proof (Z.div_mod (rewardPool * 21) 10000 ltac:(lia)) as E.
  pose proof (Z.mod_pos_bound (rewardPool * 21) 10000 ltac:(lia)) as B.
  lia.
Qed.

Lemma weeklyPoolEmission_nonneg (rewardPool : Z) :
  0 <= rewardPool -> 0 <= weeklyPoolEmission rewardPool.
Proof.
  intros H. unfold weeklyPoolEmission, weeklyEmissionRate, emissionPrecision.
  apply floor_quot_nonneg; [| lia]. apply round_nonneg. lia.
Qed.

Lemma userWeeklyShare_exact (userPower totalPower pool : Z) :
  0 <= pool -> 0 <= userPower -> 0 < totalPower ->
  pool * 21 < Js.two53 ->
  pool * 21 / 10000 * userPower < Js.two53 ->
  userWeeklyShare userPower totalPower pool
  = pool * 21 / 10000 * userPower / totalPower.
Proof.
  intros Hp Hu Ht H1 H2. unfold userWeeklyShare.
  rewrite weeklyPoolEmission_exact by assumption.
  assert (0 <= pool * 21 / 10000) by (apply Z.div_pos; lia).
  rewrite mul_exact by nia. apply floor_quot_exact; [nia | lia].
Qed.

(** The annualised rate and the cap, where nothing is rounded. *)
Lemma applyApyCap_exact (s r w : Z) :
  0 < s -> 0 < w -> 0 <= r ->
  r * 52 * 10000 < Js.two53 -> s * 7500 * w < Js.two53 ->
  applyApyCap s r w =
  if 7500 <? r * 52 * 10000 / (s * w) then s * 7500 * w / (10000 * 52) else r.
Proof.
  intros Hs Hw Hr Hn Hd. unfold applyApyCap.
  destruct (Z.eqb_spec w 0); [lia |].
  unfold annualizedRate, Js.floor_div_mul, cappedReward, maxApyBasisPoints.
  assert (Hsw : 0 < s * w) by nia.
  rewrite (mul_exact s w) by nia.
  destruct (Z.eqb_spec (s * w) 0); [lia |]. cbn [andb].
  unfold Js.floor_div. destruct (Z.eqb_spec (s * w) 0); [lia |].
  rewrite (mul_exact r 52) by nia.
  rewrite (mul_exact (r * 52) 10000) by nia.
  rewrite floor_quot_exact by lia.
  rewrite (mul_exact s 7500) by nia.
  rewrite (mul_exact (s * 7500) w) by nia.
  rewrite floor_quot_exact by lia.
  reflexivity.
Qed.

(** With nothing staked the quotient is not finite; no rounding is
    involved. *)
Lemma applyApyCap_nothing_staked (r w : Z) :
  0 <= r -> 0 < w -> applyApyCap 0 r w = 0.
Proof.
  intros Hr Hw. unfold applyApyCap.
  destruct (Z.eqb_spec w 0); [lia |].
  unfold annualizedRate, Js.floor_div_mul, cappedReward, Js.mul.
  cbn [Z.mul]. change (Js.round 0) with 0. cbn [Z.eqb Z.ltb Z.compare orb].
  destruct (Z.ltb_spec w 0); [lia |]. cbn [andb].
  unfold Js.floor_div. cbn [Z.eqb].
  destruct (Z.eq_dec r 0) as [-> | Hr0]; [reflexivity |].
  assert (Hn : 0 < Js.round (Js.round (r * 52) * 10000)).
  { apply round_pos. pose proof (round_pos (r * 52) ltac:(lia)). lia. }
  destruct (Z.eqb_spec (Js.round (Js.round (r * 52) * 10000)) 0); [lia |].
  destruct (Z.ltb_spec 0 (Js.round (Js.round (r * 52) * 10000))); [| lia].
  reflexivity.
Qed.

Lemma applyApyCap_le (s r w : Z) :
  0 <= s -> 0 <= r -> 0 <= w ->
  r * 52 * 10000 < Js.two53 -> s * 7500 * w < Js.two53 ->
  applyApyCap s r w <= r.
Proof.
  intros Hs Hr Hw Hn Hd.
  destruct (Z.eq_dec w 0) as [-> | Hw0].
  { unfold applyApyCap. cbn. lia. }
  destruct (Z.eq_dec s 0) as [-> | Hs0].
  { rewrite applyApyCap_nothing_staked by lia. lia. }
  rewrite applyApyCap_exact by lia.
  destruct (Z.ltb_spec 7500 (r * 52 * 10000 / (s * w))) as [Hgt | Hle]; [| lia].
  apply Z.div_le_upper_bound; [lia |].
  assert (Hb : 0 < s * w) by nia.
  pose proof (Z.mul_div_le (r * 52 * 10000) (s * w) Hb) as Hdm.
  nia.
Qed.

Lemma applyApyCap_nonneg (s r w : Z) :
  0 <= s -> 0 <= r -> 0 <= w -> 0 <= applyApyCap s r w.
Proof.
  intros Hs Hr Hw. unfold applyApyCap.
  destruct (w =? 0); [exact Hr |].
  destruct (Js.gt _ _); [| exact Hr].
  unfold cappedReward, maxApyBasisPoints, Js.mul.
  apply floor_quot_nonneg; [| lia].
  apply round_nonneg.
  pose proof (round_nonneg (s * 7500) ltac:(lia)). nia.
Qed.







End RewardMath.

(** ** The duration multiplier *)

Lemma calculatePowerMultiplier_bands (d : Z) :
  (d <= 5 /\ StakingService.calculatePowerMultiplier d = 100)
  \/ (6 <= d <= 11 /\ StakingService.calculatePowerMultiplier d = 150)
  \/ (12 <= d <= 17 /\ StakingService.calculatePowerMultiplier d = 200)
  \/ (18 <= d <= 23 /\ StakingService.calculatePowerMultiplier d = 250)
  \/ (24 <= d <= 35 /\ StakingService.calculatePowerMultiplier d = 300)
  \/ (36 <= d /\ StakingService.calculatePowerMultiplier d = 400).
Proof.
  unfold StakingService.calculatePowerMultiplier.
  destruct (Z.leb_spec 1 d); destruct (Z.leb_spec d 5); cbn [andb];
    try (left; split; [lia | reflexivity]);
    destruct (Z.leb_spec 6 d); destruct (Z.leb_spec d 11); cbn [andb];
    try (left; split; [lia | reflexivity]);
    try (right; left; split; [lia | reflexivity]);
    destruct (Z.leb_spec 12 d); destruct (Z.leb_spec d 17); cbn [andb];
    try (left; split; [lia | reflexivity]);
    try (right; right; left; split; [lia | reflexivity]);
    destruct (Z.leb_spec 18 d); destruct (Z.leb_spec d 23); cbn [andb];
    try (left; split; [lia | reflexivity]);
    try (right; right; right; left; split; [lia | reflexivity]);
    destruct (Z.leb_spec 24 d); destruct (Z.leb_spec d 35); cbn [andb];
    try (left; split; [lia | reflexivity]);
    try (right; right; right; right; left; split; [lia | reflexivity]);
    destruct (Z.leb_spec 36 d);
    try (left; split; [lia | reflexivity]);
    try (right; right; right; right; right; split; [lia | reflexivity]).
Qed.

Lemma calculatePowerMultiplier_range (d : Z) :
  100 <= StakingService.calculatePowerMultiplier d <= 400.
Proof.
  destruct (calculatePowerMultiplier_bands d)
    as [[_ E] | [[_ E] | [[_ E] | [[_ E] | [[_ E] | [_ E]]]]]]; rewrite E; lia.
Qed.

Lemma calculatePowerMultiplier_monotone (d1 d2 : Z) :
  d1 <= d2 -> StakingService.calculatePowerMultiplier d1 <= StakingService.calculatePowerMultiplier d2.
Proof.
  intros H.
  destruct (calculatePowerMultiplier_bands d1)
    as [[B1 E1] | [[B1 E1] | [[B1 E1] | [[B1 E1] | [[B1 E1] | [B1 E1]]]]]];
    destruct (calculatePowerMultiplier_bands d2)
      as [[B2 E2] | [[B2 E2] | [[B2 E2] | [[B2 E2] | [[B2 E2] | [B2 E2]]]]]];
    rewrite E1, E2; lia.
Qed.

(** ** The lifecycle operations, case by case *)

Lemma hasPda_none (rows : list StakePosition) : find (hasPda None) rows = None.
Proof. induction rows as [| q rows IH]; [reflexivity | exact IH]. Qed.

(** In a hypothesis [find (hasPda x) _ = Some _], names the address [x]
    derived. *)
Ltac derived Hf k Ek :=
  match type of Hf with
  | find (hasPda ?x) _ = Some _ =>
    destruct x as [k |] eqn:Ek; [| rewrite hasPda_none in Hf; discriminate]
  end.

Section Lifecycle.

Import StakingService.

Lemma pda_eqb_eq (a b : Pda) : pda_eqb a b = true <-> a = b.
Proof.
  destruct a as [o s | o s], b as [o' s' | o' s']; cbn;
    rewrite ?andb_true_iff, ?String.eqb_eq, ?Z.eqb_eq;
    split; intros H; try discriminate; try (destruct H; subst; reflexivity);
    inversion H; subst; auto.
Qed.

Lemma pda_eqb_refl (a : Pda) : pda_eqb a a = true.
Proof. now apply pda_eqb_eq. Qed.

Lemma find_hasPda (k : option Pda) (rows : list StakePosition)
    (p : StakePosition) :
  find (hasPda k) rows = Some p -> In p rows /\ k = Some (pda p).
Proof.
  intros H. destruct k as [a |]; [| rewrite hasPda_none in H; discriminate].
  apply find_some in H as [Hin Hk]. split; [exact Hin |].
  apply pda_eqb_eq in Hk. now rewrite Hk.
Qed.

(** The derivation succeeds exactly below 2^53 and forgets the sign of the
    seed. *)
Lemma findStakePositionPda_spec (wallet : string) (seed : Z) :
  findStakePositionPda wallet seed
  = if Z.abs seed <? Js.two53 then Some (StakePositionPda wallet (Z.abs seed))
    else None.
Proof.
  unfold findStakePositionPda, anchor.BN. now destruct (_ <? _).
Qed.

Lemma findRewardNftPda_spec (wallet : string) (seed : Z) :
  findRewardNftPda wallet seed
  = if Z.abs seed <? Js.two53 then Some (RewardNftPda wallet (Z.abs seed))
    else None.
Proof.
  unfold findRewardNftPda, anchor.BN. now destruct (_ <? _).
Qed.

(** *** [unstakeTokens] *)

Lemma unstakeTokens_ok (cfg : Config) (now : Z) (wallet : string) (seed : Z)
    (db : Db) (p : StakePosition) :
  find (hasPda (findStakePositionPda wallet seed)) (stakePositions db) = Some p ->
  isActive p = true ->
  cooldownAlreadyActive p = false ->
  exists db',
    unstakeTokens cfg now wallet seed db =
    (Ok (mkUnstakeResult (id p) (pda p) (now + cooldownPeriod cfg)
           (now <? unlockTs p)), db')
    /\ stakePositions db' =
       prisma.updateWhere (hasPda (findStakePositionPda wallet seed))
         (closing cfg now (pendingAfterClose now p)) (stakePositions db)
    /\ stakingTiers db' = stakingTiers db
    /\ rewardNfts db' = rewardNfts db
    /\ penaltyTransactions db' =
       (if now <? unlockTs p
        then penaltyTransactions db
             ++ [mkPenalty (id p) wallet (penaltyOf p)
                   (Js.floor_quot (penaltyOf p) 2)
                   (Js.floor_quot (penaltyOf p) 2)
                   (getTierPenaltyMultiplier (tierId p))]
        else penaltyTransactions db)
    /\ programState db' =
       (if now <? unlockTs p
        then option_map (add_totalRewardPool (Js.floor_quot (penaltyOf p) 2))
               (programState db)
        else programState db).
Proof.
  intros Hf Ha Hc.
  unfold unstakeTokens. derived Hf k Ek.
  unfold bind, prisma.stakePosition.findUnique.
  change (fun q => pda_eqb (pda q) k) with (hasPda (Some k)).
  rewrite Hf, Ha, Hc. cbn [negb].
  unfold pendingAfterClose, penaltyOf.
  destruct (now <? unlockTs p) eqn:E.
  - unfold applyEarlyPenalty, bind, prisma.penaltyTransaction.create,
      prisma.programState.findFirst.
    cbn -[Js.floor_quot Js.mul Js.minus Js.Number].
    destruct (programState db) as [s |] eqn:Es;
      cbn -[Js.floor_quot Js.mul Js.minus Js.Number];
      eexists; (split; [reflexivity |]);
      cbn -[Js.floor_quot Js.mul Js.minus Js.Number]; rewrite ?Es;
      repeat split.
  - cbn -[Js.Number]. eexists. split; [reflexivity |].
    cbn -[Js.Number]. repeat split.
Qed.

Lemma unstakeTokens_cases (cfg : Config) (now : Z) (wallet : string)
    (seed : Z) (db : Db) :
  (exists e, unstakeTokens cfg now wallet seed db = (Throw e, db))
  \/ (exists p,
        find (hasPda (findStakePositionPda wallet seed)) (stakePositions db)
        = Some p
        /\ isActive p = true /\ cooldownAlreadyActive p = false).
Proof.
  unfold unstakeTokens.
  destruct (findStakePositionPda wallet seed) as [k |];
    [| left; eexists; reflexivity].
  unfold bind, prisma.stakePosition.findUnique.
  change (fun q => pda_eqb (pda q) k) with (hasPda (Some k)).
  destruct (find _ (stakePositions db)) as [p |] eqn:Hf;
    [| left; eexists; reflexivity].
  destruct (isActive p) eqn:Ha; cbn [negb]; [| left; eexists; reflexivity].
  destruct (cooldownAlreadyActive p) eqn:Hc; [left; eexists; reflexivity |].
  right. exists p. auto.
Qed.

(** *** [finalizeUnstake] *)

Lemma finalizeUnstake_ok (now : Z) (wallet : string) (seed : Z) (db : Db)
    (p : StakePosition) (c : Z) :
  find (hasPda (findStakePositionPda wallet seed)) (stakePositions db) = Some p ->
  isActive p = false ->
  cooldownEnd p = Some c -> c <> 0 -> c <= now ->
  finalizeUnstake now wallet seed db =
  (Ok (mkFinalizeResult (id p) (pda p)
         (match pendingPrincipal p with Some v => v | None => 0 end)),
   set_stakePositions
     (prisma.updateWhere (hasPda (findStakePositionPda wallet seed)) closed
        (stakePositions db)) db).
Proof.
  intros Hf Ha Hc Hc0 Hle.
  unfold finalizeUnstake. derived Hf k Ek.
  unfold bind, prisma.stakePosition.findUnique.
  change (fun q => pda_eqb (pda q) k) with (hasPda (Some k)).
  rewrite Hf, Ha, Hc.
  destruct (Z.eqb_spec c 0); [contradiction |].
  destruct (Z.ltb_spec now c); [lia |].
  reflexivity.
Qed.

Lemma finalizeUnstake_cases (now : Z) (wallet : string) (seed : Z) (db : Db) :
  (exists e, finalizeUnstake now wallet seed db = (Throw e, db))
  \/ (exists p c,
        find (hasPda (findStakePositionPda wallet seed)) (stakePositions db)
        = Some p
        /\ isActive p = false /\ cooldownEnd p = Some c /\ c <> 0 /\ c <= now).
Proof.
  unfold finalizeUnstake.
  destruct (findStakePositionPda wallet seed) as [k |];
    [| left; eexists; reflexivity].
  unfold bind, prisma.stakePosition.findUnique.
  change (fun q => pda_eqb (pda q) k) with (hasPda (Some k)).
  destruct (find _ (stakePositions db)) as [p |] eqn:Hf;
    [| left; eexists; reflexivity].
  destruct (isActive p) eqn:Ha; [left; eexists; reflexivity |].
  destruct (cooldownEnd p) as [c |] eqn:Hc; [| left; eexists; reflexivity].
  destruct (Z.eqb_spec c 0); [left; eexists; reflexivity |].
  destruct (Z.ltb_spec now c); [left; eexists; reflexivity |].
  right. exists p, c. auto.
Qed.

(** *** [stakeTokens] *)

Lemma stakeTokens_cases (uuid : string) (dateNow now : Z) (wallet : string)
    (amount durationMonths tierId : Z) (isLocked : bool)
    (seed : option Z) (db : Db) :
  let row := opened uuid dateNow now wallet amount durationMonths tierId
               isLocked seed in
  (exists e,
     stakeTokens uuid dateNow now wallet amount durationMonths tierId isLocked
       seed db = (Throw e, db))
  \/ (existsb (fun p => pda_eqb (pda p) (pda row) || String.eqb (id p) (id row))
        (stakePositions db) = false
      /\ findStakePositionPda wallet (seedOrNow seed dateNow) = Some (pda row)
      /\ stakeTokens uuid dateNow now wallet amount durationMonths tierId
           isLocked seed db =
         (Ok (mkStakeResult uuid (pda row) (positionSeed row) amount
                durationMonths (powerMultiplier row) (stakingPower row)
                (unlockTs row)),
          set_stakePositions (stakePositions db ++ [row]) db)).
Proof.
  intros row.
  unfold stakeTokens. rewrite findStakePositionPda_spec.
  destruct (Z.abs (seedOrNow seed dateNow) <? Js.two53);
    [| left; eexists; reflexivity].
  unfold bind, prisma.stakingTier.findUnique.
  destruct (find _ (stakingTiers db)) as [t |]; [| left; eexists; reflexivity].
  destruct (tier_isActive t); cbn [negb]; [| left; eexists; reflexivity].
  destruct (_ || _); [left; eexists; reflexivity |].
  unfold prisma.stakePosition.create. fold row.
  destruct (existsb _ (stakePositions db)) eqn:E;
    [left; eexists; reflexivity |].
  right. split; [reflexivity |]. split; reflexivity.
Qed.

End Lifecycle.

(** ** Early close, penalty table and finalization *)

Section Closing.

Import StakingService.

Lemma find_updateWhere (k : option Pda) (f : StakePosition -> StakePosition)
    (rows : list StakePosition) :
  (forall q, pda (f q) = pda q) ->
  find (hasPda k) (prisma.updateWhere (hasPda k) f rows)
  = option_map f (find (hasPda k) rows).
Proof.
  intros Hf. unfold prisma.updateWhere.
  induction rows as [| q rows IH]; [reflexivity |].
  cbn. destruct (hasPda k q) eqn:E.
  - assert (E' : hasPda k (f q) = true)
      by (destruct k; cbn in *; [now rewrite Hf | discriminate]).
    rewrite E'. reflexivity.
  - rewrite E. exact IH.
Qed.

Lemma ceil_div_bounds (a : Z) :
  a <= 3600 * Js.ceil_div a 3600 < a + 3600.
Proof.
  unfold Js.ceil_div.
  pose proof (Z.div_mod (- a) 3600 ltac:(lia)).
  pose proof (Z.mod_pos_bound (- a) 3600 ltac:(lia)).
  lia.
Qed.

Lemma getTierPenaltyMultiplier_other (t : Z) :
  t <> 1 -> t <> 2 -> t <> 3 -> t <> 4 -> getTierPenaltyMultiplier t = 500.
Proof.
  intros H1 H2 H3 H4. unfold getTierPenaltyMultiplier, tierPenalties.
  destruct (Z.eqb_spec t 1); [contradiction |].
  destruct (Z.eqb_spec t 2); [contradiction |].
  destruct (Z.eqb_spec t 3); [contradiction |].
  destruct (Z.eqb_spec t 4); [contradiction |].
  reflexivity.
Qed.

Lemma getTierPenaltyMultiplier_range (t : Z) :
  500 <= getTierPenaltyMultiplier t <= 1250.
Proof.
  unfold getTierPenaltyMultiplier, tierPenalties.
  destruct (t =? 1); [cbn; lia |].
  destruct (t =? 2); [cbn; lia |].
  destruct (t =? 3); [cbn; lia |].
  destruct (t =? 4); cbn; lia.
Qed.

(** The penalty, its halves and the pending principal where the product
    [principal * rate] is below 2^53. *)
Lemma penaltyOf_exact (p : StakePosition) :
  0 <= amount p ->
  amount p * getTierPenaltyMultiplier (tierId p) < Js.two53 ->
  penaltyOf p = amount p * getTierPenaltyMultiplier (tierId p) / 10000
  /\ Js.floor_quot (penaltyOf p) 2 = penaltyOf p / 2
  /\ Js.minus (Js.Number (amount p)) (penaltyOf p) = amount p - penaltyOf p
  /\ 0 <= penaltyOf p <= amount p.
Proof.
  intros Ha Hr.
  pose proof (getTierPenaltyMultiplier_range (tierId p)) as Hrate.
  assert (E : penaltyOf p
              = amount p * getTierPenaltyMultiplier (tierId p) / 10000).
  { unfold penaltyOf. rewrite Number_exact by nia.
    rewrite mul_exact by nia. apply floor_quot_exact; [nia | lia]. }
  generalize dependent (getTierPenaltyMultiplier (tierId p)). intros rate.
  generalize dependent (penaltyOf p). intros pen.
  generalize dependent (amount p). intros a. intros Ha Hr Hrate ->.
  assert (Hpen : 0 <= a * rate / 10000 <= a).
  { split; [apply Z.div_pos; nia |].
    apply Z.div_le_upper_bound; [lia | nia]. }
  split; [reflexivity |].
  split; [apply floor_quot_exact; [nia | lia] |].
  split; [| exact Hpen].
  rewrite Number_exact by nia. apply minus_exact. nia.
Qed.




(** C10, as amended.  The early-close rate is read from the literal table:
    500, 750, 1000, 1250 for tiers 1 to 4 and 500 for every other [tierId].
    An early [unstakeTokens] on an active position without cooldown uses it
    whatever the tier rows hold: replacing the tier table changes neither
    the outcome nor the writes, and the recorded rate is the table's.  For a non-negative principal with [principal * rate]
    below 2^53 the recorded penalty is [floor(principal * rate / 10000)],
    hence [floor(principal * 500 / 10000)] for an unknown tier. *)
Theorem penalty_rate_is_hardcoded (cfg : Config) (now : Z) (wallet : string)
    (seed : Z) (db : Db) (p : StakePosition) (tiers' : list StakingTier) :
  find (hasPda (findStakePositionPda wallet seed)) (stakePositions db) = Some p ->
  isActive p = true ->
  cooldownAlreadyActive p = false ->
  now < unlockTs p ->
  getTierPenaltyMultiplier 1 = 500
  /\ getTierPenaltyMultiplier 2 = 750
  /\ getTierPenaltyMultiplier 3 = 1000
  /\ getTierPenaltyMultiplier 4 = 1250
  /\ (forall t, t <> 1 -> t <> 2 -> t <> 3 -> t <> 4 ->
      getTierPenaltyMultiplier t = 500)
  /\ exists r db' t,
       unstakeTokens cfg now wallet seed db = (Ok r, db')
       /\ unstakeTokens cfg now wallet seed (set_stakingTiers tiers' db)
          = (Ok r, set_stakingTiers tiers' db')
       /\ penaltyTransactions db' = penaltyTransactions db ++ [t]
       /\ tierMultiplier t = getTierPenaltyMultiplier (tierId p)
       /\ (0 <= amount p ->
           amount p * getTierPenaltyMultiplier (tierId p) < Js.two53 ->
           penaltyAmount t
           = amount p * getTierPenaltyMultiplier (tierId p) / 10000
           /\ toRewardPool t = penaltyAmount t / 2
           /\ toProtocol t = penaltyAmount t / 2
           /\ (tierId p <> 1 -> tierId p <> 2 -> tierId p <> 3 ->
               tierId p <> 4 ->
               penaltyAmount t = amount p * 500 / 10000)).
Proof.
  intros Hf Ha Hc Hearly.
  do 4 (split; [reflexivity |]).
  split; [exact getTierPenaltyMultiplier_other |].
  destruct (unstakeTokens_ok cfg now wallet seed db p Hf Ha Hc)
    as [db' [Hrun [Hpos [Htier [Hnft [Hpen Hst]]]]]].
  destruct (unstakeTokens_ok cfg now wallet seed (set_stakingTiers tiers' db) p
              Hf Ha Hc)
    as [db'' [Hrun' [Hpos' [Htier' [Hnft' [Hpen' Hst']]]]]].
  apply Z.ltb_lt in Hearly. rewrite Hearly in *.
  eexists. exists db'. eexists.
  split; [exact Hrun |].
  split.
  - rewrite Hrun'. f_equal.
    destruct db'' as [a b c d e], db' as [a' b' c' d' e'].
    cbn in *. subst. reflexivity.
  - split; [exact Hpen |]. split; [reflexivity |].
    intros Hamt Hrange.
    destruct (penaltyOf_exact p Hamt Hrange) as [E1 [E2 _]].
    cbn [penaltyAmount toRewardPool toProtocol].
    split; [exact E1 |]. split; [exact E2 |]. split; [exact E2 |].
    intros H1 H2 H3 H4. rewrite E1.
    now rewrite getTierPenaltyMultiplier_other.
Qed.

Lemma penalty_rate_is_hardcoded_witness :
  exists r db',
    unstakeTokens Scenario.cfg Scenario.t0 "alice" 7 Scenario.db1 = (Ok r, db')
    /\ unstakeTokens Scenario.cfg Scenario.t0 "alice" 7
         (set_stakingTiers [] Scenario.db1)
       = (Ok r, set_stakingTiers [] db').
Proof.
  destruct (penalty_rate_is_hardcoded Scenario.cfg Scenario.t0 "alice" 7
              Scenario.db1
              (opened "id-1" (Scenario.t0 * 1000) Scenario.t0 "alice"
                 1000000000 6 1 true (Some 7))
              [] ltac:(vm_compute; reflexivity) eq_refl eq_refl
              ltac:(vm_compute; reflexivity))
    as [_ [_ [_ [_ [_ [r [db' [t [H1 [H2 _]]]]]]]]]].
  exists r, db'. split; assumption.
Defined.

(** C10 as stated fails for a large principal.  A position on tier 9,
    which the table does not list, with principal 289_055_769_320_180: the
    recorded rate is 500 and [floor(principal * 500 / 10000)] is
    14_452_788_466_009, but the recorded penalty is 14_452_788_466_008,
    because [principal * 500] is not a double. *)
Lemma unknown_tier_penalty_rounds :
  map (fun q => (tierId q, amount q))
    (filter (fun q => String.eqb (owner q) "bob") (stakePositions Scenario3.largeDb))
  = [(9, 289055769320180)]
  /\ 289055769320180 * 500 / 10000 = 14452788466009
  /\ map (fun t => (penaltyAmount t, tierMultiplier t))
       (penaltyTransactions
          (snd (unstakeTokens Scenario.cfg Scenario.t0 "bob" 8
                  Scenario3.largeDb)))
     = [(14452788466008, 500)].
Proof. repeat split; vm_compute; reflexivity. Qed.

End Closing.

Section Finalizing.

Import StakingService.

(** C4.  For a position in cooldown ([cooldownEnd] set, inactive):
    before [cooldownEnd] the call throws [CooldownNotElapsed] with the
    remaining time in hours, rounded up, and writes nothing; at or after
    [cooldownEnd] it succeeds, returns the pending principal read before
    the write, zeroes [pendingPrincipal] and [cooldownEnd], and any further
    call throws [NoCooldown]. *)
Theorem finalize_time_gate (now : Z) (wallet : string) (seed : Z) (db : Db)
    (p : StakePosition) (c : Z) :
  find (hasPda (findStakePositionPda wallet seed)) (stakePositions db) = Some p ->
  isActive p = false ->
  cooldownEnd p = Some c ->
  c <> 0 ->
  (now < c ->
   exists hours,
     finalizeUnstake now wallet seed db = (Throw (CooldownNotElapsed hours), db)
     /\ c - now <= 3600 * hours < c - now + 3600)
  /\ (c <= now ->
      exists r db' p',
        finalizeUnstake now wallet seed db = (Ok r, db')
        /\ Some (fr_amount r) =
           match pendingPrincipal p with Some v => Some v | None => Some 0 end
        /\ find (hasPda (findStakePositionPda wallet seed)) (stakePositions db')
           = Some p'
        /\ pendingPrincipal p' = Some 0
        /\ cooldownEnd p' = Some 0
        /\ forall now',
             finalizeUnstake now' wallet seed db' = (Throw NoCooldown, db')).
Proof.
  intros Hf Ha Hc Hc0. split.
  - intros Hlt. exists (Js.ceil_div (c - now) 3600).
    split; [| apply ceil_div_bounds].
    unfold finalizeUnstake. derived Hf k Ek.
    unfold bind, prisma.stakePosition.findUnique.
    change (fun q => pda_eqb (pda q) k) with (hasPda (Some k)).
    rewrite Hf, Ha, Hc.
    destruct (Z.eqb_spec c 0); [contradiction |].
    destruct (Z.ltb_spec now c); [reflexivity | lia].
  - intros Hle.
    rewrite (finalizeUnstake_ok now wallet seed db p c Hf Ha Hc Hc0 Hle).
    eexists. eexists. exists (closed p).
    split; [reflexivity |].
    split; [cbn; destruct (pendingPrincipal p); reflexivity |].
    assert (Hf' : find (hasPda (findStakePositionPda wallet seed))
                    (prisma.updateWhere
                       (hasPda (findStakePositionPda wallet seed)) closed
                       (stakePositions db)) = Some (closed p)).
    { rewrite find_updateWhere, Hf by reflexivity. reflexivity. }
    split; [exact Hf' |].
    split; [reflexivity |]. split; [reflexivity |].
    intros now'.
    unfold finalizeUnstake. derived Hf k Ek.
    unfold bind, prisma.stakePosition.findUnique.
    change (fun q => pda_eqb (pda q) k) with (hasPda (Some k)).
    cbn [stakePositions set_stakePositions].
    rewrite Hf'. cbn. rewrite Ha. reflexivity.
Qed.

Lemma finalize_time_gate_witness :
  (exists hours,
     finalizeUnstake (Scenario.t0 + 10) "alice" 7 Scenario.db2
     = (Throw (CooldownNotElapsed hours), Scenario.db2))
  /\ (exists r db',
        finalizeUnstake (Scenario.t0 + 604800) "alice" 7 Scenario.db2
        = (Ok r, db')
        /\ fr_amount r = 950000000
        /\ finalizeUnstake (Scenario.t0 + 604800) "alice" 7 db'
           = (Throw NoCooldown, db')).
Proof.
  split.
  - destruct (finalize_time_gate (Scenario.t0 + 10) "alice" 7 Scenario.db2
                (closing Scenario.cfg Scenario.t0 950000000
                   (opened "id-1" (Scenario.t0 * 1000) Scenario.t0 "alice"
                      1000000000 6 1 true (Some 7)))
                (Scenario.t0 + 604800) ltac:(vm_compute; reflexivity)
                eq_refl eq_refl ltac:(vm_compute; discriminate))
      as [H _].
    destruct (H ltac:(vm_compute; reflexivity)) as [h [E _]].
    exists h. exact E.
  - destruct (finalize_time_gate (Scenario.t0 + 604800) "alice" 7 Scenario.db2
                (closing Scenario.cfg Scenario.t0 950000000
                   (opened "id-1" (Scenario.t0 * 1000) Scenario.t0 "alice"
                      1000000000 6 1 true (Some 7)))
                (Scenario.t0 + 604800) ltac:(vm_compute; reflexivity)
                eq_refl eq_refl ltac:(vm_compute; discriminate))
      as [_ H].
    destruct (H ltac:(vm_compute; discriminate))
      as [r [db' [p' [E [Hamt [_ [_ [_ Hagain]]]]]]]].
    exists r, db'. split; [exact E |]. split; [| apply Hagain].
    cbn in Hamt. now inversion Hamt.
Defined.

End Finalizing.

(** ** Claims *)

Section Claiming.

Import RewardsService.


(** [claimRewards] up to the creation of the receipt. *)
Lemma claimRewards_gates (cfg : Config) (uuid : string) (dateNow now : Z)
    (wallet : string) (seed : Z) (nftSeed : option Z) (db : Db)
    (p : StakePosition) (s : ProgramState) :
  find (hasPda (findStakePositionPda wallet seed)) (stakePositions db) = Some p ->
  programState db = Some s ->
  let weeks := (now - lastRewardTs p) / weekInSeconds in
  let reward :=
    calculateProRataReward (Js.Number (stakingPower p))
      (Js.Number (totalStakingPower s)) (Js.Number (totalRewardPool s))
      weeks in
  let nftSeed' := nftSeedOrNow nftSeed dateNow in
  claimRewards cfg uuid dateNow now wallet seed nftSeed db =
  if negb (isActive p) then (Throw NotActive, db)
  else if now <? lastClaimOf p + weekInSeconds
  then (Throw (TooSoonToClaim
                 (Js.ceil_div (lastClaimOf p + weekInSeconds - now) 3600)), db)
  else if weeks =? 0 then (Throw NothingAccrued, db)
  else if reward =? 0 then (Throw NoRewardAvailable, db)
  else
    match findRewardNftPda wallet nftSeed' with
    | None => (Throw AssertionFailed, db)
    | Some k =>
      let nft :=
        mkRewardNft uuid wallet k reward (now + vestingPeriod cfg) true
          nftSeed' (id p) in
      if existsb (fun n => pda_eqb (nft_pda n) k || String.eqb (nft_id n) uuid)
           (rewardNfts db)
      then (Throw UniqueConstraint, db)
      else
        (Ok (mkClaimResult uuid k nftSeed' reward (now + vestingPeriod cfg)
               weeks),
         set_stakePositions
           (prisma.updateWhere (hasPda (findStakePositionPda wallet seed))
              (fun q => set_lastClaimTs (Some now) (set_lastRewardTs now q))
              (stakePositions db))
           (set_rewardNfts (rewardNfts db ++ [nft]) db))
    end.
Proof.
  intros Hf Hs weeks reward nftSeed'.
  unfold claimRewards. derived Hf k Ek.
  unfold bind, prisma.stakePosition.findUnique, prisma.programState.findFirst.
  change (fun q => pda_eqb (pda q) k) with (hasPda (Some k)).
  rewrite Hf.
  destruct (negb (isActive p)); [reflexivity |].
  destruct (now <? lastClaimOf p + weekInSeconds); [reflexivity |].
  cbv beta. rewrite Hs. fold weeks. fold reward.
  destruct (weeks =? 0); [reflexivity |].
  destruct (reward =? 0); [reflexivity |].
  fold nftSeed'.
  destruct (findRewardNftPda wallet nftSeed') as [kn |]; [| reflexivity].
  unfold prisma.rewardNft.create. cbn [nft_pda nft_id].
  destruct (existsb _ (rewardNfts db)); reflexivity.
Qed.




End Claiming.

(** ** The weekly job *)

Section WeeklyJob.

Import RewardDistributionProcessor.

Lemma set_stakePositions_same (db : Db) :
  set_stakePositions (stakePositions db) db = db.
Proof. destruct db; reflexivity. Qed.

Lemma distributeLoop_spec (now e t : Z) (qs : list StakePosition) :
  forall (db : Db) (count : Z) (td : Js.num),
  exists td',
    distributeLoop now e t qs count td db =
    (Ok (count + Z.of_nat (List.length
                             (filter (fun q => Js.gt (userShare e t q) 0) qs)),
         td'),
     set_stakePositions
       (map (fun p =>
               if existsb (fun q => String.eqb (id p) (id q)
                                    && Js.gt (userShare e t q) 0) qs
               then set_lastRewardTs now p else p)
          (stakePositions db)) db).
Proof.
  induction qs as [| q rest IH]; intros db count td.
  - exists td. cbn [distributeLoop existsb filter List.length].
    rewrite map_id, set_stakePositions_same.
    unfold ret. do 3 f_equal. cbn. lia.
  - cbn [distributeLoop existsb filter].
    destruct (Js.gt (userShare e t q) 0) eqn:Hq.
    + unfold bind, prisma.stakePosition.updateById.
      destruct (IH (set_stakePositions
                      (prisma.updateWhere
                         (fun p => String.eqb (id p) (id q))
                         (set_lastRewardTs now) (stakePositions db)) db)
                  (count + 1) (Js.add td (userShare e t q))) as [td' E].
      exists td'. rewrite E. cbn [List.length].
      f_equal; [do 2 f_equal; lia |].
      cbn [stakePositions set_stakePositions]. unfold set_stakePositions.
      cbn. f_equal. unfold prisma.updateWhere. rewrite map_map.
      apply map_ext. intros p.
      destruct (String.eqb (id p) (id q)) eqn:Ep; cbn; [| reflexivity].
      now destruct (existsb _ rest).
    + destruct (IH db count td) as [td' E].
      exists td'. rewrite E. f_equal.
      f_equal. apply map_ext. intros p.
      now rewrite andb_false_r.
Qed.

Lemma NoDup_map_inj {A B} (f : A -> B) (l : list A) (x y : A) :
  NoDup (map f l) -> In x l -> In y l -> f x = f y -> x = y.
Proof.
  induction l as [| a l IH]; intros Hnd Hx Hy Hxy; [contradiction |].
  cbn in Hnd. inversion Hnd as [| ? ? Hnotin Hnd']; subst.
  destruct Hx as [-> | Hx], Hy as [-> | Hy]; auto.
  - exfalso. apply Hnotin. rewrite Hxy. now apply in_map.
  - exfalso. apply Hnotin. rewrite <- Hxy. now apply in_map.
Qed.

Lemma touched_by_id (now e t : Z) (rows : list StakePosition) :
  NoDup (map id rows) ->
  map (fun p =>
         if existsb (fun q => String.eqb (id p) (id q)
                              && Js.gt (userShare e t q) 0)
              (filter (fun q => Bool.eqb (isActive q) true) rows)
         then set_lastRewardTs now p else p) rows
  = map (touched now e t) rows.
Proof.
  intros Hnd. apply map_ext_in. intros p Hp. unfold touched.
  match goal with |- (if ?b then _ else _) = (if ?c then _ else _) =>
    assert (Hbc : b = c); [| now rewrite Hbc] end.
  apply eq_true_iff_eq. rewrite existsb_exists, andb_true_iff. split.
  - intros [q [Hq Hm]]. apply filter_In in Hq as [Hq Ha].
    apply andb_true_iff in Hm as [Hid Hs]. apply String.eqb_eq in Hid.
    assert (p = q) by (eapply NoDup_map_inj; eauto). subst q.
    split; [| exact Hs]. now destruct (isActive p).
  - intros [Ha Hs]. exists p. split.
    + apply filter_In. split; [exact Hp |]. now rewrite Ha.
    + now rewrite String.eqb_refl, Hs.
Qed.

(** C8, as amended.  With the program state initialised and the row
    identifiers distinct (they are primary keys): when the program is
    paused the job writes nothing and reports [skipped]; when it is not
    paused and no position is active it
    writes nothing either and reports zero; otherwise, with the weekly
    emission computed in doubles from the current pool (it is
    [floor(pool * 21 / 10000)] when the pool is non-negative and
    [pool * 21] is below 2^53), it moves
    [lastRewardTs] to [now] for every active position whose share
    [Math.floor(weeklyEmission * stakingPower / totalStakingPower)] is
    positive, leaves every other position as it was, increments the epoch
    by exactly 1, sets the epoch start to [now] and stores the emission. *)
Theorem weekly_distribution_spec (now : Z) (db : Db) (s : ProgramState) :
  programState db = Some s ->
  NoDup (map id (stakePositions db)) ->
  let active := filter (fun p => Bool.eqb (isActive p) true) (stakePositions db) in
  let emission := weeklyEmissionOf s in
  (isPaused s = true -> handleWeeklyDistribution now db = (Ok Skipped, db))
  /\ (isPaused s = false -> active = [] ->
      handleWeeklyDistribution now db = (Ok NoActivePositions, db))
  /\ (isPaused s = false -> active <> [] ->
      exists n td db',
        handleWeeklyDistribution now db
        = (Ok (Distributed (currentEpoch s + 1) n td emission), db')
        /\ stakePositions db'
           = map (touched now emission (totalPowerOf s)) (stakePositions db)
        /\ programState db'
           = Some (mkProgramState (isPaused s) (currentEpoch s + 1) now
                     (Some emission) (totalStaked s) (totalRewardPool s)
                     (totalStakingPower s))
        /\ stakingTiers db' = stakingTiers db
        /\ penaltyTransactions db' = penaltyTransactions db
        /\ rewardNfts db' = rewardNfts db)
  /\ (0 <= totalRewardPool s -> totalRewardPool s * 21 < Js.two53 ->
      emission = totalRewardPool s * 21 / 10000).
Proof.
  intros Hs Hnd active emission.
  unfold handleWeeklyDistribution, bind, prisma.programState.findFirst,
    prisma.stakePosition.findMany.
  rewrite Hs.
  change (Js.floor_quot (Js.mul (Js.Number (totalRewardPool s)) 21) 10000)
    with emission.
  change (Js.Number (totalStakingPower s)) with (totalPowerOf s).
  subst active.
  split; [intros ->; reflexivity |].
  split.
  { intros -> He. rewrite He. reflexivity. }
  split.
  - intros Hp Hne. rewrite Hp.
    destruct (filter _ (stakePositions db)) as [| a rest] eqn:Ea;
      [contradiction |].
    rewrite <- Ea.
    replace (Z.of_nat (List.length
                         (filter (fun p => Bool.eqb (isActive p) true)
                            (stakePositions db))) =? 0)
      with false
      by (rewrite Ea; cbn [List.length]; symmetry; apply Z.eqb_neq; lia).
    destruct (distributeLoop_spec now emission (totalPowerOf s)
                (filter (fun p => Bool.eqb (isActive p) true)
                   (stakePositions db)) db 0 (Js.Fin 0)) as [td E].
    rewrite E. unfold prisma.programState.update, ret.
    eexists. exists td. eexists. split; [reflexivity |].
    cbn [stakePositions programState stakingTiers penaltyTransactions
           rewardNfts set_stakePositions set_programState fst snd].
    rewrite Hs. rewrite touched_by_id by exact Hnd.
    repeat split. cbn [option_map]. unfold set_epoch. now rewrite Hp.
  - intros H0 Hr. unfold emission, weeklyEmissionOf.
    rewrite Number_exact by (unfold Js.two53 in *; lia).
    now apply weeklyPoolEmission_exact.
Qed.

Lemma weekly_distribution_spec_witness :
  exists n td db',
    handleWeeklyDistribution (Scenario.t0 + 604800) Scenario.rewardDb
    = (Ok (Distributed 2 n td 2100000000), db')
    /\ map lastRewardTs (stakePositions db') = [Scenario.t0 + 604800].
Proof.
  destruct (weekly_distribution_spec (Scenario.t0 + 604800) Scenario.rewardDb
              Scenario.rewardState eq_refl
              ltac:(repeat constructor; cbn; intuition))
    as [_ [_ [H _]]].
  destruct (H eq_refl ltac:(vm_compute; discriminate))
    as [n [td [db' [E [Hp _]]]]].
  exists n, td, db'. split; [exact E |].
  rewrite Hp. vm_compute. reflexivity.
Defined.

(** C8 as stated fails twice: an unpaused program with no active position
    keeps its epoch and epoch start, and an active position whose share
    rounds to zero keeps its [lastRewardTs] while the epoch advances.  And
    the stored emission is not the integer formula for a large pool: for
    576_510_038_107_619 the job stores 1_210_671_080_026 where
    [floor(pool * 21 / 10000)] is 1_210_671_080_025. *)
Lemma weekly_distribution_keeps_epoch :
  isPaused Scenario.seedState = false
  /\ handleWeeklyDistribution (Scenario.t0 + 604800) Scenario.db0
     = (Ok NoActivePositions, Scenario.db0)
  /\ option_map currentEpoch (programState Scenario.db0) = Some 1
  /\ map isActive (stakePositions Scenario.dustDb) = [true]
  /\ map lastRewardTs
       (stakePositions
          (snd (handleWeeklyDistribution (Scenario.t0 + 604800)
                  Scenario.dustDb)))
     = [Scenario.t0]
  /\ option_map currentEpoch
       (programState
          (snd (handleWeeklyDistribution (Scenario.t0 + 604800)
                  Scenario.dustDb)))
     = Some 2
  /\ 576510038107619 * 21 / 10000 = 1210671080025
  /\ option_map currentWeeklyEmission
       (programState
          (snd (handleWeeklyDistribution (Scenario.t0 + 604800)
                  Scenario3.largePoolDb)))
     = Some (Some 1210671080026).
Proof. repeat split; vm_compute; reflexivity. Qed.

End WeeklyJob.

(** ** The hourly sweep *)

Section SweepJob.

Import CooldownFinalizerProcessor.

Lemma filter_none {A} (f : A -> bool) (l : list A) :
  (forall x, In x l -> f x = false) -> filter f l = [].
Proof.
  induction l as [| a l IH]; intros H; [reflexivity |].
  cbn. rewrite (H a (or_introl eq_refl)). apply IH.
  intros x Hx. apply H. now right.
Qed.

Lemma sweep_nothing_selected (now : Z) (db : Db) :
  (forall p, In p (stakePositions db) -> expiredCooldown now p = false) ->
  handleCooldownFinalization now db = (Ok (mkSweepResult 0 None []), db).
Proof.
  intros H.
  unfold handleCooldownFinalization, bind, prisma.stakePosition.findMany.
  rewrite (filter_none _ _ H). reflexivity.
Qed.

Lemma finalizePosition_positions (q : StakePosition) (db : Db) :
  exists db',
    finalizePosition q db = (Ok tt, db')
    /\ stakePositions db'
       = prisma.updateWhere (fun p => String.eqb (id p) (id q)) swept
           (stakePositions db).
Proof.
  unfold finalizePosition, bind, prisma.stakePosition.updateById,
    prisma.programState.findFirst.
  cbn. destruct (programState db); cbn; eexists; split; reflexivity.
Qed.

Lemma finalizeLoop_positions (qs : list StakePosition) :
  forall (db : Db) (count : Z) (results : list FinalizedEntry),
  exists db',
    finalizeLoop qs count results db
    = (Ok (count + Z.of_nat (List.length qs), results ++ map entryOf qs), db')
    /\ stakePositions db'
       = map (fun p =>
                if existsb (fun q => String.eqb (id p) (id q)) qs
                then swept p else p)
           (stakePositions db).
Proof.
  induction qs as [| q rest IH]; intros db count results.
  - exists db. cbn. rewrite map_id, app_nil_r. unfold ret.
    split; [do 3 f_equal; lia | reflexivity].
  - cbn [finalizeLoop]. unfold bind.
    destruct (finalizePosition_positions q db) as [db1 [E1 P1]].
    rewrite E1.
    destruct (IH db1 (count + 1) (results ++ [entryOf q])) as [db' [E P]].
    exists db'. rewrite E. split.
    + cbn [List.length map]. rewrite <- app_assoc. cbn [app].
      do 3 f_equal. lia.
    + rewrite P, P1. unfold prisma.updateWhere. rewrite map_map.
      apply map_ext. intros p. cbn [existsb].
      destruct (String.eqb (id p) (id q)) eqn:Ep; cbn; [| reflexivity].
      now destruct (existsb _ rest).
Qed.

(** Whatever the first run selected, a second run at the same time selects
    nothing: every row the first run touched is inactive afterwards. *)
Lemma sweep_twice (now : Z) (db : Db) :
  handleCooldownFinalization now (snd (handleCooldownFinalization now db))
  = (Ok (mkSweepResult 0 None []), snd (handleCooldownFinalization now db)).
Proof.
  apply sweep_nothing_selected. intros p' Hp'.
  unfold handleCooldownFinalization, bind, prisma.stakePosition.findMany in Hp'.
  destruct (filter (expiredCooldown now) (stakePositions db)) as [| a l] eqn:Ef.
  - cbn in Hp'. destruct (expiredCooldown now p') eqn:Ex; [| reflexivity].
    assert (Hx : In p' (filter (expiredCooldown now) (stakePositions db)))
      by (apply filter_In; auto).
    rewrite Ef in Hx. contradiction.
  - replace (Z.of_nat (List.length (a :: l)) =? 0) with false in Hp'
      by (cbn [List.length]; symmetry; apply Z.eqb_neq; lia).
    destruct (finalizeLoop_positions (a :: l) db 0 []) as [db' [E P]].
    rewrite E in Hp'. cbn [snd ret] in Hp'. rewrite P in Hp'.
    apply in_map_iff in Hp' as [p [Hp Hin]]. subst p'.
    destruct (existsb _ (a :: l)) eqn:Ex; [reflexivity |].
    destruct (expiredCooldown now p) eqn:Epx; [| reflexivity].
    assert (Hsel : In p (a :: l))
      by (rewrite <- Ef; apply filter_In; auto).
    assert (Ht : existsb (fun q => String.eqb (id p) (id q)) (a :: l) = true).
    { apply existsb_exists. exists p. split; [exact Hsel |].
      apply String.eqb_refl. }
    congruence.
Qed.

(** C2 at the failing input.  The position that [unstakeTokens] left in
    cooldown (inactive, pending 950_000_000) is past its [cooldownEnd]; the
    sweep selects only rows with [isActive: true], reports zero finalized
    positions and writes nothing, while [finalizeUnstake] at the same time
    finalizes that position. *)
Theorem sweep_misses_cooled_down_position :
  let now := Scenario.t0 + 604800 in
  map (fun p => (isActive p, cooldownEnd p, pendingPrincipal p))
    (stakePositions Scenario.db2)
  = [(false, Some now, Some 950000000)]
  /\ handleCooldownFinalization now Scenario.db2
     = (Ok (mkSweepResult 0 None []), Scenario.db2)
  /\ option_map StakingService.fr_amount
       (valueOf (StakingService.finalizeUnstake now "alice" 7 Scenario.db2))
     = Some 950000000.
Proof. repeat split; reflexivity. Qed.

End SweepJob.

(** ** Aggregates *)

Section Aggregates.

Import StakingService.

Lemma sumActive_app (f : StakePosition -> Z) (db : Db) (row : StakePosition) :
  isActive row = true ->
  sumActive f (set_stakePositions (stakePositions db ++ [row]) db)
  = sumActive f db + f row.
Proof.
  intros Ha. unfold sumActive. cbn [stakePositions set_stakePositions].
  rewrite filter_app, map_app. cbn. rewrite Ha. cbn.
  induction (map f (filter _ (stakePositions db))) as [| z l IH]; cbn; lia.
Qed.

Lemma exec_keeps_totals (cfg : Config) (op : Op) (db : Db) :
  isSweep op = false ->
  option_map totalStaked (programState (snd (exec cfg op db)))
  = option_map totalStaked (programState db)
  /\ option_map totalStakingPower (programState (snd (exec cfg op db)))
     = option_map totalStakingPower (programState db).
Proof.
  intros Hop. destruct op as [u d n w a m t l sd | n w sd | n w sd | n];
    [| | | discriminate]; unfold exec, bind.
  - destruct (stakeTokens_cases u d n w a m t l sd db) as [[e E] | [_ [_ E]]];
      rewrite E; cbn; auto.
  - destruct (unstakeTokens_cases cfg n w sd db) as [[e E] | [p [Hf [Ha Hc]]]].
    + rewrite E; cbn; auto.
    + destruct (unstakeTokens_ok cfg n w sd db p Hf Ha Hc)
        as [db' [E [_ [_ [_ [_ Hst]]]]]].
      rewrite E. cbn. rewrite Hst.
      destruct (n <? unlockTs p); [| auto].
      destruct (programState db); cbn; auto.
  - destruct (finalizeUnstake_cases n w sd db)
      as [[e E] | [p [c [Hf [Ha [Hc [Hc0 Hle]]]]]]].
    + rewrite E; cbn; auto.
    + rewrite (finalizeUnstake_ok n w sd db p c Hf Ha Hc Hc0 Hle). cbn. auto.
Qed.

Lemma step_fst (cfg : Config) (st : Db * list Pda) (op : Op) :
  fst (step cfg st op) = snd (exec cfg op (fst st)).
Proof.
  unfold step. destruct (exec cfg op (fst st)) as [[l | e] db']; reflexivity.
Qed.

(** C1, as amended.  Through any sequence of open, initiate-close and
    finalize-close operations [totalStaked] and [totalStakingPower] keep
    the values they started with: none of the three writes them.  A
    successful open adds the new position's amount and staking power to the
    sums over the active positions only; the staking power is
    [floor(amount * multiplier / 100)] when the amount is non-negative and
    [amount * multiplier] is below 2^53. *)
Theorem lifecycle_leaves_totals (cfg : Config) (ops : list Op)
    (st : Db * list Pda) :
  forallb (fun op => negb (isSweep op)) ops = true ->
  option_map totalStaked (programState (fst (run cfg ops st)))
  = option_map totalStaked (programState (fst st))
  /\ option_map totalStakingPower (programState (fst (run cfg ops st)))
     = option_map totalStakingPower (programState (fst st))
  /\ forall uuid dateNow now wallet amt months tier locked seed r db',
       stakeTokens uuid dateNow now wallet amt months tier locked seed (fst st)
       = (Ok r, db') ->
       programState db' = programState (fst st)
       /\ (0 <= amt -> amt * calculatePowerMultiplier months < Js.two53 ->
           sr_stakingPower r = amt * calculatePowerMultiplier months / 100)
       /\ sumActive amount db' = sumActive amount (fst st) + amt
       /\ sumActive stakingPower db'
          = sumActive stakingPower (fst st) + sr_stakingPower r.
Proof.
  intros Hops.
  assert (Htot : option_map totalStaked (programState (fst (run cfg ops st)))
                 = option_map totalStaked (programState (fst st))
                 /\ option_map totalStakingPower
                      (programState (fst (run cfg ops st)))
                    = option_map totalStakingPower (programState (fst st))).
  { revert st. unfold run.
    induction ops as [| op ops IH]; intros st; [cbn; auto |].
    cbn in Hops. apply andb_true_iff in Hops as [Hop Hops].
    apply negb_true_iff in Hop.
    cbn [fold_left]. destruct (IH Hops (step cfg st op)) as [E1 E2].
    rewrite E1, E2, step_fst.
    now apply exec_keeps_totals. }
  destruct Htot as [E1 E2]. split; [exact E1 |]. split; [exact E2 |].
  intros uuid dateNow now wallet amt months tier locked seed r db' Hok.
  destruct (stakeTokens_cases uuid dateNow now wallet amt months tier locked
              seed (fst st)) as [[e E] | [_ [_ E]]];
    rewrite E in Hok; [discriminate |].
  inversion Hok; subst r db'; clear Hok.
  split; [reflexivity |].
  split.
  { intros Hamt Hrange. cbn [sr_stakingPower stakingPower opened].
    pose proof (calculatePowerMultiplier_range months) as Hm.
    rewrite mul_exact by nia. apply floor_quot_exact; [nia | lia]. }
  rewrite !sumActive_app by reflexivity. split; reflexivity.
Qed.

Lemma lifecycle_leaves_totals_witness :
  option_map totalStaked (programState Scenario.db2) = Some 0
  /\ option_map totalStakingPower (programState Scenario.db2) = Some 0.
Proof.
  destruct (lifecycle_leaves_totals Scenario.cfg
              [Scenario.openOp; InitiateClose Scenario.t0 "alice" 7]
              (Scenario.db0, []) eq_refl) as [E1 [E2 _]].
  split; [exact E1 | exact E2].
Defined.

(** C1 as stated fails at the first open: the seeded database satisfies the
    round trip (0 = 0), and after one open the active sums are
    1_000_000_000 and 1_500_000_000 while both totals are still 0. *)
Lemma open_breaks_round_trip :
  aggregatesMatch Scenario.db0
  /\ sumActive amount Scenario.db1 = 1000000000
  /\ sumActive stakingPower Scenario.db1 = 1500000000
  /\ option_map totalStaked (programState Scenario.db1) = Some 0
  /\ option_map totalStakingPower (programState Scenario.db1) = Some 0
  /\ ~ aggregatesMatch Scenario.db1.
Proof.
  split; [split; reflexivity |].
  do 4 (split; [reflexivity |]).
  intros [H _]. discriminate H.
Qed.

End Aggregates.

(** ** The cooldown invariant *)

Section CooldownInvariant.

Import StakingService.

Variable cfg : Config.
Hypothesis cooldown_nonneg : 0 <= cooldownPeriod cfg.

Lemma map_pda_updateWhere (sel : StakePosition -> bool)
    (f : StakePosition -> StakePosition) (rows : list StakePosition) :
  (forall q, pda (f q) = pda q) ->
  map pda (prisma.updateWhere sel f rows) = map pda rows.
Proof.
  intros Hf. unfold prisma.updateWhere. rewrite map_map.
  apply map_ext. intros q. destruct (sel q); [apply Hf | reflexivity].
Qed.

Lemma fresh_pda (row : StakePosition) (rows : list StakePosition) :
  existsb (fun p => pda_eqb (pda p) (pda row) || String.eqb (id p) (id row))
    rows = false ->
  ~ In (pda row) (map pda rows).
Proof.
  intros Hex Hin. apply in_map_iff in Hin as [q [Hq Hin]].
  assert (Ht : existsb
                 (fun p => pda_eqb (pda p) (pda row) || String.eqb (id p) (id row))
                 rows = true).
  { apply existsb_exists. exists q. split; [exact Hin |].
    rewrite Hq, pda_eqb_refl. reflexivity. }
  congruence.
Qed.

Lemma NoDup_snoc {A} (l : list A) (x : A) :
  NoDup l -> ~ In x l -> NoDup (l ++ [x]).
Proof.
  induction l as [| a l IH]; intros Hnd Hx; cbn.
  - constructor; [intros [] | constructor].
  - inversion Hnd as [| ? ? Ha Hl]; subst. constructor.
    + intros Hin. apply in_app_or in Hin as [Hin | [-> | []]];
        [contradiction | apply Hx; now left].
    + apply IH; [exact Hl |]. intros Hin. apply Hx. now right.
Qed.

Lemma shape_not_expired (log : list Pda) (now : Z) (p : StakePosition) :
  positionShape log p -> CooldownFinalizerProcessor.expiredCooldown now p = false.
Proof.
  intros [[Ha [Hc _]] | [[Ha _] | [Ha _]]];
    unfold CooldownFinalizerProcessor.expiredCooldown; rewrite Ha; cbn.
  - now rewrite Hc.
  - reflexivity.
  - reflexivity.
Qed.

(** A close never takes the whole of a positive principal: in doubles the
    penalty stays below half of it. *)
Lemma pendingAfterClose_pos (now : Z) (p : StakePosition) :
  0 < amount p -> 0 < pendingAfterClose now p.
Proof.
  intros Ha. unfold pendingAfterClose, penaltyOf, Js.minus, Js.Number, Js.mul.
  pose proof (round_pos (amount p) Ha) as Ha'.
  destruct (now <? unlockTs p); [| exact Ha'].
  apply round_pos.
  pose proof (getTierPenaltyMultiplier_range (tierId p)) as Hrate.
  generalize dependent (getTierPenaltyMultiplier (tierId p)). intros rate Hrate.
  generalize dependent (Js.round (amount p)). intros a Ha'.
  assert (Hy : 0 <= a * rate) by nia.
  pose proof (round_le_double (a * rate) Hy) as H1.
  pose proof (round_nonneg (a * rate) Hy) as H0.
  pose proof (floor_quot_le_double (Js.round (a * rate)) 10000 H0 ltac:(lia))
    as H2.
  nia.
Qed.

Lemma step_preserves (st : Db * list Pda) (op : Op) :
  clockPositive op -> principalPositive op ->
  lifecycleInv st -> lifecycleInv (step cfg st op).
Proof.
  destruct st as [db log]. intros Hclock Hprincipal [Hnd [Hshape Hlog]].
  cbn [fst snd] in *.
  destruct op as [u d n w a m t l sd | n w sd | n w sd | n];
    unfold step, exec, bind; cbn [fst snd].
  - (* open *)
    destruct (stakeTokens_cases u d n w a m t l sd db)
      as [[e E] | [Hfresh [_ E]]];
      rewrite E; [now repeat split |].
    cbn [fst snd ret]. rewrite app_nil_r.
    apply fresh_pda in Hfresh.
    set (row := opened u d n w a m t l sd) in *.
    unfold lifecycleInv. cbn [fst snd stakePositions set_stakePositions].
    split; [| split].
    + rewrite map_app. now apply NoDup_snoc.
    + apply Forall_app. split; [exact Hshape |].
      constructor; [| constructor].
      left. do 3 (split; [reflexivity |]). split; [exact Hprincipal |].
      intros Hin. apply Hfresh. now apply Hlog.
    + intros k Hk. rewrite map_app. apply in_or_app. left. now apply Hlog.
  - (* initiate-close *)
    destruct (unstakeTokens_cases cfg n w sd db) as [[e E] | [p [Hf [Ha Hc]]]];
      [rewrite E; now repeat split |].
    destruct (unstakeTokens_ok cfg n w sd db p Hf Ha Hc)
      as [db' [E [Hpos _]]].
    rewrite E. cbn [fst snd ret]. rewrite app_nil_r.
    unfold lifecycleInv. cbn [fst snd]. rewrite Hpos.
    rewrite map_pda_updateWhere by reflexivity.
    split; [exact Hnd |]. split; [| exact Hlog].
    destruct (find_hasPda _ _ _ Hf) as [Hin Hk].
    rewrite Forall_forall in Hshape.
    assert (Hopen : 0 < amount p /\ ~ In (pda p) log).
    { destruct (Hshape p Hin) as [[_ [_ [_ [Hamt Hn]]]] | [[Hb _] | [Hb _]]];
        [now split | congruence | congruence]. }
    destruct Hopen as [Hamt Hfree].
    unfold prisma.updateWhere. apply Forall_forall. intros q' Hq'.
    apply in_map_iff in Hq' as [q [Hq Hinq]]. subst q'.
    destruct (hasPda (findStakePositionPda w sd) q) eqn:Hsel;
      [| now apply Hshape].
    rewrite Hk in Hsel. apply pda_eqb_eq in Hsel.
    right; left. split; [reflexivity |]. split.
    + eexists. eexists. split; [reflexivity |]. split; [cbn in Hclock; lia |].
      split; [reflexivity |].
      pose proof (pendingAfterClose_pos n p Hamt). lia.
    + cbn [pda closing set_isActive set_pendingPrincipal set_cooldownEnd].
      now rewrite Hsel.
  - (* finalize-close *)
    destruct (finalizeUnstake_cases n w sd db)
      as [[e E] | [p [c [Hf [Ha [Hc [Hc0 Hle]]]]]]];
      [rewrite E; now repeat split |].
    rewrite (finalizeUnstake_ok n w sd db p c Hf Ha Hc Hc0 Hle).
    cbn [fst snd ret fr_pda].
    destruct (find_hasPda _ _ _ Hf) as [Hin Hk].
    unfold lifecycleInv. cbn [fst snd stakePositions set_stakePositions].
    rewrite map_pda_updateWhere by reflexivity.
    split; [exact Hnd |]. split.
    + unfold prisma.updateWhere. apply Forall_forall. intros q' Hq'.
      apply in_map_iff in Hq' as [q [Hq Hinq]]. subst q'.
      rewrite Forall_forall in Hshape.
      destruct (hasPda (findStakePositionPda w sd) q) eqn:Hsel.
      * rewrite Hk in Hsel. apply pda_eqb_eq in Hsel.
        assert (q = p)
          by (eapply NoDup_map_inj; eauto).
        subst q. right; right. split; [exact Ha |].
        split; [reflexivity |]. split; [reflexivity |].
        cbn. apply in_or_app. right. now left.
      * assert (Hne : pda q <> pda p).
        { intros Heq. rewrite Hk in Hsel. cbn in Hsel.
          rewrite Heq, pda_eqb_refl in Hsel. discriminate. }
        destruct (Hshape q Hinq)
          as [[H1 [H2 [H3 [H4 H5]]]] | [[H1 [H2 H3]] | [H1 [H2 [H3 H4]]]]].
        -- left. repeat split; try assumption.
           intros Hi. apply in_app_or in Hi as [Hi | [Hi | []]]; auto.
        -- right; left. repeat split; try assumption.
           intros Hi. apply in_app_or in Hi as [Hi | [Hi | []]]; auto.
        -- right; right. repeat split; try assumption.
           apply in_or_app. now left.
    + intros k Hk'. apply in_app_or in Hk' as [Hk' | [Hk' | []]].
      * now apply Hlog.
      * subst k. now apply in_map.
  - (* sweep *)
    rewrite sweep_nothing_selected.
    + cbn [fst snd ret CooldownFinalizerProcessor.results map].
      rewrite app_nil_r. now repeat split.
    + intros p Hp. rewrite Forall_forall in Hshape.
      eapply shape_not_expired. now apply Hshape.
Qed.

Lemma run_preserves (ops : list Op) :
  forall st,
    Forall clockPositive ops -> Forall principalPositive ops ->
    lifecycleInv st -> lifecycleInv (run cfg ops st).
Proof.
  unfold run. induction ops as [| op ops IH]; intros st Hclock Hprincipal Hinv;
    [exact Hinv |].
  inversion Hclock; subst. inversion Hprincipal; subst. cbn [fold_left].
  apply IH; [assumption | assumption |]. now apply step_preserves.
Qed.

End CooldownInvariant.

(** C9, as amended.  A field is set when it is neither [null] nor [0n]
    ([finalizeUnstake] clears both fields by writing [0n], the sweep by
    writing [null] and [0n]).  Starting from a database without positions,
    after every sequence of open, initiate-close, finalize-close and sweep
    operations (at positive clock readings, with a non-negative cooldown
    period, on positions opened with a positive principal), each position
    has [pendingPrincipal] set exactly when [cooldownEnd] is set, and
    [cooldownEnd] is set exactly when the position is inactive and has not
    been finalized.  On any database, a row the sweep selects is left
    inactive with both fields cleared and is reported as finalized. *)
Theorem cooldown_coupling (cfg : Config) (ops : list Op) (db0 : Db) :
  0 <= StakingService.cooldownPeriod cfg ->
  Forall clockPositive ops ->
  Forall principalPositive ops ->
  stakePositions db0 = [] ->
  (forall p,
     In p (stakePositions (fst (run cfg ops (db0, [])))) ->
     (pendingSet p = true <-> cooldownSet p = true)
     /\ (cooldownSet p = true <->
         isActive p = false /\ ~ In (pda p) (snd (run cfg ops (db0, [])))))
  /\ (forall now db log p,
        In p (stakePositions db) ->
        CooldownFinalizerProcessor.expiredCooldown now p = true ->
        let st := step cfg (db, log) (Sweep now) in
        In (swept p) (stakePositions (fst st))
        /\ In (pda (swept p)) (snd st)
        /\ isActive (swept p) = false
        /\ pendingSet (swept p) = false
        /\ cooldownSet (swept p) = false).
Proof.
  intros Hcd Hclock Hprincipal Hempty. split.
  - intros p Hp.
    assert (Hinv : lifecycleInv (run cfg ops (db0, []))).
    { apply run_preserves; [assumption | assumption | assumption |].
      unfold lifecycleInv. cbn [fst snd]. rewrite Hempty.
      split; [constructor |]. split; [constructor |]. intros k []. }
    destruct Hinv as [_ [Hshape _]]. rewrite Forall_forall in Hshape.
    unfold pendingSet, cooldownSet, Js.truthy.
    destruct (Hshape p Hp)
      as [[H1 [H2 [H3 [_ H4]]]] | [[H1 [[c [v [H2 [Hc [H3 Hv]]]]] H4]]
                                  | [H1 [H2 [H3 H4]]]]];
      rewrite ?H1, ?H2, ?H3.
    + split; [split; discriminate |].
      split; [discriminate | intros [H _]; discriminate].
    + destruct (Z.eqb_spec c 0); [contradiction |].
      destruct (Z.eqb_spec v 0); [contradiction |].
      cbn. split; [split; auto |]. split; auto.
    + cbn. split; [split; discriminate |].
      split; [discriminate | intros [_ H]; contradiction].
  - intros now db log p Hin Hexp st.
    assert (Hsel : In p (filter (CooldownFinalizerProcessor.expiredCooldown now)
                           (stakePositions db)))
      by (apply filter_In; auto).
    assert (Hrun : exists r db',
              CooldownFinalizerProcessor.handleCooldownFinalization now db
              = (Ok r, db')
              /\ CooldownFinalizerProcessor.results r
                 = map CooldownFinalizerProcessor.entryOf
                     (filter (CooldownFinalizerProcessor.expiredCooldown now)
                        (stakePositions db))
              /\ stakePositions db'
                 = map (fun q =>
                          if existsb (fun x => String.eqb (id q) (id x))
                               (filter
                                  (CooldownFinalizerProcessor.expiredCooldown
                                     now) (stakePositions db))
                          then swept q else q) (stakePositions db)).
    { unfold CooldownFinalizerProcessor.handleCooldownFinalization, bind,
        prisma.stakePosition.findMany.
      destruct (filter (CooldownFinalizerProcessor.expiredCooldown now)
                  (stakePositions db)) as [| a l] eqn:Ef; [contradiction |].
      replace (Z.of_nat (List.length (a :: l)) =? 0) with false
        by (cbn [List.length]; symmetry; apply Z.eqb_neq; lia).
      destruct (finalizeLoop_positions (a :: l) db 0 []) as [db' [E P]].
      rewrite E. eexists. exists db'. split; [reflexivity |].
      split; [reflexivity | exact P]. }
    destruct Hrun as [r [db' [E [R P]]]].
    unfold st, step, exec, bind. cbn [fst snd]. rewrite E.
    cbn [fst snd ret]. rewrite R, P.
    split.
    { apply in_map_iff. exists p. split; [| exact Hin].
      replace (existsb (fun x => String.eqb (id p) (id x))
                 (filter (CooldownFinalizerProcessor.expiredCooldown now)
                    (stakePositions db))) with true; [reflexivity |].
      symmetry. apply existsb_exists. exists p. split; [exact Hsel |].
      apply String.eqb_refl. }
    split.
    { apply in_or_app. right. rewrite map_map.
      apply in_map_iff. exists p. split; [reflexivity | exact Hsel]. }
    repeat split.
Qed.

Lemma cooldown_coupling_witness :
  Forall (fun p => pendingSet p = true <-> cooldownSet p = true)
    (stakePositions
       (fst (run Scenario.cfg
               [Scenario.openOp; InitiateClose Scenario.t0 "alice" 7;
                Sweep (Scenario.t0 + 604800);
                FinalizeClose (Scenario.t0 + 604800) "alice" 7]
               (Scenario.db0, [])))).
Proof.
  apply Forall_forall. intros p Hp.
  apply (proj1 (cooldown_coupling Scenario.cfg
           [Scenario.openOp; InitiateClose Scenario.t0 "alice" 7;
            Sweep (Scenario.t0 + 604800);
            FinalizeClose (Scenario.t0 + 604800) "alice" 7]
           Scenario.db0 ltac:(vm_compute; discriminate)
           ltac:(repeat constructor) ltac:(repeat constructor) eq_refl) p Hp).
Defined.

(** C9 as stated fails under either reading of "non-null".  Read as
    "not [null]": after open, initiate-close and finalize-close the
    position is finalized and its [cooldownEnd] is [0n], not [null]; and
    the row the sweep writes has [cooldownEnd] [null] beside a
    [pendingPrincipal] of [0n].  Read as "neither [null] nor [0n]": a
    position opened with a principal of 0 and closed has its cooldown set
    and a pending principal of [0n]. *)
Lemma cooldown_fields_are_cleared_differently :
  map (fun p => (isActive p, cooldownEnd p, pendingPrincipal p))
    (stakePositions (fst Scenario3.finalizedRun))
  = [(false, Some 0, Some 0)]
  /\ snd Scenario3.finalizedRun = [StakePositionPda "alice" 7]
  /\ map (fun p => (cooldownEnd p, pendingPrincipal p))
       (stakePositions
          (snd (CooldownFinalizerProcessor.handleCooldownFinalization
                  (Scenario.t0 + 20) Scenario2.sweepDb)))
     = [(None, Some 0)]
  /\ map (fun p => (isActive p, cooldownSet p, pendingSet p,
                    pendingPrincipal p))
       (stakePositions Scenario3.zeroPrincipalDb)
     = [(false, true, false, Some 0)].
Proof. repeat split; vm_compute; reflexivity. Qed.

(** * Further properties *)

(** ** Opening a position *)

Section Opening.

Import StakingService.

(** X1.  Of two successful stakes of the same non-negative amount with
    [amount * 400] below 2^53 (where the doubles of the service are exact),
    the longer one never gets a smaller multiplier or less staking power,
    and the staking power of such a stake is between one and four times its
    amount. *)
Theorem staking_power_grows_with_duration
    (u1 u2 : string) (dn1 n1 dn2 n2 : Z) (w1 w2 : string) (amt d1 d2 t1 t2 : Z)
    (l1 l2 : bool) (s1 s2 : option Z) (dbA dbB dbA' dbB' : Db)
    (r1 r2 : StakeResult) :
  0 <= amt ->
  amt * 400 < Js.two53 ->
  d1 <= d2 ->
  stakeTokens u1 dn1 n1 w1 amt d1 t1 l1 s1 dbA = (Ok r1, dbA') ->
  stakeTokens u2 dn2 n2 w2 amt d2 t2 l2 s2 dbB = (Ok r2, dbB') ->
  sr_powerMultiplier r1 <= sr_powerMultiplier r2
  /\ sr_stakingPower r1 <= sr_stakingPower r2
  /\ amt <= sr_stakingPower r1 <= 4 * amt.
Proof.
  intros Hamt Hrange Hd E1 E2.
  destruct (stakeTokens_cases u1 dn1 n1 w1 amt d1 t1 l1 s1 dbA)
    as [[e E] | [_ [_ E]]]; rewrite E in E1; [discriminate |].
  destruct (stakeTokens_cases u2 dn2 n2 w2 amt d2 t2 l2 s2 dbB)
    as [[e' E'] | [_ [_ E']]]; rewrite E' in E2; [discriminate |].
  inversion E1; subst r1 dbA'. inversion E2; subst r2 dbB'.
  cbn [sr_powerMultiplier sr_stakingPower powerMultiplier stakingPower opened].
  clear E E' E1 E2.
  pose proof (calculatePowerMultiplier_monotone d1 d2 Hd) as Hm.
  pose proof (calculatePowerMultiplier_range d1) as Hr.
  pose proof (calculatePowerMultiplier_range d2) as Hr2.
  generalize dependent (calculatePowerMultiplier d2).
  generalize dependent (calculatePowerMultiplier d1).
  intros m1 Hr m2 Hm Hr2.
  rewrite (mul_exact amt m1), (mul_exact amt m2) by nia.
  rewrite !floor_quot_exact by (try nia; lia).
  split; [exact Hm |]. split.
  - apply Z.div_le_mono; [lia |]. apply Z.mul_le_mono_nonneg_l; lia.
  - split.
    + apply Z.div_le_lower_bound; [lia |]. rewrite (Z.mul_comm 100).
      apply Z.mul_le_mono_nonneg_l; lia.
    + apply Z.div_le_upper_bound; [lia |].
      transitivity (amt * 400); [apply Z.mul_le_mono_nonneg_l; lia | lia].
Qed.

Lemma staking_power_grows_with_duration_witness :
  exists r1 r2 db1 db2,
    stakeTokens "id-1" 0 Scenario.t0 "alice" 1000000000 3 1 true (Some 7)
      Scenario.db0 = (Ok r1, db1)
    /\ stakeTokens "id-2" 0 Scenario.t0 "bob" 1000000000 36 1 true (Some 8)
         Scenario.db0 = (Ok r2, db2)
    /\ sr_stakingPower r1 <= sr_stakingPower r2.
Proof.
  destruct (stakeTokens "id-1" 0 Scenario.t0 "alice" 1000000000 3 1 true
              (Some 7) Scenario.db0) as [[r1 | e1] db1] eqn:E1;
    [| vm_compute in E1; discriminate].
  destruct (stakeTokens "id-2" 0 Scenario.t0 "bob" 1000000000 36 1 true
              (Some 8) Scenario.db0) as [[r2 | e2] db2] eqn:E2;
    [| vm_compute in E2; discriminate].
  exists r1, r2, db1, db2. split; [reflexivity |]. split; [reflexivity |].
  apply (staking_power_grows_with_duration "id-1" "id-2" 0 Scenario.t0 0
           Scenario.t0 "alice" "bob" 1000000000 3 36 1 1 true true (Some 7)
           (Some 8) Scenario.db0 Scenario.db0 db1 db2 r1 r2
           ltac:(lia) ltac:(vm_compute; reflexivity) ltac:(lia) E1 E2).
Defined.

Lemma find_app_fresh (k : option Pda) (rows : list StakePosition)
    (row : StakePosition) :
  find (hasPda k) (rows ++ [row]) =
  match find (hasPda k) rows with
  | Some p => Some p
  | None => if hasPda k row then Some row else None
  end.
Proof.
  induction rows as [| q rows IH]; cbn; [reflexivity |].
  destruct (hasPda k q); [reflexivity | exact IH].
Qed.

Lemma existsb_false_find (row : StakePosition) (rows : list StakePosition) :
  existsb (fun p => pda_eqb (pda p) (pda row) || String.eqb (id p) (id row))
    rows = false ->
  find (hasPda (Some (pda row))) rows = None.
Proof.
  intros H. destruct (find (hasPda (Some (pda row))) rows) as [q |] eqn:Hf;
    [| reflexivity].
  apply find_some in Hf as [Hin Hq].
  assert (Ht : existsb
                 (fun p => pda_eqb (pda p) (pda row) || String.eqb (id p) (id row))
                 rows = true).
  { apply existsb_exists. exists q. split; [exact Hin |].
    cbn in Hq. now rewrite Hq. }
  congruence.
Qed.

(** X2.  A seed of magnitude 2^53 or more makes the [BN] constructor throw
    before anything is read.  Otherwise, with an active tier whose range
    contains the duration, and a derived address and identifier not yet in
    the table, [stakeTokens] succeeds and appends one row; looking the new
    address up, with the seed or with its negation, then returns an active
    position without cooldown, with [unlockTs] thirty-day months after
    [now] and both reward clocks at [now]; every other lookup, and every
    other table, is as before. *)
Theorem stakeTokens_then_lookup (uuid : string) (dateNow now : Z)
    (wallet : string) (amt months tier : Z) (locked : bool) (seed : option Z)
    (db : Db) (t : StakingTier) :
  find (fun t => tier_tierId t =? tier) (stakingTiers db) = Some t ->
  tier_isActive t = true ->
  minMonths t <= months <= maxMonths t ->
  let seed' := seedOrNow seed dateNow in
  let run :=
    stakeTokens uuid dateNow now wallet amt months tier locked seed db in
  (Js.two53 <= Z.abs seed' -> run = (Throw AssertionFailed, db))
  /\ forall key,
       findStakePositionPda wallet seed' = Some key ->
       (forall p, In p (stakePositions db) -> pda p <> key /\ id p <> uuid) ->
       exists r db' p,
         run = (Ok r, db')
         /\ sr_pda r = key
         /\ stakePositions db' = stakePositions db ++ [p]
         /\ find (hasPda (findStakePositionPda wallet seed'))
              (stakePositions db') = Some p
         /\ find (hasPda (findStakePositionPda wallet (- seed')))
              (stakePositions db') = Some p
         /\ isActive p = true /\ cooldownEnd p = None
         /\ pendingPrincipal p = None
         /\ amount p = amt /\ owner p = wallet /\ positionSeed p = seed'
         /\ unlockTs p = now + months * 2592000
         /\ lastRewardTs p = now /\ lastClaimTs p = Some now
         /\ (forall k, k <> Some key ->
             find (hasPda k) (stakePositions db')
             = find (hasPda k) (stakePositions db))
         /\ stakingTiers db' = stakingTiers db
         /\ penaltyTransactions db' = penaltyTransactions db
         /\ rewardNfts db' = rewardNfts db
         /\ programState db' = programState db.
Proof.
  intros Ht Ha Hrange seed' run. split.
  { intros Hbig. unfold run, stakeTokens. fold seed'.
    rewrite findStakePositionPda_spec.
    destruct (Z.ltb_spec (Z.abs seed') Js.two53); [lia | reflexivity]. }
  intros key Hkey Hfresh.
  set (row := opened uuid dateNow now wallet amt months tier locked seed).
  assert (Hrow : pda row = key).
  { rewrite findStakePositionPda_spec in Hkey.
    destruct (Z.abs seed' <? Js.two53); [| discriminate].
    now inversion Hkey. }
  assert (Hneg : findStakePositionPda wallet (- seed') = Some key)
    by (rewrite findStakePositionPda_spec in Hkey |- *;
        now rewrite Z.abs_opp).
  assert (Hex : existsb
                  (fun p => pda_eqb (pda p) (pda row) || String.eqb (id p) (id row))
                  (stakePositions db) = false).
  { destruct (existsb _ (stakePositions db)) eqn:E; [| reflexivity].
    apply existsb_exists in E as [q [Hin Hq]].
    destruct (Hfresh q Hin) as [H1 H2].
    apply orb_true_iff in Hq as [Hq | Hq].
    - apply pda_eqb_eq in Hq. rewrite Hrow in Hq. contradiction.
    - apply String.eqb_eq in Hq. contradiction. }
  assert (Hrun : run
                 = (Ok (mkStakeResult uuid (pda row) (positionSeed row) amt
                          months (powerMultiplier row) (stakingPower row)
                          (unlockTs row)),
                    set_stakePositions (stakePositions db ++ [row]) db)).
  { destruct (stakeTokens_cases uuid dateNow now wallet amt months tier locked
                seed db) as [[e E] | [_ [_ E]]]; [| exact E].
    exfalso. revert E.
    unfold stakeTokens. fold seed'. rewrite Hkey.
    unfold bind, prisma.stakingTier.findUnique.
    rewrite Ht, Ha. cbn [negb].
    replace ((months <? minMonths t) || (maxMonths t <? months)) with false
      by (symmetry; apply orb_false_iff; split; apply Z.ltb_ge; lia).
    unfold prisma.stakePosition.create.
    cbn [pda id]. rewrite <- Hrow.
    change uuid with (id row) at 1.
    rewrite Hex. discriminate. }
  assert (Hfind : find (hasPda (Some key)) (stakePositions db ++ [row])
                  = Some row).
  { rewrite find_app_fresh, <- Hrow, (existsb_false_find row _ Hex).
    unfold hasPda. now rewrite pda_eqb_refl. }
  eexists. eexists. exists row. split; [exact Hrun |].
  split; [exact Hrow |]. split; [reflexivity |].
  cbn [stakePositions set_stakePositions].
  split; [rewrite Hkey; exact Hfind |].
  split; [rewrite Hneg; exact Hfind |].
  do 6 (split; [reflexivity |]).
  split; [cbn; lia |].
  do 2 (split; [reflexivity |]).
  split; [| repeat split].
  intros k Hk. rewrite find_app_fresh.
  destruct (find (hasPda k) (stakePositions db)); [reflexivity |].
  destruct (hasPda k row) eqn:E; [| reflexivity].
  exfalso. apply Hk. destruct k as [a |]; [| discriminate].
  unfold hasPda in E. apply pda_eqb_eq in E. now rewrite <- E, Hrow.
Qed.

Lemma stakeTokens_then_lookup_witness :
  exists r db',
    stakeTokens "id-1" 0 Scenario.t0 "alice" 1000000000 6 1 true (Some 7)
      Scenario.db0 = (Ok r, db')
    /\ sr_pda r = StakePositionPda "alice" 7.
Proof.
  destruct (stakeTokens_then_lookup "id-1" 0 Scenario.t0 "alice" 1000000000 6
              1 true (Some 7) Scenario.db0 Scenario.tier1 eq_refl eq_refl
              ltac:(cbn; lia)) as [_ H].
  destruct (H (StakePositionPda "alice" 7) eq_refl ltac:(intros p []))
    as [r [db' [p [E [K _]]]]].
  exists r, db'. split; [exact E | exact K].
Defined.

(** X3.  Once a stake succeeded for a wallet and a seed, no later
    [stakeTokens] of that wallet with that seed succeeds, whatever its
    other arguments: it throws and writes nothing. *)
Theorem stakeTokens_seed_is_single_use
    (uuid : string) (dateNow now : Z) (wallet : string)
    (amt months tier : Z) (locked : bool) (seed : Z) (db db' : Db)
    (r : StakeResult)
    (uuid2 : string) (dateNow2 now2 amt2 months2 tier2 : Z) (locked2 : bool) :
  seed <> 0 ->
  stakeTokens uuid dateNow now wallet amt months tier locked (Some seed) db
  = (Ok r, db') ->
  exists e,
    stakeTokens uuid2 dateNow2 now2 wallet amt2 months2 tier2 locked2
      (Some seed) db' = (Throw e, db').
Proof.
  intros Hseed Hok.
  destruct (stakeTokens_cases uuid dateNow now wallet amt months tier locked
              (Some seed) db) as [[e E] | [_ [_ E]]];
    rewrite E in Hok; [discriminate |].
  inversion Hok; subst r db'; clear Hok.
  destruct (stakeTokens_cases uuid2 dateNow2 now2 wallet amt2 months2 tier2
              locked2 (Some seed)
              (set_stakePositions
                 (stakePositions db
                  ++ [opened uuid dateNow now wallet amt months tier locked
                        (Some seed)]) db))
    as [[e E2] | [Hfresh _]]; [exists e; exact E2 |].
  exfalso. cbn [stakePositions set_stakePositions] in Hfresh.
  rewrite existsb_app in Hfresh. apply orb_false_iff in Hfresh as [_ Hnew].
  assert (Hs : forall d, seedOrNow (Some seed) d = seed).
  { intros d. unfold seedOrNow.
    destruct (Z.eqb_spec seed 0); [contradiction | reflexivity]. }
  cbn [existsb opened pda id] in Hnew.
  rewrite !Hs, pda_eqb_refl in Hnew. discriminate.
Qed.

Lemma stakeTokens_seed_is_single_use_witness :
  exists e,
    stakeTokens "id-2" 0 (Scenario.t0 + 5) "alice" 5000000 12 1 false (Some 7)
      Scenario.db1 = (Throw e, Scenario.db1).
Proof.
  apply (stakeTokens_seed_is_single_use "id-1" (Scenario.t0 * 1000)
           Scenario.t0 "alice" 1000000000 6 1 true 7 Scenario.db0 Scenario.db1
           (mkStakeResult "id-1" (StakePositionPda "alice" 7) 7 1000000000 6
              150 1500000000 (Scenario.t0 + 15552000))
           "id-2" 0 (Scenario.t0 + 5) 5000000 12 1 false
           ltac:(lia) eq_refl).
Defined.

End Opening.

(** ** Closing a position *)

Section ClosingMore.

Import StakingService.

(** X4.  An initiate-close at or after [unlockTs] is not early: it writes
    no penalty record, leaves the program state (the reward pool) as it
    was, keeps the whole principal pending (as the double [Number] reads it,
    which is the principal itself below 2^53) and opens the cooldown for
    [cooldownPeriod] seconds. *)
Theorem mature_close_has_no_penalty (cfg : Config) (now : Z) (wallet : string)
    (seed : Z) (db : Db) (p : StakePosition) :
  find (hasPda (findStakePositionPda wallet seed)) (stakePositions db) = Some p ->
  isActive p = true ->
  cooldownAlreadyActive p = false ->
  unlockTs p <= now ->
  exists r db' p',
    unstakeTokens cfg now wallet seed db = (Ok r, db')
    /\ ur_isEarlyUnstake r = false
    /\ ur_cooldownEnd r = now + cooldownPeriod cfg
    /\ penaltyTransactions db' = penaltyTransactions db
    /\ programState db' = programState db
    /\ find (hasPda (findStakePositionPda wallet seed)) (stakePositions db')
       = Some p'
    /\ pendingPrincipal p' = Some (Js.Number (amount p))
    /\ (Z.abs (amount p) < Js.two53 -> pendingPrincipal p' = Some (amount p))
    /\ amount p' = amount p
    /\ isActive p' = false
    /\ cooldownEnd p' = Some (now + cooldownPeriod cfg).
Proof.
  intros Hf Ha Hc Hlate.
  destruct (unstakeTokens_ok cfg now wallet seed db p Hf Ha Hc)
    as [db' [Hrun [Hpos [_ [_ [Hpen Hst]]]]]].
  assert (E : (now <? unlockTs p) = false) by (apply Z.ltb_ge; lia).
  unfold pendingAfterClose in Hpos. rewrite E in *.
  eexists. exists db', (closing cfg now (Js.Number (amount p)) p).
  split; [exact Hrun |]. split; [reflexivity |]. split; [reflexivity |].
  split; [exact Hpen |]. split; [exact Hst |].
  split; [rewrite Hpos, find_updateWhere, Hf by reflexivity; reflexivity |].
  split; [reflexivity |].
  split; [intros Hsafe; cbn [pendingPrincipal closing set_isActive
                               set_pendingPrincipal];
          now rewrite Number_exact |].
  repeat split.
Qed.

Lemma mature_close_has_no_penalty_witness :
  exists r db',
    unstakeTokens Scenario.cfg (Scenario.t0 + 15552000) "alice" 7 Scenario.db1
    = (Ok r, db')
    /\ ur_isEarlyUnstake r = false
    /\ penaltyTransactions db' = [].
Proof.
  destruct (mature_close_has_no_penalty Scenario.cfg (Scenario.t0 + 15552000)
              "alice" 7 Scenario.db1
              (opened "id-1" (Scenario.t0 * 1000) Scenario.t0 "alice"
                 1000000000 6 1 true (Some 7))
              ltac:(vm_compute; reflexivity) eq_refl eq_refl
              ltac:(vm_compute; discriminate))
    as [r [db' [p' [E [H1 [_ [H2 _]]]]]]].
  exists r, db'. split; [exact E |]. split; [exact H1 | exact H2].
Defined.

(** X5.  The penalty of an early close of a non-negative principal with
    [principal * 1250] below 2^53 (where the doubles of the service are
    exact) is between 5% and 12.5% of it, rounded down: the recorded rate is
    between 500 and 1250, the penalty is non-negative and at most an eighth
    of the principal, the pending principal plus the penalty is the
    principal, and the two halves are equal and miss the penalty by at most
    one unit. *)
Theorem early_penalty_is_conserved (cfg : Config) (now : Z) (wallet : string)
    (seed : Z) (db : Db) (p : StakePosition) :
  find (hasPda (findStakePositionPda wallet seed)) (stakePositions db) = Some p ->
  isActive p = true ->
  cooldownAlreadyActive p = false ->
  now < unlockTs p ->
  0 <= amount p ->
  amount p * 1250 < Js.two53 ->
  exists r db' t p' v,
    unstakeTokens cfg now wallet seed db = (Ok r, db')
    /\ penaltyTransactions db' = penaltyTransactions db ++ [t]
    /\ find (hasPda (findStakePositionPda wallet seed)) (stakePositions db')
       = Some p'
    /\ pendingPrincipal p' = Some v
    /\ 500 <= tierMultiplier t <= 1250
    /\ 0 <= penaltyAmount t
    /\ 8 * penaltyAmount t <= amount p
    /\ v + penaltyAmount t = amount p
    /\ 0 <= v
    /\ toRewardPool t = toProtocol t
    /\ toRewardPool t + toProtocol t <= penaltyAmount t
       <= toRewardPool t + toProtocol t + 1.
Proof.
  intros Hf Ha Hc Hearly Hamt Hsafe.
  destruct (unstakeTokens_ok cfg now wallet seed db p Hf Ha Hc)
    as [db' [Hrun [Hpos [_ [_ [Hpen _]]]]]].
  apply Z.ltb_lt in Hearly.
  unfold pendingAfterClose in Hpos. rewrite Hearly in *.
  pose proof (getTierPenaltyMultiplier_range (tierId p)) as Hrate.
  destruct (penaltyOf_exact p Hamt ltac:(nia)) as [Epen [Ehalf [Eminus Hpb]]].
  rewrite Ehalf in Hpen. rewrite Eminus in Hpos.
  eexists. exists db'. eexists.
  exists (closing cfg now (amount p - penaltyOf p) p).
  eexists.
  split; [exact Hrun |]. split; [exact Hpen |].
  split; [rewrite Hpos, find_updateWhere, Hf by reflexivity; reflexivity |].
  split; [reflexivity |].
  cbn [tierMultiplier penaltyAmount toRewardPool toProtocol].
  rewrite Epen in *. clear Hrun Hpos Hpen Hf Ha Hc Hearly Epen Ehalf Eminus.
  generalize dependent (getTierPenaltyMultiplier (tierId p)). intros rate Hrate.
  generalize dependent (amount p). intros a Ha0 Hsafe Hpb.
  assert (Hpen8 : 8 * (a * rate / 10000) <= a).
  { assert (a * rate / 10000 <= a * 1250 / 10000).
    { apply Z.div_le_mono; [lia |]. apply Z.mul_le_mono_nonneg_l; lia. }
    pose proof (Z.mul_div_le (a * 1250) 10000 ltac:(lia)). lia. }
  pose proof (Z.div_mod (a * rate / 10000) 2 ltac:(lia)) as Hd.
  pose proof (Z.mod_pos_bound (a * rate / 10000) 2 ltac:(lia)) as Hb.
  repeat split; try lia.
Qed.

Lemma early_penalty_is_conserved_witness :
  exists r db' t,
    unstakeTokens Scenario.cfg Scenario.t0 "alice" 7 Scenario.db1 = (Ok r, db')
    /\ penaltyTransactions db' = [t]
    /\ 8 * penaltyAmount t <= 1000000000.
Proof.
  destruct (early_penalty_is_conserved Scenario.cfg Scenario.t0 "alice" 7
              Scenario.db1
              (opened "id-1" (Scenario.t0 * 1000) Scenario.t0 "alice"
                 1000000000 6 1 true (Some 7))
              ltac:(vm_compute; reflexivity) eq_refl eq_refl
              ltac:(vm_compute; reflexivity)
              ltac:(vm_compute; discriminate) ltac:(vm_compute; reflexivity))
    as [r [db' [t [p' [v [E [H1 [_ [_ [_ [_ [H2 _]]]]]]]]]]]].
  exists r, db', t. split; [exact E |]. split; [exact H1 | exact H2].
Defined.

(** Beyond that range the eighth is not a bound: at rate 1250 the principal
    7_388_672_526_496_207 gives the penalty 923_584_065_812_026. *)
Lemma penaltyOf_above_an_eighth :
  let p := opened "id-9" 0 0 "carol" 7388672526496207 6 4 true (Some 1) in
  penaltyOf p = 923584065812026 /\ amount p < 8 * penaltyOf p.
Proof. split; vm_compute; reflexivity. Qed.

(** X6.  A position that entered cooldown cannot be closed again and
    cannot claim: after a successful [unstakeTokens], every further
    [unstakeTokens] and every [claimRewards] on the same wallet and seed
    throws [NotActive] and writes nothing. *)
Theorem cooling_position_rejects_close_and_claim (cfg : Config) (now : Z)
    (wallet : string) (seed : Z) (db db' : Db) (r : UnstakeResult) :
  unstakeTokens cfg now wallet seed db = (Ok r, db') ->
  (forall cfg2 now2,
     unstakeTokens cfg2 now2 wallet seed db' = (Throw NotActive, db'))
  /\ (forall cfg2 uuid dateNow2 now2 nftSeed,
        RewardsService.claimRewards cfg2 uuid dateNow2 now2 wallet seed nftSeed
          db' = (Throw NotActive, db')).
Proof.
  intros Hok.
  destruct (unstakeTokens_cases cfg now wallet seed db)
    as [[e E] | [p [Hf [Ha Hc]]]]; [rewrite E in Hok; discriminate |].
  destruct (unstakeTokens_ok cfg now wallet seed db p Hf Ha Hc)
    as [db1 [E [Hpos _]]].
  rewrite E in Hok. inversion Hok; subst r db1; clear Hok.
  assert (Hf' : find (hasPda (findStakePositionPda wallet seed))
                  (stakePositions db')
                = Some (closing cfg now (pendingAfterClose now p) p))
    by (rewrite Hpos, find_updateWhere, Hf by reflexivity; reflexivity).
  clear Hf Hpos E.
  split.
  - intros cfg2 now2. unfold unstakeTokens. derived Hf' k Ek.
    unfold bind, prisma.stakePosition.findUnique.
    change (fun q => pda_eqb (pda q) k) with (hasPda (Some k)).
    rewrite Hf'. reflexivity.
  - intros cfg2 uuid dateNow2 now2 nftSeed.
    unfold RewardsService.claimRewards. derived Hf' k Ek.
    unfold bind, prisma.stakePosition.findUnique.
    change (fun q => pda_eqb (pda q) k) with (hasPda (Some k)).
    rewrite Hf'. reflexivity.
Qed.

Lemma cooling_position_rejects_close_and_claim_witness :
  unstakeTokens Scenario.cfg (Scenario.t0 + 9) "alice" 7 Scenario.db2
  = (Throw NotActive, Scenario.db2).
Proof.
  apply (proj1 (cooling_position_rejects_close_and_claim Scenario.cfg
                  Scenario.t0 "alice" 7 Scenario.db1 Scenario.db2
                  (mkUnstakeResult "id-1" (StakePositionPda "alice" 7)
                     (Scenario.t0 + 604800) true)
                  ltac:(vm_compute; reflexivity))).
Defined.

(** X7.  With a seed of magnitude below 2^53, on a wallet and seed under
    whose derived address (which forgets the sign of the seed) no position
    is stored, [unstakeTokens], [finalizeUnstake] and [claimRewards] all
    throw [NotFound] and write nothing.  With a seed of magnitude 2^53 or
    more the [BN] constructor throws in all three, whatever is stored. *)
Theorem missing_position_is_not_found (cfg : Config) (uuid : string)
    (dateNow now : Z) (wallet : string) (seed : Z) (nftSeed : option Z)
    (db : Db) :
  (Z.abs seed < Js.two53 ->
   find (hasPda (findStakePositionPda wallet seed)) (stakePositions db) = None ->
   unstakeTokens cfg now wallet seed db = (Throw NotFound, db)
   /\ unstakeTokens cfg now wallet (- seed) db = (Throw NotFound, db)
   /\ finalizeUnstake now wallet seed db = (Throw NotFound, db)
   /\ RewardsService.claimRewards cfg uuid dateNow now wallet seed nftSeed db
      = (Throw NotFound, db))
  /\ (Js.two53 <= Z.abs seed ->
      unstakeTokens cfg now wallet seed db = (Throw AssertionFailed, db)
      /\ finalizeUnstake now wallet seed db = (Throw AssertionFailed, db)
      /\ RewardsService.claimRewards cfg uuid dateNow now wallet seed nftSeed db
         = (Throw AssertionFailed, db)).
Proof.
  split.
  - intros Hsmall Hf.
    assert (Hneg : findStakePositionPda wallet (- seed)
                   = findStakePositionPda wallet seed)
      by (rewrite !findStakePositionPda_spec; now rewrite Z.abs_opp).
    unfold unstakeTokens, finalizeUnstake, RewardsService.claimRewards.
    rewrite Hneg.
    destruct (findStakePositionPda wallet seed) as [k |] eqn:Ek.
    + unfold bind, prisma.stakePosition.findUnique.
      change (fun q => pda_eqb (pda q) k) with (hasPda (Some k)).
      rewrite Hf. repeat split.
    + rewrite findStakePositionPda_spec in Ek.
      destruct (Z.ltb_spec (Z.abs seed) Js.two53); [discriminate | lia].
  - intros Hbig.
    assert (Ek : findStakePositionPda wallet seed = None).
    { rewrite findStakePositionPda_spec.
      destruct (Z.ltb_spec (Z.abs seed) Js.two53); [lia | reflexivity]. }
    unfold unstakeTokens, finalizeUnstake, RewardsService.claimRewards.
    rewrite Ek. repeat split.
Qed.

Lemma missing_position_is_not_found_witness :
  finalizeUnstake Scenario.t0 "bob" 999999 Scenario.db1
  = (Throw NotFound, Scenario.db1)
  /\ finalizeUnstake Scenario.t0 "alice" Js.two53 Scenario.db1
     = (Throw AssertionFailed, Scenario.db1).
Proof.
  pose proof (missing_position_is_not_found Scenario.cfg "x" 0 Scenario.t0
                "bob" 999999 None Scenario.db1) as [H _].
  pose proof (missing_position_is_not_found Scenario.cfg "x" 0 Scenario.t0
                "alice" Js.two53 None Scenario.db1) as [_ H'].
  split.
  - apply (H ltac:(vm_compute; reflexivity) ltac:(vm_compute; reflexivity)).
  - apply (H' ltac:(vm_compute; discriminate)).
Defined.

(** X8.  A position that was opened and never closed cannot be finalized:
    right after a successful [stakeTokens] with an explicit seed, every
    [finalizeUnstake] on that wallet and seed throws [StillActive] and
    writes nothing. *)
Theorem finalize_needs_initiate_close (uuid : string) (dateNow now : Z)
    (wallet : string) (amt months tier : Z) (locked : bool) (seed : Z)
    (db db' : Db) (r : StakeResult) :
  seed <> 0 ->
  stakeTokens uuid dateNow now wallet amt months tier locked (Some seed) db
  = (Ok r, db') ->
  forall now2, finalizeUnstake now2 wallet seed db' = (Throw StillActive, db').
Proof.
  intros Hseed Hok now2.
  destruct (stakeTokens_cases uuid dateNow now wallet amt months tier locked
              (Some seed) db) as [[e E] | [Hfresh [Hkey E]]];
    rewrite E in Hok; [discriminate |].
  inversion Hok; subst r db'; clear Hok E.
  set (row := opened uuid dateNow now wallet amt months tier locked (Some seed))
    in *.
  assert (Hs : seedOrNow (Some seed) dateNow = seed).
  { unfold seedOrNow.
    destruct (Z.eqb_spec seed 0); [contradiction | reflexivity]. }
  rewrite Hs in Hkey.
  unfold finalizeUnstake. rewrite Hkey.
  unfold bind, prisma.stakePosition.findUnique.
  change (fun q => pda_eqb (pda q) (pda row)) with (hasPda (Some (pda row))).
  cbn [stakePositions set_stakePositions].
  rewrite find_app_fresh, (existsb_false_find row _ Hfresh).
  unfold hasPda. rewrite pda_eqb_refl. reflexivity.
Qed.

Lemma finalize_needs_initiate_close_witness :
  finalizeUnstake (Scenario.t0 + 700000) "alice" 7 Scenario.db1
  = (Throw StillActive, Scenario.db1).
Proof.
  apply (finalize_needs_initiate_close "id-1" (Scenario.t0 * 1000) Scenario.t0
           "alice" 1000000000 6 1 true 7 Scenario.db0 Scenario.db1
           (mkStakeResult "id-1" (StakePositionPda "alice" 7) 7 1000000000 6
              150 1500000000 (Scenario.t0 + 15552000))
           ltac:(lia) ltac:(vm_compute; reflexivity)).
Defined.

End ClosingMore.

(** ** Rewards: cap, claim and vesting *)

Section RewardsMore.

Import RewardsService.

(** X9.  With a positive stake over a positive number of weeks and the
    products [rawReward*52*10000] and [stakedAmount*7500*weeks] below 2^53
    (where the doubles of the function are exact), the annualised rate of
    what [applyApyCap] returns,
    [floor(result*52*10000 / (stakedAmount*weeks))], never exceeds 7500
    basis points; the result is non-negative, and capping it again changes
    nothing. *)
Theorem capped_reward_respects_max_apy (stakedAmount rawReward weeks : Z) :
  0 < stakedAmount -> 0 <= rawReward -> 0 < weeks ->
  rawReward * 52 * 10000 < Js.two53 ->
  stakedAmount * 7500 * weeks < Js.two53 ->
  let result := applyApyCap stakedAmount rawReward weeks in
  result * 52 * 10000 / (stakedAmount * weeks) <= 7500
  /\ 0 <= result
  /\ applyApyCap stakedAmount result weeks = result.
Proof.
  intros Hs Hr Hw Hn Hd result.
  assert (Hsw : 0 < stakedAmount * weeks) by nia.
  assert (Hge : 0 <= result) by (apply applyApyCap_nonneg; lia).
  assert (Hle : result <= rawReward) by (apply applyApyCap_le; lia).
  assert (Hbound : result * 52 * 10000 / (stakedAmount * weeks) <= 7500).
  { unfold result. rewrite applyApyCap_exact by lia.
    destruct (Z.ltb_spec 7500 (rawReward * 52 * 10000 / (stakedAmount * weeks)))
      as [Hgt | Hle']; [| exact Hle'].
    apply Z.div_le_upper_bound; [exact Hsw |].
    pose proof (Z.mul_div_le (stakedAmount * 7500 * weeks) (10000 * 52)
                  ltac:(lia)).
    nia. }
  split; [exact Hbound |].
  split; [exact Hge |].
  rewrite (applyApyCap_exact stakedAmount result weeks) by lia.
  destruct (Z.ltb_spec 7500 (result * 52 * 10000 / (stakedAmount * weeks)));
    [lia | reflexivity].
Qed.

Lemma capped_reward_respects_max_apy_witness :
  applyApyCap 100000000 4200000000 2 * 52 * 10000 / (100000000 * 2) <= 7500.
Proof.
  apply (capped_reward_respects_max_apy 100000000 4200000000 2
           ltac:(lia) ltac:(lia) ltac:(lia)
           ltac:(vm_compute; reflexivity) ltac:(vm_compute; reflexivity)).
Defined.

(** X10.  For a position holding at most the total staking power, with
    non-negative pool and weeks and every product the computation forms
    ([pool*21], [emission*userPower], [share*weeks*52*10000] and
    [userPower*7500*weeks]) below 2^53, the claimable reward is non-negative
    and never more than the weekly pool emission times the weeks elapsed,
    that is, at most 0.21% of the pool per week. *)
Theorem pro_rata_reward_is_bounded (userPower totalPower pool weeks : Z) :
  0 <= userPower <= totalPower -> 0 <= pool -> 0 <= weeks ->
  pool * 21 < Js.two53 ->
  pool * 21 / 10000 * userPower < Js.two53 ->
  pool * 21 / 10000 * userPower / totalPower * weeks * 52 * 10000 < Js.two53 ->
  userPower * 7500 * weeks < Js.two53 ->
  let reward := calculateProRataReward userPower totalPower pool weeks in
  0 <= reward
  /\ reward <= weeklyPoolEmission pool * weeks
  /\ 10000 * reward <= 21 * pool * weeks.
Proof.
  intros Hu Hp Hw H1 H2 H3 H4 reward.
  pose proof (weeklyPoolEmission_floor pool Hp H1) as [Hfloor _].
  pose proof (weeklyPoolEmission_nonneg pool Hp) as He.
  assert (Hmain : 0 <= reward <= weeklyPoolEmission pool * weeks).
  { unfold reward, calculateProRataReward.
    destruct (Z.eqb_spec totalPower 0) as [| Ht]; cbn [orb]; [nia |].
    destruct (Z.eqb_spec userPower 0) as [| Hu0]; [nia |].
    assert (Eshare : userWeeklyShare userPower totalPower pool
                     = pool * 21 / 10000 * userPower / totalPower)
      by (apply userWeeklyShare_exact; lia).
    rewrite weeklyPoolEmission_exact in * by assumption.
    set (e := pool * 21 / 10000) in *.
    assert (Hshare : 0 <= e * userPower / totalPower <= e).
    { split.
      - apply Z.div_pos; [nia | lia].
      - apply Z.div_le_upper_bound; [lia |]. nia. }
    assert (Eraw : totalReward userPower totalPower pool weeks
                   = e * userPower / totalPower * weeks).
    { unfold totalReward. rewrite Eshare. apply mul_exact.
      rewrite Z.abs_eq by nia. nia. }
    rewrite Eraw.
    split.
    - apply applyApyCap_nonneg; nia.
    - pose proof (applyApyCap_le userPower
                    (e * userPower / totalPower * weeks) weeks
                    ltac:(lia) ltac:(nia) ltac:(lia) ltac:(lia) ltac:(lia)).
      nia. }
  split; [lia |]. split; [lia |]. nia.
Qed.

Lemma pro_rata_reward_is_bounded_witness :
  calculateProRataReward 1000000 1000000 1000000000000 2
  <= weeklyPoolEmission 1000000000000 * 2.
Proof.
  apply (pro_rata_reward_is_bounded 1000000 1000000 1000000000000 2
           ltac:(lia) ltac:(lia) ltac:(lia)
           ltac:(vm_compute; reflexivity) ltac:(vm_compute; reflexivity)
           ltac:(vm_compute; reflexivity) ltac:(vm_compute; reflexivity)).
Defined.

(** The two outcomes of [claimRewards]: a throw that writes nothing, or a
    success with its result and writes spelled out. *)
Lemma claimRewards_cases (cfg : Config) (uuid : string) (dateNow now : Z)
    (wallet : string) (seed : Z) (nftSeed : option Z) (db : Db) :
  (exists e,
     claimRewards cfg uuid dateNow now wallet seed nftSeed db = (Throw e, db))
  \/ (exists p s k,
        find (hasPda (findStakePositionPda wallet seed)) (stakePositions db)
        = Some p
        /\ programState db = Some s
        /\ isActive p = true
        /\ findRewardNftPda wallet (nftSeedOrNow nftSeed dateNow) = Some k
        /\ let weeks := (now - lastRewardTs p) / weekInSeconds in
           let reward :=
             calculateProRataReward (Js.Number (stakingPower p))
               (Js.Number (totalStakingPower s))
               (Js.Number (totalRewardPool s)) weeks in
           let nft :=
             mkRewardNft uuid wallet k reward
               (now + vestingPeriod cfg) true (nftSeedOrNow nftSeed dateNow)
               (id p) in
           reward <> 0
           /\ existsb (fun n => pda_eqb (nft_pda n) (nft_pda nft)
                                || String.eqb (nft_id n) (nft_id nft))
                (rewardNfts db) = false
           /\ claimRewards cfg uuid dateNow now wallet seed nftSeed db
              = (Ok (mkClaimResult uuid (nft_pda nft)
                       (nftSeedOrNow nftSeed dateNow) reward
                       (now + vestingPeriod cfg) weeks),
                 set_stakePositions
                   (prisma.updateWhere
                      (hasPda (findStakePositionPda wallet seed))
                      (fun q => set_lastClaimTs (Some now)
                                  (set_lastRewardTs now q))
                      (stakePositions db))
                   (set_rewardNfts (rewardNfts db ++ [nft]) db))).
Proof.
  destruct (find (hasPda (findStakePositionPda wallet seed)) (stakePositions db))
    as [p |] eqn:Hf.
  2: { left. unfold claimRewards.
       destruct (findStakePositionPda wallet seed) as [k |];
         [| eexists; reflexivity].
       unfold bind, prisma.stakePosition.findUnique.
       change (fun q => pda_eqb (pda q) k) with (hasPda (Some k)).
       rewrite Hf. eexists; reflexivity. }
  destruct (programState db) as [s |] eqn:Hs.
  - rewrite (claimRewards_gates cfg uuid dateNow now wallet seed nftSeed db p s
               Hf Hs).
    cbv zeta.
    destruct (isActive p) eqn:Ha; cbn [negb]; [| left; eexists; reflexivity].
    destruct (now <? lastClaimOf p + weekInSeconds);
      [left; eexists; reflexivity |].
    destruct (_ =? 0) eqn:Hw; [left; eexists; reflexivity |].
    destruct (Z.eqb_spec
                (calculateProRataReward (Js.Number (stakingPower p))
                   (Js.Number (totalStakingPower s))
                   (Js.Number (totalRewardPool s))
                   ((now - lastRewardTs p) / weekInSeconds)) 0) as [| Hr];
      [left; eexists; reflexivity |].
    destruct (findRewardNftPda wallet (nftSeedOrNow nftSeed dateNow))
      as [k |] eqn:Ek; [| left; eexists; reflexivity].
    destruct (existsb _ (rewardNfts db)) eqn:Hex;
      [left; eexists; reflexivity |].
    right. exists p, s, k. repeat split; try assumption.
  - left. unfold claimRewards. derived Hf k Ek.
    unfold bind, prisma.stakePosition.findUnique, prisma.programState.findFirst.
    change (fun q => pda_eqb (pda q) k) with (hasPda (Some k)).
    rewrite Hf.
    destruct (negb (isActive p)); [eexists; reflexivity |].
    destruct (now <? lastClaimOf p + weekInSeconds); [eexists; reflexivity |].
    cbv beta. rewrite Hs. eexists; reflexivity.
Qed.

(** X11.  A [claimRewards] that throws writes nothing.  One that succeeds
    appends exactly one active receipt (owned by the caller, linked to the
    position, holding the returned reward and vesting [vestingPeriod]
    seconds after [now]), rewrites only the two reward clocks of the
    claimed position, and leaves the program state untouched: the reward
    pool is not debited. *)
Theorem claimRewards_writes (cfg : Config) (uuid : string) (dateNow now : Z)
    (wallet : string) (seed : Z) (nftSeed : option Z) (db db' : Db)
    (out : Outcome ClaimResult) :
  claimRewards cfg uuid dateNow now wallet seed nftSeed db = (out, db') ->
  match out with
  | Throw _ => db' = db
  | Ok r =>
    (exists n p,
       rewardNfts db' = rewardNfts db ++ [n]
       /\ find (hasPda (findStakePositionPda wallet seed)) (stakePositions db)
          = Some p
       /\ nft_isActive n = true /\ nft_owner n = wallet
       /\ nft_positionId n = id p
       /\ rewardAmount n = cr_rewardAmount r
       /\ vestTs n = now + vestingPeriod cfg
       /\ cr_vestTimestamp r = vestTs n
       /\ Some (nft_pda n) = findRewardNftPda wallet (cr_nftSeed r))
    /\ programState db' = programState db
    /\ penaltyTransactions db' = penaltyTransactions db
    /\ stakingTiers db' = stakingTiers db
    /\ map identityOf (stakePositions db') = map identityOf (stakePositions db)
    /\ map (fun q => (amount q, isActive q, cooldownEnd q, pendingPrincipal q))
         (stakePositions db')
       = map (fun q => (amount q, isActive q, cooldownEnd q, pendingPrincipal q))
           (stakePositions db)
    /\ (forall q, In q (stakePositions db) ->
        Some (pda q) <> findStakePositionPda wallet seed ->
        In q (stakePositions db'))
  end.
Proof.
  intros Hrun.
  destruct (claimRewards_cases cfg uuid dateNow now wallet seed nftSeed db)
    as [[e E] | [p [s [k [Hf [Hs [Ha [Ek [Hr [Hex E]]]]]]]]]];
    rewrite E in Hrun; inversion Hrun; subst out db'; [reflexivity |].
  cbn [stakePositions rewardNfts programState penaltyTransactions stakingTiers
         set_stakePositions set_rewardNfts].
  split.
  { eexists. exists p. split; [reflexivity |]. split; [exact Hf |].
    cbn [cr_nftSeed]. rewrite Ek. repeat split. }
  do 3 (split; [reflexivity |]).
  unfold prisma.updateWhere. rewrite !map_map.
  split; [apply map_ext; intros q; now destruct (hasPda _ q) |].
  split; [apply map_ext; intros q; now destruct (hasPda _ q) |].
  intros q Hq Hne. apply in_map_iff. exists q. split; [| exact Hq].
  destruct (hasPda (findStakePositionPda wallet seed) q) eqn:Hk;
    [| reflexivity].
  exfalso. apply Hne.
  destruct (findStakePositionPda wallet seed) as [a |]; [| discriminate].
  unfold hasPda in Hk. apply pda_eqb_eq in Hk. now rewrite Hk.
Qed.

Lemma claimRewards_writes_witness :
  exists r db',
    claimRewards Scenario.cfg "nft-1" 0 (Scenario.t0 + 1209600) "alice" 7
      (Some 9) Scenario.rewardDb = (Ok r, db')
    /\ programState db' = programState Scenario.rewardDb.
Proof.
  destruct (claimRewards Scenario.cfg "nft-1" 0 (Scenario.t0 + 1209600)
              "alice" 7 (Some 9) Scenario.rewardDb) as [[r | e] db'] eqn:E;
    [| vm_compute in E; discriminate].
  exists r, db'. split; [reflexivity |].
  apply (claimRewards_writes Scenario.cfg "nft-1" 0 (Scenario.t0 + 1209600)
           "alice" 7 (Some 9) Scenario.rewardDb db' (Ok r) E).
Defined.

(** X12.  A receipt seed is single use per wallet: when a receipt derived
    from the wallet and the given non-zero [nftSeed] already exists, no
    [claimRewards] with that seed succeeds; it throws and writes nothing,
    so the position's reward clocks do not move. *)
Theorem claimRewards_receipt_seed_is_single_use (cfg : Config) (uuid : string)
    (dateNow now : Z) (wallet : string) (seed nftSeed : Z) (db : Db)
    (n : RewardNft) :
  nftSeed <> 0 ->
  In n (rewardNfts db) ->
  Some (nft_pda n) = findRewardNftPda wallet nftSeed ->
  exists e,
    claimRewards cfg uuid dateNow now wallet seed (Some nftSeed) db
    = (Throw e, db).
Proof.
  intros Hseed Hin Hpda.
  destruct (claimRewards_cases cfg uuid dateNow now wallet seed (Some nftSeed)
              db) as [[e E] | [p [s [k [_ [_ [_ [Ek [_ [Hex _]]]]]]]]]];
    [exists e; exact E |].
  exfalso.
  assert (Hk : nft_pda n = k).
  { revert Ek. unfold nftSeedOrNow.
    destruct (Z.eqb_spec nftSeed 0); [contradiction |].
    rewrite <- Hpda. now intros [= ->]. }
  assert (Ht : existsb
                 (fun m => pda_eqb (nft_pda m) k || String.eqb (nft_id m) uuid)
                 (rewardNfts db) = true).
  { apply existsb_exists. exists n. split; [exact Hin |].
    rewrite Hk, pda_eqb_refl. reflexivity. }
  cbn [nft_pda nft_id] in Hex. congruence.
Qed.

End RewardsMore.

Section RewardsSeedWitness.

Import RewardsService.

Lemma claimRewards_receipt_seed_is_single_use_witness :
  exists e,
    claimRewards Scenario.cfg "nft-2" 0 (Scenario2.claimTime + 604800) "alice"
      7 (Some 9) Scenario2.claimedDb = (Throw e, Scenario2.claimedDb).
Proof.
  apply (claimRewards_receipt_seed_is_single_use Scenario.cfg "nft-2" 0
           (Scenario2.claimTime + 604800) "alice" 7 9 Scenario2.claimedDb
           Scenario2.claimedNft ltac:(lia)
           ltac:(vm_compute; left; reflexivity) eq_refl).
Defined.

End RewardsSeedWitness.

(** ** Vesting *)

Section Vesting.

Import RewardsService RewardsVesting.

Lemma hasNftPda_none (rows : list RewardNft) :
  find (hasNftPda None) rows = None.
Proof. induction rows as [| q rows IH]; [reflexivity | exact IH]. Qed.

Lemma find_nft_updateWhere (k : option Pda) (f : RewardNft -> RewardNft)
    (rows : list RewardNft) :
  (forall q, nft_pda (f q) = nft_pda q) ->
  find (hasNftPda k) (prisma.updateWhere (hasNftPda k) f rows)
  = option_map f (find (hasNftPda k) rows).
Proof.
  intros Hf. unfold prisma.updateWhere.
  induction rows as [| q rows IH]; [reflexivity |].
  cbn. destruct (hasNftPda k q) eqn:E.
  - assert (E' : hasNftPda k (f q) = true)
      by (destruct k; cbn in *; [now rewrite Hf | discriminate]).
    rewrite E'. reflexivity.
  - rewrite E. exact IH.
Qed.

Lemma ceil_div_day_bounds (a : Z) :
  a <= 86400 * Js.ceil_div a (24 * 60 * 60) < a + 86400.
Proof.
  unfold Js.ceil_div. change (24 * 60 * 60) with 86400.
  pose proof (Z.div_mod (- a) 86400 ltac:(lia)).
  pose proof (Z.mod_pos_bound (- a) 86400 ltac:(lia)).
  lia.
Qed.

(** X13.  On an active receipt [vestReward] is gated by [vestTs]: before
    it the call fails with the remaining days, rounded up, and writes
    nothing; at or after it the call succeeds, returns the stored reward
    amount, deactivates the receipt and touches no other table; every
    later call fails with [AlreadyVested]. *)
Theorem vestReward_time_gate (now : Z) (wallet : string) (seed : Z) (db : Db)
    (n : RewardNft) :
  find (hasNftPda (findRewardNftPda wallet seed)) (rewardNfts db) = Some n ->
  nft_isActive n = true ->
  (now < vestTs n ->
   exists days,
     vestReward now wallet seed db = (Fail (VestingNotComplete days), db)
     /\ vestTs n - now <= 86400 * days < vestTs n - now + 86400)
  /\ (vestTs n <= now ->
      exists r db',
        vestReward now wallet seed db = (Done r, db')
        /\ vr_amount r = rewardAmount n
        /\ vr_rewardNftId r = nft_id n
        /\ stakePositions db' = stakePositions db
        /\ programState db' = programState db
        /\ map rewardAmount (rewardNfts db') = map rewardAmount (rewardNfts db)
        /\ forall now',
             vestReward now' wallet seed db' = (Fail AlreadyVested, db')).
Proof.
  intros Hf Ha.
  destruct (findRewardNftPda wallet seed) as [k |] eqn:Ek;
    [| rewrite hasNftPda_none in Hf; discriminate].
  unfold vestReward. rewrite Ek.
  change (fun n => pda_eqb (nft_pda n) k) with (hasNftPda (Some k)).
  rewrite Hf, Ha. cbn [negb]. split.
  - intros Hlt. destruct (Z.ltb_spec now (vestTs n)); [| lia].
    eexists. split; [reflexivity | apply ceil_div_day_bounds].
  - intros Hle. destruct (Z.ltb_spec now (vestTs n)); [lia |].
    eexists. eexists. split; [reflexivity |].
    cbn [vr_amount vr_rewardNftId stakePositions programState rewardNfts
           set_rewardNfts].
    do 4 (split; [reflexivity |]).
    split.
    + unfold prisma.updateWhere. rewrite map_map. apply map_ext.
      intros q. now destruct (hasNftPda _ q).
    + intros now'. rewrite find_nft_updateWhere, Hf by reflexivity.
      reflexivity.
Qed.

Lemma vestReward_time_gate_witness :
  (exists days,
     vestReward (Scenario2.claimTime + 5) "alice" 9 Scenario2.claimedDb
     = (Fail (VestingNotComplete days), Scenario2.claimedDb))
  /\ exists r db',
       vestReward (Scenario2.claimTime + 31536000) "alice" 9
         Scenario2.claimedDb = (Done r, db')
       /\ vr_amount r = 2884615.
Proof.
  destruct (vestReward_time_gate (Scenario2.claimTime + 5) "alice" 9
              Scenario2.claimedDb Scenario2.claimedNft
              ltac:(vm_compute; reflexivity) eq_refl)
    as [H1 _].
  destruct (vestReward_time_gate (Scenario2.claimTime + 31536000) "alice" 9
              Scenario2.claimedDb Scenario2.claimedNft
              ltac:(vm_compute; reflexivity) eq_refl)
    as [_ H2].
  split.
  - destruct (H1 ltac:(vm_compute; reflexivity)) as [d [E _]].
    exists d. exact E.
  - destruct (H2 ltac:(vm_compute; discriminate)) as [r [db' [E [A _]]]].
    exists r, db'. split; [exact E | exact A].
Defined.

(** X14.  Claim, then vest: after a successful [claimRewards] at [now], a
    [vestReward] with the returned receipt seed fails as long as the clock
    is before [now + vestingPeriod], and from then on succeeds and returns
    exactly the amount the claim returned. *)
Theorem claim_then_vest (cfg : Config) (uuid : string) (dateNow now : Z)
    (wallet : string) (seed : Z) (nftSeed : option Z) (db db' : Db)
    (r : ClaimResult) :
  claimRewards cfg uuid dateNow now wallet seed nftSeed db = (Ok r, db') ->
  cr_vestTimestamp r = now + vestingPeriod cfg
  /\ (forall now',
        now' < now + vestingPeriod cfg ->
        exists days,
          vestReward now' wallet (cr_nftSeed r) db'
          = (Fail (VestingNotComplete days), db'))
  /\ (forall now',
        now + vestingPeriod cfg <= now' ->
        exists v db'',
          vestReward now' wallet (cr_nftSeed r) db' = (Done v, db'')
          /\ vr_amount v = cr_rewardAmount r).
Proof.
  intros Hok.
  destruct (claimRewards_cases cfg uuid dateNow now wallet seed nftSeed db)
    as [[e E] | [p [s [k [Hf [Hs [Ha [Ek [Hr [Hex E]]]]]]]]]];
    rewrite E in Hok; [discriminate |].
  inversion Hok; subst r db'; clear Hok E.
  cbn [cr_vestTimestamp cr_nftSeed cr_rewardAmount].
  split; [reflexivity |].
  set (nft := mkRewardNft uuid wallet k
                (calculateProRataReward (Js.Number (stakingPower p))
                   (Js.Number (totalStakingPower s))
                   (Js.Number (totalRewardPool s))
                   ((now - lastRewardTs p) / weekInSeconds))
                (now + vestingPeriod cfg) true (nftSeedOrNow nftSeed dateNow)
                (id p)) in *.
  assert (Hfind : find (hasNftPda (Some k)) (rewardNfts db ++ [nft])
                  = Some nft).
  { assert (Hnone : find (hasNftPda (Some k)) (rewardNfts db) = None).
    { destruct (find _ (rewardNfts db)) as [q |] eqn:Hq; [| reflexivity].
      apply find_some in Hq as [Hin Hk].
      assert (Ht : existsb
                     (fun m => pda_eqb (nft_pda m) (nft_pda nft)
                               || String.eqb (nft_id m) (nft_id nft))
                     (rewardNfts db) = true).
      { apply existsb_exists. exists q. split; [exact Hin |].
        unfold hasNftPda in Hk. cbn [nft nft_pda]. now rewrite Hk. }
      congruence. }
    clear Hex. induction (rewardNfts db) as [| q rows IH]; cbn [app find].
    - unfold hasNftPda. cbn [nft nft_pda]. now rewrite pda_eqb_refl.
    - cbn [find] in Hnone.
      destruct (hasNftPda (Some k) q); [discriminate |].
      now apply IH. }
  split.
  - intros now' Hlt. unfold vestReward. rewrite Ek.
    change (fun n => pda_eqb (nft_pda n) k) with (hasNftPda (Some k)).
    cbn [rewardNfts set_stakePositions set_rewardNfts]. rewrite Hfind.
    cbn [nft nft_isActive vestTs negb].
    destruct (Z.ltb_spec now' (now + vestingPeriod cfg)); [| lia].
    eexists. reflexivity.
  - intros now' Hge. unfold vestReward. rewrite Ek.
    change (fun n => pda_eqb (nft_pda n) k) with (hasNftPda (Some k)).
    cbn [rewardNfts set_stakePositions set_rewardNfts]. rewrite Hfind.
    cbn [nft nft_isActive vestTs negb].
    destruct (Z.ltb_spec now' (now + vestingPeriod cfg)); [lia |].
    eexists. eexists. split; reflexivity.
Qed.

Lemma claim_then_vest_witness :
  exists v db'',
    vestReward (Scenario2.claimTime + 31536000) "alice" 9 Scenario2.claimedDb
    = (Done v, db'')
    /\ vr_amount v = 2884615.
Proof.
  destruct (claim_then_vest Scenario.cfg "nft-1" 0 Scenario2.claimTime "alice"
              7 (Some 9) Scenario.rewardDb Scenario2.claimedDb
              (mkClaimResult "nft-1" (RewardNftPda "alice" 9) 9 2884615
                 (Scenario2.claimTime + 31536000) 2)
              ltac:(vm_compute; reflexivity))
    as [_ [_ H]].
  destruct (H (Scenario2.claimTime + 31536000) ltac:(vm_compute; discriminate))
    as [v [db'' [E A]]].
  exists v, db''. split; [exact E | exact A].
Defined.

End Vesting.

(** ** The reward preview *)

Section Preview.

Import RewardsService InsightsService.

(** X15.  The preview agrees with the claim.  For an active position of
    the owner with non-negative staking power, pool and total power: the
    preview lists the position; when the preview says the position cannot
    claim yet, [claimRewards] throws [TooSoonToClaim]; and when
    [claimRewards] succeeds, the preview taken at the same time shows
    [canClaim = true] and the same number of weeks.  If moreover the
    accrual clock of the position is not ahead of the clock
    ([lastRewardTs <= now]), the claimed amount is the previewed estimate
    passed through the APY cap, and never more than the estimate where the
    products of the cap ([estimate*52*10000] and [power*7500*weeks]) are
    below 2^53. *)
Theorem preview_agrees_with_claim (cfg : Config) (uuid : string)
    (dateNow now : Z) (wallet : string) (seed : Z) (nftSeed : option Z)
    (db : Db) (p : StakePosition) (s : ProgramState) :
  find (hasPda (findStakePositionPda wallet seed)) (stakePositions db) = Some p ->
  programState db = Some s ->
  owner p = wallet ->
  isActive p = true ->
  0 <= stakingPower p -> 0 <= totalRewardPool s -> 0 <= totalStakingPower s ->
  let pv := previewOf now (totalPowerOf s) (weeklyEmissionOf s) p in
  In pv (rp_positions (getRewardPreview now wallet db))
  /\ (pv_canClaim pv = false ->
      0 < pv_nextClaimIn pv
      /\ exists hours,
           claimRewards cfg uuid dateNow now wallet seed nftSeed db
           = (Throw (TooSoonToClaim hours), db))
  /\ (forall r db',
        claimRewards cfg uuid dateNow now wallet seed nftSeed db = (Ok r, db') ->
        pv_canClaim pv = true
        /\ pv_weeksElapsed pv = cr_weeksElapsed r
        /\ (lastRewardTs p <= now ->
            cr_rewardAmount r =
            applyApyCap (Js.Number (stakingPower p)) (pv_estimatedReward pv)
              (cr_weeksElapsed r)
            /\ (pv_estimatedReward pv * 52 * 10000 < Js.two53 ->
                Js.Number (stakingPower p) * 7500 * cr_weeksElapsed r
                < Js.two53 ->
                cr_rewardAmount r <= pv_estimatedReward pv))).
Proof.
  intros Hf Hs Ho Ha Hpow Hpool Htot pv.
  destruct (find_hasPda _ _ _ Hf) as [Hin _].
  pose proof (claimRewards_gates cfg uuid dateNow now wallet seed nftSeed db p s
                Hf Hs) as Hrun.
  cbv zeta in Hrun. rewrite Ha in Hrun. cbn [negb] in Hrun.
  split.
  { unfold getRewardPreview.
    assert (Hsel : In p (filter
                           (fun q => String.eqb (owner q) wallet
                                     && Bool.eqb (isActive q) true)
                           (stakePositions db))).
    { apply filter_In. split; [exact Hin |].
      rewrite Ho, String.eqb_refl, Ha. reflexivity. }
    destruct (filter _ (stakePositions db)) as [| a l] eqn:Ef; [contradiction |].
    replace (Z.of_nat (List.length (a :: l)) =? 0) with false
      by (cbn [List.length]; symmetry; apply Z.eqb_neq; lia).
    rewrite Hs. cbn [rp_positions]. now apply in_map. }
  split.
  { intros Hcan. unfold pv, previewOf in Hcan |- *.
    cbn [pv_canClaim pv_nextClaimIn] in Hcan |- *.
    change (7 * 24 * 60 * 60) with weekInSeconds in Hcan |- *.
    rewrite Hcan. apply Z.leb_gt in Hcan. split; [lia |].
    rewrite Hrun.
    destruct (Z.ltb_spec now (lastClaimOf p + weekInSeconds)); [| lia].
    eexists. reflexivity. }
  intros r db' Hok. rewrite Hok in Hrun.
  destruct (Z.ltb_spec now (lastClaimOf p + weekInSeconds)) as [| Hlate];
    [discriminate |].
  set (weeks := (now - lastRewardTs p) / weekInSeconds) in *.
  destruct (Z.eqb_spec weeks 0) as [| Hw0]; [discriminate |].
  set (reward := calculateProRataReward (Js.Number (stakingPower p))
                   (Js.Number (totalStakingPower s))
                   (Js.Number (totalRewardPool s)) weeks) in *.
  destruct (Z.eqb_spec reward 0) as [| Hr]; [discriminate |].
  destruct (findRewardNftPda wallet (nftSeedOrNow nftSeed dateNow)) as [kn |];
    [| discriminate].
  destruct (existsb _ (rewardNfts db)); [discriminate |].
  inversion Hrun; subst r db'; clear Hrun Hok.
  cbn [cr_weeksElapsed cr_rewardAmount].
  split.
  { unfold pv, previewOf. cbn [pv_canClaim].
    change (7 * 24 * 60 * 60) with weekInSeconds. now apply Z.leb_le. }
  split; [reflexivity |].
  intros Hacc.
  assert (Hw : 0 <= weeks) by (apply Z.div_pos; [lia | reflexivity]).
  assert (Ht0 : Js.Number (totalStakingPower s) <> 0).
  { intros H0. apply Hr. unfold reward, calculateProRataReward. now rewrite H0. }
  assert (Hp0 : Js.Number (stakingPower p) <> 0).
  { intros H0. apply Hr. unfold reward, calculateProRataReward.
    rewrite H0. now rewrite orb_true_r. }
  assert (Htpos : 0 < Js.Number (totalStakingPower s)).
  { pose proof (round_nonneg (totalStakingPower s) Htot).
    unfold Js.Number in *. lia. }
  assert (Hest : pv_estimatedReward pv
                 = totalReward (Js.Number (stakingPower p))
                     (Js.Number (totalStakingPower s))
                     (Js.Number (totalRewardPool s)) weeks).
  { unfold pv, previewOf, totalPowerOf, weeklyEmissionOf.
    cbn [pv_estimatedReward].
    change (7 * 24 * 60 * 60) with weekInSeconds. fold weeks.
    destruct (Z.ltb_spec 0 (Js.Number (totalStakingPower s))); [| lia].
    rewrite Z.max_l by lia. reflexivity. }
  assert (Hclaim : reward
                   = applyApyCap (Js.Number (stakingPower p))
                       (pv_estimatedReward pv) weeks).
  { rewrite Hest. unfold reward, calculateProRataReward.
    destruct (Z.eqb_spec (Js.Number (totalStakingPower s)) 0);
      [contradiction |].
    destruct (Z.eqb_spec (Js.Number (stakingPower p)) 0); [contradiction |].
    reflexivity. }
  split; [exact Hclaim |].
  intros Hn Hd. rewrite Hclaim.
  assert (Hpow' : 0 <= Js.Number (stakingPower p))
    by (apply round_nonneg; exact Hpow).
  apply applyApyCap_le; [exact Hpow' | | lia | exact Hn | exact Hd].
  rewrite Hest. unfold totalReward, userWeeklyShare, Js.mul.
  apply round_nonneg. apply Z.mul_nonneg_nonneg; [| lia].
  apply floor_quot_nonneg; [| lia].
  apply round_nonneg. apply Z.mul_nonneg_nonneg; [| lia].
  apply weeklyPoolEmission_nonneg. apply round_nonneg. exact Hpool.
Qed.

Lemma preview_agrees_with_claim_witness :
  In (previewOf Scenario2.claimTime 100000000 2100000000
        Scenario.rewardPosition)
    (rp_positions (getRewardPreview Scenario2.claimTime "alice"
                     Scenario.rewardDb)).
Proof.
  apply (preview_agrees_with_claim Scenario.cfg "nft-1" 0 Scenario2.claimTime
           "alice" 7 (Some 9) Scenario.rewardDb Scenario.rewardPosition
           Scenario.rewardState ltac:(vm_compute; reflexivity) eq_refl eq_refl
           eq_refl
           ltac:(vm_compute; discriminate) ltac:(vm_compute; discriminate)
           ltac:(vm_compute; discriminate)).
Defined.

End Preview.

(** ** The sweep on the rows it selects *)

Section SweepMore.

Import CooldownFinalizerProcessor.

Lemma handleCooldownFinalization_positions (now : Z) (db : Db) :
  stakePositions (snd (handleCooldownFinalization now db))
  = map (fun p =>
           if existsb (fun q => String.eqb (id p) (id q))
                (filter (expiredCooldown now) (stakePositions db))
           then swept p else p)
      (stakePositions db).
Proof.
  unfold handleCooldownFinalization, bind, prisma.stakePosition.findMany.
  destruct (filter (expiredCooldown now) (stakePositions db)) as [| a l] eqn:Ef.
  - cbn. now rewrite map_id.
  - replace (Z.of_nat (List.length (a :: l)) =? 0) with false
      by (cbn [List.length]; symmetry; apply Z.eqb_neq; lia).
    destruct (finalizeLoop_positions (a :: l) db 0 []) as [db' [E P]].
    rewrite E. cbn [snd ret]. exact P.
Qed.

(** X16.  A position is swept at most once.  Whatever the first run
    selected, a second run at the same time selects nothing, reports zero
    finalized positions and writes nothing; and no row selected by a run at
    any later time carries the identifier of a row the first run
    selected. *)
Theorem sweep_finalizes_once (now now2 : Z) (db : Db) :
  let db1 := snd (handleCooldownFinalization now db) in
  handleCooldownFinalization now db1 = (Ok (mkSweepResult 0 None []), db1)
  /\ forall q,
       In q (filter (expiredCooldown now2) (stakePositions db1)) ->
       ~ In (id q)
           (map id (filter (expiredCooldown now) (stakePositions db))).
Proof.
  intros db1. split; [apply sweep_twice |].
  intros q Hq Hid. apply filter_In in Hq as [Hin Hexp].
  unfold db1 in Hin. rewrite handleCooldownFinalization_positions in Hin.
  apply in_map_iff in Hin as [p [Hp Hin]].
  destruct (existsb _ (filter (expiredCooldown now) (stakePositions db)))
    eqn:Ex.
  - subst q. discriminate Hexp.
  - subst q. apply in_map_iff in Hid as [s [Hs Hsel]].
    assert (Ht : existsb (fun q => String.eqb (id p) (id q))
                   (filter (expiredCooldown now) (stakePositions db)) = true).
    { apply existsb_exists. exists s. split; [exact Hsel |].
      rewrite Hs. apply String.eqb_refl. }
    congruence.
Qed.

Lemma finalizeLoop_state (qs : list StakePosition) :
  forall (db : Db) (count : Z) (results : list FinalizedEntry),
  exists db',
    snd (finalizeLoop qs count results db) = db'
    /\ programState db'
       = option_map
           (fun s => set_totals (sweptTotal amount qs (totalStaked s))
                       (sweptTotal stakingPower qs (totalStakingPower s)) s)
           (programState db)
    /\ stakingTiers db' = stakingTiers db
    /\ penaltyTransactions db' = penaltyTransactions db
    /\ rewardNfts db' = rewardNfts db.
Proof.
  induction qs as [| q rest IH]; intros db count results.
  - exists db. cbn. split; [reflexivity |]. split; [| auto].
    destruct (programState db) as [s |]; [| reflexivity].
    destruct s; reflexivity.
  - cbn [finalizeLoop]. unfold bind.
    unfold finalizePosition at 1.
    unfold bind, prisma.stakePosition.updateById, prisma.programState.findFirst.
    cbn [programState set_stakePositions].
    destruct (programState db) as [s |] eqn:Hs.
    + unfold prisma.programState.update.
      cbn [programState set_stakePositions set_programState].
      rewrite Hs. cbn [option_map].
      match goal with
      | |- context [finalizeLoop rest ?c ?r ?d] =>
        destruct (IH d c r) as [db' [E [P [T [Pe N]]]]]
      end.
      exists db'. split; [exact E |]. rewrite P.
      cbn [programState set_programState option_map totalStaked
             totalStakingPower set_totals sweptTotal fold_left].
      split; [reflexivity |]. rewrite T, Pe, N. repeat split.
    + cbn [ret].
      match goal with
      | |- context [finalizeLoop rest ?c ?r ?d] =>
        destruct (IH d c r) as [db' [E [P [T [Pe N]]]]]
      end.
      exists db'. split; [exact E |]. rewrite P, T, Pe, N.
      cbn [programState set_stakePositions]. rewrite Hs. repeat split.
Qed.

Lemma swept_by_id (now : Z) (rows : list StakePosition) :
  NoDup (map id rows) ->
  map (fun p =>
         if existsb (fun q => String.eqb (id p) (id q))
              (filter (expiredCooldown now) rows)
         then swept p else p) rows
  = map (fun p => if expiredCooldown now p then swept p else p) rows.
Proof.
  intros Hnd. apply map_ext_in. intros p Hp.
  match goal with |- (if ?b then _ else _) = (if ?c then _ else _) =>
    assert (Hbc : b = c); [| now rewrite Hbc] end.
  apply eq_true_iff_eq. rewrite existsb_exists. split.
  - intros [q [Hq Hid]]. apply filter_In in Hq as [Hq Hexp].
    apply String.eqb_eq in Hid.
    assert (p = q) by (eapply NoDup_map_inj; eauto). now subst q.
  - intros Hexp. exists p. split; [| apply String.eqb_refl].
    apply filter_In. auto.
Qed.

Lemma sweptTotal_nonneg (f : StakePosition -> Z) (qs : list StakePosition) :
  forall start, qs <> [] \/ 0 <= start -> 0 <= sweptTotal f qs start.
Proof.
  unfold sweptTotal. induction qs as [| q rest IH]; intros start H; cbn.
  - destruct H as [H | H]; [contradiction | exact H].
  - apply IH. right. unfold Js.max0. lia.
Qed.

(** X17.  When the sweep selects rows (active, cooldown over, principal
    pending) it reports as many finalized positions as it selected, with
    their pending principals; every selected row, and no other, becomes
    inactive with pending principal 0 and no cooldown; the two totals are
    lowered by each selected row's amount and staking power in turn, each
    step clamped at zero, so they end non-negative; the reward pool, the
    epoch and the pause flag are not written. *)
Theorem sweep_on_selected_rows (now : Z) (db : Db) (s : ProgramState) :
  programState db = Some s ->
  NoDup (map id (stakePositions db)) ->
  let selected := filter (expiredCooldown now) (stakePositions db) in
  selected <> [] ->
  exists r db' s',
    handleCooldownFinalization now db = (Ok r, db')
    /\ finalized r = Z.of_nat (List.length selected)
    /\ total r = Some (Z.of_nat (List.length selected))
    /\ map fe_positionId (results r) = map id selected
    /\ map (fun e => Some (fe_amount e)) (results r)
       = map (fun q => match pendingPrincipal q with
                       | Some v => Some v
                       | None => Some 0
                       end) selected
    /\ stakePositions db'
       = map (fun p => if expiredCooldown now p then swept p else p)
           (stakePositions db)
    /\ programState db' = Some s'
    /\ totalStaked s' = sweptTotal amount selected (totalStaked s)
    /\ totalStakingPower s'
       = sweptTotal stakingPower selected (totalStakingPower s)
    /\ 0 <= totalStaked s' /\ 0 <= totalStakingPower s'
    /\ totalRewardPool s' = totalRewardPool s
    /\ currentEpoch s' = currentEpoch s
    /\ isPaused s' = isPaused s.
Proof.
  intros Hs Hnd selected Hne.
  pose proof (handleCooldownFinalization_positions now db) as Hpos.
  rewrite swept_by_id in Hpos by exact Hnd.
  unfold handleCooldownFinalization, bind, prisma.stakePosition.findMany
    in Hpos |- *.
  fold selected in Hpos |- *.
  destruct selected as [| a l] eqn:Esel; [contradiction |].
  replace (Z.of_nat (List.length (a :: l)) =? 0) with false in Hpos |- *
    by (cbn [List.length]; symmetry; apply Z.eqb_neq; lia).
  destruct (finalizeLoop_positions (a :: l) db 0 []) as [db' [E _]].
  destruct (finalizeLoop_state (a :: l) db 0 []) as [db'' [E' [P _]]].
  rewrite E in Hpos, E' |- *. cbn [snd ret fst] in Hpos, E' |- *. subst db''.
  rewrite Hs in P. cbn [option_map] in P.
  eexists. exists db'. eexists.
  split; [reflexivity |].
  cbn [finalized total results app].
  split; [lia |]. split; [reflexivity |].
  split; [rewrite map_map; reflexivity |].
  split.
  { rewrite map_map. apply map_ext. intros q. unfold entryOf. cbn.
    now destruct (pendingPrincipal q). }
  split; [exact Hpos |].
  split; [exact P |].
  cbn [totalStaked totalStakingPower totalRewardPool currentEpoch isPaused
         set_totals].
  split; [reflexivity |]. split; [reflexivity |].
  split; [apply sweptTotal_nonneg; left; discriminate |].
  split; [apply sweptTotal_nonneg; left; discriminate |].
  repeat split.
Qed.

Lemma sweep_on_selected_rows_witness :
  exists r db' s',
    handleCooldownFinalization (Scenario.t0 + 20) Scenario2.sweepDb = (Ok r, db')
    /\ finalized r = 1
    /\ programState db' = Some s'
    /\ totalStaked s' = 300 /\ totalStakingPower s' = 0.
Proof.
  destruct (sweep_on_selected_rows (Scenario.t0 + 20) Scenario2.sweepDb
              Scenario2.sweepState eq_refl
              ltac:(repeat constructor; cbn; intuition)
              ltac:(vm_compute; discriminate))
    as [r [db' [s' [E [F [_ [_ [_ [_ [P [T1 [T2 _]]]]]]]]]]]].
  exists r, db', s'. split; [exact E |]. split; [exact F |].
  split; [exact P |]. split; [exact T1 | exact T2].
Defined.

End SweepMore.

(** ** The weekly job, run after run *)

Section WeeklyMore.

Import RewardDistributionProcessor.

Lemma distributeLoop_total (now e t : Z) (qs : list StakePosition) :
  forall (db : Db) (count : Z) (td : Js.num),
  exists n db',
    distributeLoop now e t qs count td db
    = (Ok (n, distributedTotal e t qs td), db').
Proof.
  induction qs as [| q rest IH]; intros db count td.
  - cbn. eexists. eexists. reflexivity.
  - cbn [distributeLoop distributedTotal fold_left].
    destruct (Js.gt (userShare e t q) 0).
    + unfold bind, prisma.stakePosition.updateById.
      match goal with
      | |- context [distributeLoop now e t rest ?c ?a ?d] =>
        destruct (IH d c a) as [n [db' E]]
      end.
      rewrite E. eexists. eexists. reflexivity.
    + destruct (IH db count td) as [n [db' E]].
      rewrite E. eexists. eexists. reflexivity.
Qed.

(** The stored emission is the integer formula where [pool * 21] is below
    2^53, and positive as soon as the integer formula is. *)
Lemma weeklyEmissionOf_exact (s : ProgramState) :
  0 <= totalRewardPool s -> totalRewardPool s * 21 < Js.two53 ->
  weeklyEmissionOf s = totalRewardPool s * 21 / 10000.
Proof.
  intros H0 Hr. unfold weeklyEmissionOf.
  rewrite Number_exact by (unfold Js.two53 in *; lia).
  now apply weeklyPoolEmission_exact.
Qed.

Lemma weeklyEmissionOf_pos (s : ProgramState) :
  0 < totalRewardPool s * 21 / 10000 -> 0 < weeklyEmissionOf s.
Proof.
  intros H.
  assert (Hpool : 477 <= totalRewardPool s).
  { destruct (Z.le_gt_cases 477 (totalRewardPool s)) as [| Hlt]; [assumption |].
    exfalso.
    assert (totalRewardPool s * 21 / 10000 <= 0); [| lia].
    destruct (Z.le_gt_cases 0 (totalRewardPool s)).
    - rewrite Z.div_small by lia. lia.
    - assert (totalRewardPool s * 21 / 10000 < 0); [| lia].
      apply Z.div_lt_upper_bound; lia. }
  unfold weeklyEmissionOf, RewardsService.weeklyPoolEmission,
    RewardsService.weeklyEmissionRate, RewardsService.emissionPrecision,
    Js.Number, Js.mul.
  apply floor_quot_pos; [lia |].
  apply round_ge_small; [unfold Js.two53; lia |].
  pose proof (round_ge_small 477 (totalRewardPool s)
                ltac:(unfold Js.two53; lia) Hpool).
  lia.
Qed.

(** The run of an unpaused job over at least one active position, with
    every write spelled out. *)
Lemma handleWeeklyDistribution_run (now : Z) (db : Db) (s : ProgramState) :
  programState db = Some s ->
  isPaused s = false ->
  filter (fun p => Bool.eqb (isActive p) true) (stakePositions db) <> [] ->
  let active := filter (fun p => Bool.eqb (isActive p) true) (stakePositions db) in
  let emission := weeklyEmissionOf s in
  exists n,
    handleWeeklyDistribution now db
    = (Ok (Distributed (currentEpoch s + 1) n
             (distributedTotal emission (totalPowerOf s) active (Js.Fin 0))
             emission),
       mkDb (stakingTiers db)
         (map (fun p =>
                 if existsb (fun q => String.eqb (id p) (id q)
                                      && Js.gt (userShare emission
                                                  (totalPowerOf s) q) 0)
                      active
                 then set_lastRewardTs now p else p)
            (stakePositions db))
         (penaltyTransactions db) (rewardNfts db)
         (Some (set_epoch (currentEpoch s + 1) now emission s))).
Proof.
  intros Hs Hp Hne active emission.
  unfold handleWeeklyDistribution, bind, prisma.programState.findFirst,
    prisma.stakePosition.findMany.
  rewrite Hs, Hp. fold active.
  change (Js.floor_quot (Js.mul (Js.Number (totalRewardPool s)) 21) 10000)
    with emission.
  change (Js.Number (totalStakingPower s)) with (totalPowerOf s).
  replace (Z.of_nat (List.length active) =? 0) with false.
  2:{ symmetry. apply Z.eqb_neq. unfold active.
      destruct (filter _ (stakePositions db)); [contradiction |].
      cbn [List.length]. lia. }
  destruct (distributeLoop_spec now emission (totalPowerOf s) active db
              0 (Js.Fin 0)) as [td E].
  destruct (distributeLoop_total now emission (totalPowerOf s) active db
              0 (Js.Fin 0)) as [n [db' E']].
  rewrite E in E'. inversion E'; subst.
  rewrite E. unfold prisma.programState.update, ret.
  cbn [fst snd programState set_stakePositions set_programState].
  rewrite Hs. eexists. reflexivity.
Qed.

(** X18.  What the weekly job never writes.  Whatever the database and the
    time, after [handleWeeklyDistribution] the totals, the reward pool and
    the pause flag are as before, as are the tier, penalty and receipt
    tables; no position is added or removed, and of a position only
    [lastRewardTs] can have changed, to [now]; the epoch is the old one or
    the old one plus 1. *)
Theorem weekly_job_frame (now : Z) (db : Db) :
  let db' := snd (handleWeeklyDistribution now db) in
  option_map (fun s => (totalStaked s, totalStakingPower s, totalRewardPool s,
                        isPaused s)) (programState db')
  = option_map (fun s => (totalStaked s, totalStakingPower s, totalRewardPool s,
                          isPaused s)) (programState db)
  /\ stakingTiers db' = stakingTiers db
  /\ penaltyTransactions db' = penaltyTransactions db
  /\ rewardNfts db' = rewardNfts db
  /\ map (fun p => (identityOf p, amount p, isActive p, cooldownEnd p,
                    pendingPrincipal p, lastClaimTs p)) (stakePositions db')
     = map (fun p => (identityOf p, amount p, isActive p, cooldownEnd p,
                      pendingPrincipal p, lastClaimTs p)) (stakePositions db)
  /\ Forall2 (fun p p' => lastRewardTs p' = lastRewardTs p
                          \/ lastRewardTs p' = now)
       (stakePositions db) (stakePositions db')
  /\ (option_map currentEpoch (programState db')
      = option_map currentEpoch (programState db)
      \/ option_map currentEpoch (programState db')
         = option_map (fun s => currentEpoch s + 1) (programState db)).
Proof.
  intros db'.
  assert (Hsame : forall l : list StakePosition,
             Forall2 (fun p p' => lastRewardTs p' = lastRewardTs p
                                  \/ lastRewardTs p' = now) l l).
  { induction l; constructor; auto. }
  destruct (programState db) as [s |] eqn:Hs.
  2:{ unfold db', handleWeeklyDistribution, bind, prisma.programState.findFirst.
      rewrite Hs. cbn. rewrite Hs. repeat split; auto. }
  destruct (isPaused s) eqn:Hp.
  { unfold db', handleWeeklyDistribution, bind, prisma.programState.findFirst.
    rewrite Hs, Hp. cbn. rewrite Hs. repeat split; auto. }
  destruct (filter (fun p => Bool.eqb (isActive p) true) (stakePositions db))
    as [| a l] eqn:Ef.
  { unfold db', handleWeeklyDistribution, bind, prisma.programState.findFirst,
      prisma.stakePosition.findMany.
    rewrite Hs, Hp, Ef. cbn. rewrite Hs. repeat split; auto. }
  assert (Hne : filter (fun p => Bool.eqb (isActive p) true) (stakePositions db)
                <> []) by (rewrite Ef; discriminate).
  destruct (handleWeeklyDistribution_run now db s Hs Hp Hne) as [n E].
  unfold db'. rewrite E.
  cbn [snd programState stakingTiers penaltyTransactions rewardNfts
         stakePositions option_map].
  split; [reflexivity |]. do 3 (split; [reflexivity |]).
  split.
  { rewrite map_map. apply map_ext. intros p. now destruct (existsb _ _). }
  split; [| right; reflexivity].
  clear.
  generalize (filter (fun p => Bool.eqb (isActive p) true) (stakePositions db)).
  intros qs.
  induction (stakePositions db) as [| p rows IH]; cbn [map]; constructor.
  - destruct (existsb _ qs); cbn; auto.
  - exact IH.
Qed.

(** X19.  The job is not gated on the time since the last run: on an
    unpaused program with at least one active position, two runs, however
    close, advance the epoch by 2, and the second leaves [now2] as the
    epoch start while the stored weekly emission is the same: the emission
    the job computes in doubles from the pool, which is
    [floor(pool * 21 / 10000)] where [pool * 21] is below 2^53. *)
Theorem weekly_job_runs_every_time (now1 now2 : Z) (db : Db) (s : ProgramState) :
  programState db = Some s ->
  isPaused s = false ->
  filter (fun p => Bool.eqb (isActive p) true) (stakePositions db) <> [] ->
  let db1 := snd (handleWeeklyDistribution now1 db) in
  let db2 := snd (handleWeeklyDistribution now2 db1) in
  exists s1 s2 n td,
    programState db1 = Some s1
    /\ currentWeeklyEmission s1 = Some (weeklyEmissionOf s)
    /\ fst (handleWeeklyDistribution now2 db1)
       = Ok (Distributed (currentEpoch s + 2) n td (weeklyEmissionOf s))
    /\ programState db2 = Some s2
    /\ currentEpoch s2 = currentEpoch s + 2
    /\ currentEpochStartTs s2 = now2
    /\ currentWeeklyEmission s2 = Some (weeklyEmissionOf s)
    /\ (0 <= totalRewardPool s -> totalRewardPool s * 21 < Js.two53 ->
        weeklyEmissionOf s = totalRewardPool s * 21 / 10000).
Proof.
  intros Hs Hp Hne db1 db2.
  assert (Hact : exists a, In a (stakePositions db)
                           /\ Bool.eqb (isActive a) true = true).
  { destruct (filter (fun p => Bool.eqb (isActive p) true) (stakePositions db))
      as [| a l] eqn:Ef; [contradiction |].
    exists a. apply (filter_In (fun p => Bool.eqb (isActive p) true)).
    rewrite Ef. now left. }
  destruct Hact as [a [Hin Ha]].
  destruct (handleWeeklyDistribution_run now1 db s Hs Hp Hne) as [n1 E1].
  assert (Hdb1 : db1 = snd (handleWeeklyDistribution now1 db)) by reflexivity.
  rewrite E1 in Hdb1. cbn [snd] in Hdb1.
  assert (Hs1 : programState db1
                = Some (set_epoch (currentEpoch s + 1) now1
                          (weeklyEmissionOf s) s))
    by (rewrite Hdb1; reflexivity).
  assert (Hne1 : filter (fun p => Bool.eqb (isActive p) true)
                   (stakePositions db1) <> []).
  { rewrite Hdb1. cbn [stakePositions].
    intros Hnil.
    match type of Hnil with
    | filter ?f (map ?g ?rows) = [] =>
      assert (Hx : In (g a) (filter f (map g rows)))
    end.
    { apply filter_In. split.
      - apply in_map_iff. exists a. split; [reflexivity | exact Hin].
      - destruct (existsb _ _); cbn; exact Ha. }
    rewrite Hnil in Hx. contradiction. }
  destruct (handleWeeklyDistribution_run now2 db1 _ Hs1 Hp Hne1) as [n2 E2].
  unfold db2. rewrite E2.
  change (weeklyEmissionOf
            (set_epoch (currentEpoch s + 1) now1 (weeklyEmissionOf s) s))
    with (weeklyEmissionOf s).
  cbn [fst snd programState set_epoch currentEpoch currentEpochStartTs
         currentWeeklyEmission].
  eexists. eexists. exists n2. eexists.
  split; [exact Hs1 |].
  split; [reflexivity |].
  split; [f_equal; f_equal; lia |].
  split; [reflexivity |].
  cbn [set_epoch currentEpoch currentEpochStartTs currentWeeklyEmission].
  split; [lia |]. split; [reflexivity |]. split; [reflexivity |].
  apply weeklyEmissionOf_exact.
Qed.

Lemma weekly_job_runs_every_time_witness :
  exists s2,
    programState
      (snd (handleWeeklyDistribution (Scenario.t0 + 61)
              (snd (handleWeeklyDistribution (Scenario.t0 + 60)
                      Scenario.rewardDb)))) = Some s2
    /\ currentEpoch s2 = 3.
Proof.
  destruct (weekly_job_runs_every_time (Scenario.t0 + 60) (Scenario.t0 + 61)
              Scenario.rewardDb Scenario.rewardState eq_refl eq_refl
              ltac:(vm_compute; discriminate))
    as [s1 [s2 [n [td [_ [_ [_ [P [E _]]]]]]]]].
  exists s2. split; [exact P | exact E].
Defined.

Lemma zero_power_share (e : Z) (q : StakePosition) :
  0 < e ->
  userShare e 0 q = (if stakingPower q =? 0 then Js.NaN
                     else if 0 <? stakingPower q then Js.PosInf
                          else Js.NegInf).
Proof.
  intros He. unfold userShare, Js.floor_div, Js.mul, Js.Number. cbn [Z.eqb].
  destruct (Z.eqb_spec (stakingPower q) 0) as [H0 | H0].
  - rewrite H0. change (Js.round 0) with 0. rewrite Z.mul_0_r. reflexivity.
  - destruct (Z.ltb_spec 0 (stakingPower q)) as [Hpos | Hneg].
    + pose proof (round_pos (stakingPower q) Hpos) as H1.
      pose proof (round_pos (e * Js.round (stakingPower q)) ltac:(nia)) as H2.
      destruct (Z.eqb_spec (Js.round (e * Js.round (stakingPower q))) 0);
        [lia |].
      destruct (Z.ltb_spec 0 (Js.round (e * Js.round (stakingPower q))));
        [reflexivity | lia].
    + pose proof (round_neg (stakingPower q) ltac:(lia)) as H1.
      pose proof (round_neg (e * Js.round (stakingPower q)) ltac:(nia)) as H2.
      destruct (Z.eqb_spec (Js.round (e * Js.round (stakingPower q))) 0);
        [lia |].
      destruct (Z.ltb_spec 0 (Js.round (e * Js.round (stakingPower q))));
        [lia | reflexivity].
Qed.

Lemma distributedTotal_infinite (e : Z) (qs : list StakePosition) :
  0 < e ->
  forall acc,
    (acc = Js.PosInf
     \/ ((exists z, acc = Js.Fin z)
         /\ exists p, In p qs /\ 0 < stakingPower p)) ->
    distributedTotal e 0 qs acc = Js.PosInf.
Proof.
  intros He. unfold distributedTotal.
  induction qs as [| q rest IH]; intros acc Hacc.
  - destruct Hacc as [-> | [_ [p [[] _]]]]. reflexivity.
  - cbn [fold_left]. rewrite (zero_power_share e q He).
    destruct (Z.eqb_spec (stakingPower q) 0) as [H0 | H0]; cbn [Js.gt].
    + apply IH. destruct Hacc as [-> | [Hz [p [[-> | Hin] Hp]]]];
        [now left | lia | right; split; [exact Hz | now exists p]].
    + destruct (Z.ltb_spec 0 (stakingPower q)); cbn [Js.gt].
      * apply IH. left.
        destruct Hacc as [-> | [[z ->] _]]; reflexivity.
      * apply IH. destruct Hacc as [-> | [Hz [p [[-> | Hin] Hp]]]];
          [now left | lia | right; split; [exact Hz | now exists p]].
Qed.

(** X20.  With a total staking power of 0 the shares are not finite: when
    the emission is positive, the job moves [lastRewardTs] of exactly the
    active positions with positive staking power and, if there is one,
    reports an infinite distributed total, next to the emission it computed
    in doubles from the pool ([floor(pool * 21 / 10000)] where [pool * 21]
    is below 2^53). *)
Theorem weekly_job_with_zero_total_power (now : Z) (db : Db) (s : ProgramState)
    (p : StakePosition) :
  programState db = Some s ->
  isPaused s = false ->
  totalStakingPower s = 0 ->
  0 < totalRewardPool s * 21 / 10000 ->
  NoDup (map id (stakePositions db)) ->
  In p (stakePositions db) -> isActive p = true -> 0 < stakingPower p ->
  exists epoch n db',
    handleWeeklyDistribution now db
    = (Ok (Distributed epoch n Js.PosInf (weeklyEmissionOf s)), db')
    /\ stakePositions db'
       = map (fun q => if isActive q && (0 <? stakingPower q)
                       then set_lastRewardTs now q else q)
           (stakePositions db)
    /\ (totalRewardPool s * 21 < Js.two53 ->
        weeklyEmissionOf s = totalRewardPool s * 21 / 10000).
Proof.
  intros Hs Hp Ht He Hnd Hin Ha Hpow.
  assert (Hsel : In p (filter (fun q => Bool.eqb (isActive q) true)
                         (stakePositions db)))
    by (apply filter_In; rewrite Ha; auto).
  assert (Hne : filter (fun q => Bool.eqb (isActive q) true) (stakePositions db)
                <> [])
    by (intros Hnil; rewrite Hnil in Hsel; contradiction).
  pose proof (weeklyEmissionOf_pos s He) as He'.
  assert (Ht' : totalPowerOf s = 0) by (unfold totalPowerOf; now rewrite Ht).
  destruct (handleWeeklyDistribution_run now db s Hs Hp Hne) as [n E].
  rewrite E, Ht'. eexists. exists n. eexists.
  assert (Hshare : forall q,
             Js.gt (userShare (weeklyEmissionOf s) 0 q) 0
             = (0 <? stakingPower q)).
  { intros q. rewrite (zero_power_share _ q He').
    destruct (Z.eqb_spec (stakingPower q) 0) as [H0 | H0].
    - rewrite H0. reflexivity.
    - destruct (Z.ltb_spec 0 (stakingPower q)); reflexivity. }
  split; [| split].
  - f_equal. f_equal. f_equal.
    apply distributedTotal_infinite; [exact He' |].
    right. split; [now exists 0 |]. now exists p.
  - cbn [stakePositions].
    rewrite touched_by_id by exact Hnd.
    apply map_ext. intros q. unfold touched. now rewrite Hshare.
  - intros Hr. apply weeklyEmissionOf_exact; [| exact Hr].
    destruct (Z.le_gt_cases 0 (totalRewardPool s)); [assumption |].
    assert (totalRewardPool s * 21 / 10000 < 0); [| lia].
    apply Z.div_lt_upper_bound; lia.
Qed.

Lemma weekly_job_with_zero_total_power_witness :
  exists epoch n db',
    handleWeeklyDistribution (Scenario.t0 + 60) Scenario2.zeroPowerDb
    = (Ok (Distributed epoch n Js.PosInf 2100000000), db').
Proof.
  destruct (weekly_job_with_zero_total_power (Scenario.t0 + 60)
              Scenario2.zeroPowerDb Scenario.seedState Scenario.rewardPosition
              eq_refl eq_refl eq_refl ltac:(vm_compute; reflexivity)
              ltac:(repeat constructor; cbn; intuition)
              ltac:(left; reflexivity) eq_refl ltac:(vm_compute; reflexivity))
    as [epoch [n [db' [E _]]]].
  exists epoch, n, db'. exact E.
Defined.

End WeeklyMore.

(** ** Administration *)

Section Admin.

Import AdminService.

Lemma set_programState_restore (db : Db) (s : ProgramState) :
  programState db = Some s ->
  isPaused s = false ->
  set_programState (Some (set_isPaused false (set_isPaused true s)))
    (set_programState (Some (set_isPaused true s)) db) = db.
Proof.
  intros Hs Hp. destruct db as [a b c d e]. cbn in *. subst e.
  destruct s as [p1 p2 p3 p4 p5 p6 p7]. cbn in *. subst p1. reflexivity.
Qed.

(** X21.  Every administrative method checks the caller first: when the
    admin key is not configured, or the caller is not the admin,
    [createTier], [updateTier], [pauseProgram], [unpauseProgram] and
    [replenishRewardPool] all fail with the same access error and write
    nothing. *)
Theorem admin_methods_need_the_admin (adminWallet : option string)
    (wallet : string) (db : Db) :
  adminWallet <> Some wallet ->
  exists e,
    (e = AdminNotConfigured \/ e = AdminRequired)
    /\ (adminWallet = None <-> e = AdminNotConfigured)
    /\ (forall tierId multiplier minM maxM act,
          createTier adminWallet wallet tierId multiplier minM maxM act db
          = (Fail e, db))
    /\ (forall tierId updates,
          updateTier adminWallet wallet tierId updates db = (Fail e, db))
    /\ pauseProgram adminWallet wallet db = (Fail e, db)
    /\ unpauseProgram adminWallet wallet db = (Fail e, db)
    /\ (forall amt,
          replenishRewardPool adminWallet wallet amt db = (Fail e, db)).
Proof.
  intros Hne.
  assert (Hcheck : exists e,
             checkAdminAccess adminWallet wallet = Some e
             /\ (e = AdminNotConfigured \/ e = AdminRequired)
             /\ (adminWallet = None <-> e = AdminNotConfigured)).
  { unfold checkAdminAccess. destruct adminWallet as [a |].
    - destruct (String.eqb_spec wallet a) as [-> | Hw];
        [now contradiction Hne |].
      exists AdminRequired. split; [reflexivity |]. split; [now right |].
      split; discriminate.
    - exists AdminNotConfigured. split; [reflexivity |]. split; [now left |].
      split; reflexivity. }
  destruct Hcheck as [e [Hc [He Hiff]]]. exists e.
  split; [exact He |]. split; [exact Hiff |].
  unfold createTier, updateTier, pauseProgram, unpauseProgram,
    replenishRewardPool.
  rewrite Hc. repeat split.
Qed.

Lemma admin_methods_need_the_admin_witness :
  pauseProgram Scenario2.admin "mallory" Scenario.db0
  = (Fail AdminRequired, Scenario.db0).
Proof.
  destruct (admin_methods_need_the_admin Scenario2.admin "mallory" Scenario.db0
              ltac:(discriminate))
    as [e [[He | He] [Hiff [_ [_ [Hp _]]]]]].
  - apply Hiff in He. discriminate He.
  - rewrite <- He. exact Hp.
Defined.

(** X22.  Pausing as the admin an initialised, running program succeeds
    and sets the flag; from then on the weekly job reports [skipped] and
    writes nothing, a second pause fails with [AlreadyPaused], and
    unpausing gives back exactly the database before the pause, on which a
    further unpause fails with [NotPaused]. *)
Theorem pause_stops_the_weekly_job (wallet : string) (db : Db)
    (s : ProgramState) :
  programState db = Some s ->
  isPaused s = false ->
  exists db1,
    pauseProgram (Some wallet) wallet db = (Done true, db1)
    /\ option_map isPaused (programState db1) = Some true
    /\ (forall now,
          RewardDistributionProcessor.handleWeeklyDistribution now db1
          = (Ok RewardDistributionProcessor.Skipped, db1))
    /\ pauseProgram (Some wallet) wallet db1 = (Fail AlreadyPaused, db1)
    /\ unpauseProgram (Some wallet) wallet db1 = (Done false, db)
    /\ unpauseProgram (Some wallet) wallet db = (Fail NotPaused, db).
Proof.
  intros Hs Hp.
  exists (set_programState (Some (set_isPaused true s)) db).
  unfold pauseProgram, unpauseProgram, checkAdminAccess.
  rewrite String.eqb_refl, Hs, Hp.
  cbn [programState set_programState isPaused set_isPaused negb option_map].
  split; [reflexivity |]. split; [reflexivity |].
  split; [intros now; reflexivity |]. split; [reflexivity |].
  split; [| reflexivity].
  f_equal. now apply set_programState_restore.
Qed.

Lemma pause_stops_the_weekly_job_witness :
  exists db1,
    pauseProgram (Some "admin"%string) "admin" Scenario.rewardDb
    = (Done true, db1)
    /\ RewardDistributionProcessor.handleWeeklyDistribution
         (Scenario.t0 + 604800) db1
       = (Ok RewardDistributionProcessor.Skipped, db1).
Proof.
  destruct (pause_stops_the_weekly_job "admin" Scenario.rewardDb
              Scenario.rewardState eq_refl eq_refl)
    as [db1 [E [_ [H _]]]].
  exists db1. split; [exact E | apply H].
Defined.

(** X23.  Replenishing an initialised program as the admin stores and
    returns the sum, computed in doubles, of the pool read as a number and
    the amount, writing nothing else.  Where the pool and the sums stay
    below 2^53 in magnitude this is exactly the pool plus the amount, and
    two replenishments give the balance of one replenishment of the sum;
    for a non-negative pool and amount with [(pool + amount) * 21] below
    2^53 the weekly emission computed from the pool is not lowered.  At
    2^53 the sum is not exact: replenishing a pool of 2^53 by 1 leaves
    2^53. *)
Theorem replenish_adds_to_the_pool (wallet : string) (a b : Z) (db : Db)
    (s : ProgramState) :
  programState db = Some s ->
  let pool := totalRewardPool s in
  let balance := Js.plus (Js.Number pool) a in
  exists db1,
    replenishRewardPool (Some wallet) wallet a db = (Done (a, balance), db1)
    /\ programState db1 = Some (set_totalRewardPool balance s)
    /\ stakePositions db1 = stakePositions db
    /\ stakingTiers db1 = stakingTiers db
    /\ penaltyTransactions db1 = penaltyTransactions db
    /\ rewardNfts db1 = rewardNfts db
    /\ (Z.abs pool < Js.two53 -> Z.abs (pool + a) < Js.two53 ->
        balance = pool + a
        /\ (Z.abs (pool + a + b) < Js.two53 ->
            option_map totalRewardPool
              (programState
                 (snd (replenishRewardPool (Some wallet) wallet b db1)))
            = option_map totalRewardPool
                (programState
                   (snd (replenishRewardPool (Some wallet) wallet (a + b) db)))))
    /\ (0 <= pool -> 0 <= a -> (pool + a) * 21 < Js.two53 ->
        RewardsService.weeklyPoolEmission pool
        <= RewardsService.weeklyPoolEmission (pool + a))
    /\ option_map totalRewardPool
         (programState
            (snd (replenishRewardPool (Some wallet) wallet 1
                    Scenario3.fullPoolDb)))
       = Some Js.two53.
Proof.
  intros Hs pool balance.
  exists (set_programState (Some (set_totalRewardPool balance s)) db).
  unfold replenishRewardPool, checkAdminAccess.
  rewrite String.eqb_refl, Hs. fold pool. fold balance.
  cbn [programState set_programState snd option_map totalRewardPool
         set_totalRewardPool stakePositions stakingTiers penaltyTransactions
         rewardNfts].
  do 6 (split; [reflexivity |]).
  split; [| split].
  - intros Hp Hpa.
    assert (Eb : balance = pool + a).
    { unfold balance. rewrite Number_exact by exact Hp.
      now apply plus_exact. }
    split; [exact Eb |].
    intros Hpab. f_equal. rewrite Eb.
    rewrite !Number_exact by assumption.
    rewrite !plus_exact; [lia | | ];
      [replace (pool + (a + b)) with (pool + a + b) by lia | ]; assumption.
  - intros Hp Ha Hr.
    rewrite !weeklyPoolEmission_exact by lia.
    apply Z.div_le_mono; lia.
  - vm_compute. reflexivity.
Qed.

Lemma replenish_adds_to_the_pool_witness :
  exists db1,
    replenishRewardPool (Some "admin"%string) "admin" 1000000000 Scenario.db0
    = (Done (1000000000, 1001000000000), db1).
Proof.
  destruct (replenish_adds_to_the_pool "admin" 1000000000 0 Scenario.db0
              Scenario.seedState eq_refl) as [db1 [E _]].
  exists db1. exact E.
Defined.

Lemma find_tier_app (tierId : Z) (tiers : list StakingTier) (t : StakingTier) :
  find (fun x => tier_tierId x =? tierId) tiers = None ->
  tier_tierId t = tierId ->
  find (fun x => tier_tierId x =? tierId) (tiers ++ [t]) = Some t.
Proof.
  intros Hnone Hid. induction tiers as [| x rest IH]; cbn.
  - now rewrite Hid, Z.eqb_refl.
  - cbn in Hnone. destruct (tier_tierId x =? tierId); [discriminate |].
    now apply IH.
Qed.

(** X24.  [createTier] fails with [MinExceedsMax] when the minimum is above
    the maximum and with [TierExists] when the tier id is taken, writing
    nothing.  When it succeeds for an active tier, the range is well
    formed, a second [createTier] of that id fails, and [stakeTokens] on the
    new tier, which throws [AssertionFailed] before it reads the tier when
    the seed has magnitude 2^53 or more, otherwise throws
    [InvalidDuration] for every duration outside the range and no longer
    throws [InvalidTier] or [InvalidDuration] for a duration inside it. *)
Theorem created_tier_governs_stakes (wallet : string)
    (tierId multiplier minM maxM : Z) (db : Db) :
  let run := createTier (Some wallet) wallet tierId multiplier minM maxM true db in
  (maxM < minM -> run = (Fail MinExceedsMax, db))
  /\ (minM <= maxM ->
      find (fun t => tier_tierId t =? tierId) (stakingTiers db) <> None ->
      run = (Fail TierExists, db))
  /\ (forall t db1,
        run = (Done t, db1) ->
        minM <= maxM
        /\ stakePositions db1 = stakePositions db
        /\ programState db1 = programState db
        /\ (forall m2 a2 b2 act,
              createTier (Some wallet) wallet tierId m2 a2 b2 act db1
              = (Fail (if b2 <? a2 then MinExceedsMax else TierExists), db1))
        /\ forall uuid dateNow now w amt months locked seed,
             let stake :=
               StakingService.stakeTokens uuid dateNow now w amt months tierId
                 locked seed db1 in
             (Js.two53 <= Z.abs (StakingService.seedOrNow seed dateNow) ->
              stake = (Throw AssertionFailed, db1))
             /\ (Z.abs (StakingService.seedOrNow seed dateNow) < Js.two53 ->
                 (months < minM \/ maxM < months ->
                  stake = (Throw InvalidDuration, db1))
                 /\ (minM <= months <= maxM ->
                     fst stake <> Throw InvalidTier
                     /\ fst stake <> Throw InvalidDuration))).
Proof.
  intros run. unfold run, createTier, checkAdminAccess.
  rewrite String.eqb_refl.
  split.
  { intros H. destruct (Z.ltb_spec maxM minM); [reflexivity | lia]. }
  split.
  { intros H Hex. destruct (Z.ltb_spec maxM minM); [lia |].
    destruct (find _ (stakingTiers db)); [reflexivity | contradiction]. }
  intros t db1 Hok.
  destruct (Z.ltb_spec maxM minM) as [| Hle]; [discriminate |].
  destruct (find (fun t => tier_tierId t =? tierId) (stakingTiers db))
    eqn:Hfind; [discriminate |].
  inversion Hok; subst t db1; clear Hok.
  set (tier := mkTier tierId multiplier minM maxM true).
  assert (Hnew : find (fun t => tier_tierId t =? tierId)
                   (stakingTiers db ++ [tier]) = Some tier)
    by (now apply find_tier_app).
  split; [exact Hle |]. split; [reflexivity |]. split; [reflexivity |].
  split.
  { intros m2 a2 b2 act.
    destruct (b2 <? a2); [reflexivity |].
    cbn [stakingTiers set_stakingTiers]. rewrite Hnew. reflexivity. }
  intros uuid dateNow now w amt months locked seed. cbv zeta.
  unfold StakingService.stakeTokens.
  rewrite findStakePositionPda_spec.
  split.
  { intros Hbig.
    destruct (Z.ltb_spec (Z.abs (StakingService.seedOrNow seed dateNow))
                Js.two53); [lia | reflexivity]. }
  intros Hsmall.
  destruct (Z.ltb_spec (Z.abs (StakingService.seedOrNow seed dateNow))
              Js.two53); [| lia].
  unfold bind, prisma.stakingTier.findUnique.
  cbn [stakingTiers set_stakingTiers]. rewrite Hnew.
  cbn [tier tier_isActive minMonths maxMonths negb].
  split.
  - intros Hout.
    replace ((months <? minM) || (maxM <? months)) with true; [reflexivity |].
    symmetry. apply orb_true_iff.
    destruct Hout; [left | right]; now apply Z.ltb_lt.
  - intros Hin.
    replace ((months <? minM) || (maxM <? months)) with false
      by (symmetry; apply orb_false_iff; split; apply Z.ltb_ge; lia).
    unfold prisma.stakePosition.create.
    destruct (existsb _ _); cbn; split; discriminate.
Qed.

Lemma created_tier_governs_stakes_witness :
  createTier (Some "admin"%string) "admin" 7 10000 12 6 true Scenario.db0
  = (Fail MinExceedsMax, Scenario.db0)
  /\ createTier (Some "admin"%string) "admin" 1 10000 1 3 true Scenario.db0
     = (Fail TierExists, Scenario.db0).
Proof.
  split.
  - apply (proj1 (created_tier_governs_stakes "admin" 7 10000 12 6
                    Scenario.db0)). lia.
  - apply (proj1 (proj2 (created_tier_governs_stakes "admin" 1 10000 1 3
                           Scenario.db0))); [lia | discriminate].
Defined.

(** X25.  [updateTier] does not check the range.  An update that sets a
    minimum above the maximum succeeds, and afterwards no [stakeTokens] on
    that tier succeeds, whatever the duration: each call throws and writes
    nothing. *)
Theorem updateTier_can_close_a_tier (wallet : string) (tierId newMin newMax : Z)
    (mult : option Z) (act : option bool) (db : Db) (t : StakingTier) :
  find (fun x => tier_tierId x =? tierId) (stakingTiers db) = Some t ->
  newMax < newMin ->
  exists t' db1,
    updateTier (Some wallet) wallet tierId
      (mkTierUpdates mult (Some newMin) (Some newMax) act) db = (Done t', db1)
    /\ minMonths t' = newMin /\ maxMonths t' = newMax
    /\ forall uuid dateNow now w amt months locked seed,
       exists e,
         StakingService.stakeTokens uuid dateNow now w amt months tierId locked
           seed db1 = (Throw e, db1).
Proof.
  intros Hfind Hbad.
  unfold updateTier, checkAdminAccess. rewrite String.eqb_refl, Hfind.
  eexists. eexists. split; [reflexivity |].
  split; [reflexivity |]. split; [reflexivity |].
  intros uuid dateNow now w amt months locked seed.
  unfold StakingService.stakeTokens.
  destruct (findStakePositionPda w (StakingService.seedOrNow seed dateNow))
    as [key |]; [| eexists; reflexivity].
  unfold bind, prisma.stakingTier.findUnique.
  cbn [stakingTiers set_stakingTiers].
  assert (Hf' : find (fun x => tier_tierId x =? tierId)
                  (prisma.updateWhere (fun x => tier_tierId x =? tierId)
                     (applyUpdates
                        (mkTierUpdates mult (Some newMin) (Some newMax) act))
                     (stakingTiers db))
                = Some (applyUpdates
                          (mkTierUpdates mult (Some newMin) (Some newMax) act)
                          t)).
  { clear - Hfind. unfold prisma.updateWhere.
    induction (stakingTiers db) as [| x rest IH]; [discriminate |].
    cbn in Hfind |- *. destruct (tier_tierId x =? tierId) eqn:E.
    - inversion Hfind; subst x. cbn [applyUpdates tier_tierId].
      rewrite E. reflexivity.
    - rewrite E. now apply IH. }
  rewrite Hf'.
  destruct (negb _); [eexists; reflexivity |].
  cbn [applyUpdates minMonths maxMonths orKeep up_minMonths up_maxMonths].
  replace ((months <? newMin) || (newMax <? months)) with true;
    [eexists; reflexivity |].
  symmetry. apply orb_true_iff.
  destruct (Z.lt_ge_cases months newMin); [left | right]; apply Z.ltb_lt; lia.
Qed.

Lemma updateTier_can_close_a_tier_witness :
  exists t' db1,
    updateTier (Some "admin"%string) "admin" 1
      (mkTierUpdates None (Some 12) (Some 6) None) Scenario.db0 = (Done t', db1)
    /\ exists e,
         StakingService.stakeTokens "id-1" 0 Scenario.t0 "alice" 1000000000 8 1
           true (Some 7) db1 = (Throw e, db1).
Proof.
  destruct (updateTier_can_close_a_tier "admin" 1 12 6 None None Scenario.db0
              Scenario.tier1 eq_refl ltac:(lia))
    as [t' [db1 [E [_ [_ H]]]]].
  exists t', db1. split; [exact E | apply H].
Defined.

End Admin.

(** ** The indexer sync job *)

Section Indexer.

Import IndexerSyncProcessor.

Variable programId : string.
Variable getTransaction : string -> TxAnswer.

Lemma known_In (sig : string) (evs : list Event) :
  known sig evs = true <-> In sig (map ev_signature evs).
Proof.
  unfold known. rewrite existsb_exists, in_map_iff. split.
  - intros [e [He Hs]]. exists e. split; [now apply String.eqb_eq | exact He].
  - intros [e [Hs He]]. exists e. split; [exact He | now apply String.eqb_eq].
Qed.

Lemma known_app (sig : string) (evs tail : list Event) :
  known sig evs = true -> known sig (evs ++ tail) = true.
Proof.
  unfold known. rewrite existsb_app. intros ->. reflexivity.
Qed.

Lemma syncLoop_extends (now : Z) (sigs : list SigInfo) :
  forall evs count,
  exists tail,
    fst (syncLoop programId now getTransaction sigs evs count) = evs ++ tail
    /\ Forall (fun e => ev_commitment e = "confirmed"%string
                        /\ ev_finalized e = false
                        /\ ev_programId e = programId
                        /\ In (ev_signature e) (map si_signature sigs)) tail
    /\ snd (syncLoop programId now getTransaction sigs evs count)
       = count + Z.of_nat (List.length tail)
    /\ (NoDup (map ev_signature evs) ->
        NoDup (map ev_signature (evs ++ tail))).
Proof.
  induction sigs as [| si rest IH]; intros evs count.
  - exists []. cbn. rewrite app_nil_r. repeat split; [constructor | lia | auto].
  - cbn [syncLoop].
    assert (Hweak : forall tail,
               Forall (fun e => ev_commitment e = "confirmed"%string
                                /\ ev_finalized e = false
                                /\ ev_programId e = programId
                                /\ In (ev_signature e) (map si_signature rest))
                 tail ->
               Forall (fun e => ev_commitment e = "confirmed"%string
                                /\ ev_finalized e = false
                                /\ ev_programId e = programId
                                /\ In (ev_signature e)
                                     (map si_signature (si :: rest))) tail).
    { intros tail H. eapply Forall_impl; [| exact H].
      cbn. intros e [H1 [H2 [H3 H4]]]. auto. }
    destruct (known (si_signature si) evs) eqn:Hk.
    + destruct (IH evs count) as [tail [E [F [C N]]]].
      exists tail. auto.
    + destruct (getTransaction (si_signature si)) as [h | |].
      * match goal with
        | |- context [syncLoop _ _ _ rest (evs ++ [?ev]) ?c] =>
          destruct (IH (evs ++ [ev]) c) as [tail [E [F [C N]]]];
            exists (ev :: tail)
        end.
        rewrite E, <- app_assoc. cbn [app].
        split; [reflexivity |]. split.
        { constructor; [| now apply Hweak].
          cbn. repeat split. now left. }
        split; [rewrite C; cbn [List.length]; lia |].
        intros Hnd. rewrite <- app_assoc in N. cbn [app] in N. apply N.
        rewrite map_app. cbn. apply NoDup_snoc; [exact Hnd |].
        intros Hin. apply known_In in Hin. congruence.
      * destruct (IH evs count) as [tail [E [F [C N]]]]. exists tail. auto.
      * destruct (IH evs count) as [tail [E [F [C N]]]]. exists tail. auto.
Qed.

Lemma syncLoop_settles (now : Z) (sigs : list SigInfo) :
  forall evs count si,
    In si sigs ->
    known (si_signature si)
      (fst (syncLoop programId now getTransaction sigs evs count)) = true
    \/ getTransaction (si_signature si) = TxNull
    \/ getTransaction (si_signature si) = TxThrows.
Proof.
  induction sigs as [| s0 rest IH]; intros evs count si Hin; [contradiction |].
  cbn [syncLoop].
  destruct Hin as [-> | Hin].
  - destruct (known (si_signature si) evs) eqn:Hk.
    + left. destruct (syncLoop_extends now rest evs count) as [tail [E _]].
      rewrite E. now apply known_app.
    + destruct (getTransaction (si_signature si)) as [h | |] eqn:Hg; auto.
      left.
      match goal with
      | |- context [syncLoop _ _ _ rest ?t ?c] =>
        destruct (syncLoop_extends now rest t c) as [tail [E _]]
      end.
      rewrite E. apply known_app. unfold known. rewrite existsb_app. cbn.
      rewrite String.eqb_refl. now rewrite orb_true_r.
  - destruct (known (si_signature s0) evs).
    + now apply IH.
    + destruct (getTransaction (si_signature s0)); now apply IH.
Qed.

Lemma syncLoop_nothing_new (now : Z) (sigs : list SigInfo) :
  forall evs count,
    (forall si, In si sigs ->
                known (si_signature si) evs = true
                \/ getTransaction (si_signature si) = TxNull
                \/ getTransaction (si_signature si) = TxThrows) ->
    syncLoop programId now getTransaction sigs evs count = (evs, count).
Proof.
  induction sigs as [| s0 rest IH]; intros evs count H; [reflexivity |].
  cbn [syncLoop].
  assert (Hrest : forall si, In si rest ->
                             known (si_signature si) evs = true
                             \/ getTransaction (si_signature si) = TxNull
                             \/ getTransaction (si_signature si) = TxThrows)
    by (intros si Hsi; apply H; now right).
  destruct (H s0 (or_introl eq_refl)) as [Hk | [Hn | Hn]].
  - rewrite Hk. now apply IH.
  - destruct (known (si_signature s0) evs); [now apply IH |].
    rewrite Hn. now apply IH.
  - destruct (known (si_signature s0) evs); [now apply IH |].
    rewrite Hn. now apply IH.
Qed.

(** X26.  The sync job only appends to the event table and never stores a
    signature twice: the old events are a prefix of the new table, each new
    event carries a signature of the fetched list with commitment
    [confirmed] and [finalized = false], the reported count is the number
    of new events, and signatures that were distinct stay distinct. *)
Theorem indexer_stores_each_signature_once (now currentSlot : Z)
    (signatures : list SigInfo) (st : IndexerState) :
  let st' := snd (handleIndexerSync programId now currentSlot signatures
                    getTransaction st) in
  exists tail,
    events st' = events st ++ tail
    /\ Forall (fun e => ev_commitment e = "confirmed"%string
                        /\ ev_finalized e = false
                        /\ In (ev_signature e) (map si_signature signatures))
         tail
    /\ (forall processed a b c,
          fst (handleIndexerSync programId now currentSlot signatures
                 getTransaction st) = Synced processed a b c ->
          processed = Z.of_nat (List.length tail))
    /\ (NoDup (map ev_signature (events st)) ->
        NoDup (map ev_signature (events st'))).
Proof.
  intros st'. unfold st', handleIndexerSync.
  destruct (_ <? 2).
  - exists []. cbn. rewrite app_nil_r.
    repeat split; [constructor | discriminate | auto].
  - destruct (syncLoop_extends now signatures (events st) 0)
      as [tail [E [F [C N]]]].
    exists tail. cbn [fst snd events].
    split; [exact E |]. split.
    { eapply Forall_impl; [| exact F]. cbn. intros e [H1 [H2 [_ H4]]]. auto. }
    split.
    { intros processed a b c Heq. inversion Heq; subst. rewrite C. lia. }
    intros Hnd. rewrite E. now apply N.
Qed.

(** X27.  Redelivery is harmless: after one sync, a second sync that is
    handed the same signatures and gets the same answers to its
    transaction lookups, at whatever slot and time, stores nothing, and if
    it runs its loop it reports zero processed transactions. *)
Theorem indexer_redelivery_stores_nothing (now now2 currentSlot currentSlot2 : Z)
    (signatures : list SigInfo) (st : IndexerState) :
  currentSlot - (if lastProcessedSlot st =? 0
                 then Z.max 0 (currentSlot - 100)
                 else lastProcessedSlot st) >= 2 ->
  let st1 := snd (handleIndexerSync programId now currentSlot signatures
                    getTransaction st) in
  let r2 := handleIndexerSync programId now2 currentSlot2 signatures
              getTransaction st1 in
  events (snd r2) = events st1
  /\ forall processed a b c,
       fst r2 = Synced processed a b c -> processed = 0.
Proof.
  intros Hrun st1 r2.
  assert (Hst1 : events st1
                 = fst (syncLoop programId now getTransaction signatures
                          (events st) 0)).
  { unfold st1, handleIndexerSync.
    destruct (Z.ltb_spec
                (currentSlot - (if lastProcessedSlot st =? 0
                                then Z.max 0 (currentSlot - 100)
                                else lastProcessedSlot st)) 2); [lia |].
    reflexivity. }
  assert (Hloop : syncLoop programId now2 getTransaction signatures
                    (events st1) 0 = (events st1, 0)).
  { apply syncLoop_nothing_new. intros si Hsi. rewrite Hst1.
    now apply syncLoop_settles. }
  unfold r2, handleIndexerSync.
  destruct (_ <? 2).
  - cbn. split; [reflexivity | discriminate].
  - rewrite Hloop. cbn. split; [reflexivity |].
    intros processed a b c Heq. now inversion Heq.
Qed.

(** X28.  The slot cursor never moves backwards and never passes the
    current slot.  With [0 <= lastProcessedSlot <= currentSlot]: a run that
    is within two slots of the (possibly reset) cursor reports [caught_up]
    and stores no event; any other run advances the cursor by at most 51
    slots, to at most [currentSlot]; a cursor of 0 is first reset to
    [max(0, currentSlot - 100)]. *)
Theorem indexer_cursor_moves_forward (now currentSlot : Z)
    (signatures : list SigInfo) (st : IndexerState) :
  0 <= lastProcessedSlot st <= currentSlot ->
  let run := handleIndexerSync programId now currentSlot signatures
               getTransaction st in
  let last := if lastProcessedSlot st =? 0 then Z.max 0 (currentSlot - 100)
              else lastProcessedSlot st in
  lastProcessedSlot st <= lastProcessedSlot (snd run) <= currentSlot
  /\ (currentSlot - last < 2 ->
      run = (CaughtUp currentSlot last, mkIndexerState (events st) last))
  /\ (2 <= currentSlot - last ->
      exists processed,
        fst run = Synced processed (last + 1) (lastProcessedSlot (snd run))
                    currentSlot
        /\ last < lastProcessedSlot (snd run) <= last + 51).
Proof.
  intros Hrange run last.
  assert (Hlast : lastProcessedSlot st <= last <= currentSlot).
  { unfold last. destruct (Z.eqb_spec (lastProcessedSlot st) 0); lia. }
  unfold run, handleIndexerSync. fold last.
  destruct (Z.ltb_spec (currentSlot - last) 2) as [Hc | Hc]; cbn [fst snd].
  - cbn [lastProcessedSlot]. split; [lia |].
    split; [reflexivity | lia].
  - cbn [lastProcessedSlot]. split; [lia |].
    split; [lia |]. intros _. eexists. split; [reflexivity | lia].
Qed.

End Indexer.

Lemma indexer_redelivery_stores_nothing_witness :
  IndexerSyncProcessor.events
    (snd (IndexerSyncProcessor.handleIndexerSync "prog" 1700000200 2005
            [Scenario2.sig1; Scenario2.sig2] Scenario2.rpc
            (snd (IndexerSyncProcessor.handleIndexerSync "prog" 1700000100 2000
                    [Scenario2.sig1; Scenario2.sig2] Scenario2.rpc
                    Scenario2.indexer0))))
  = IndexerSyncProcessor.events
      (snd (IndexerSyncProcessor.handleIndexerSync "prog" 1700000100 2000
              [Scenario2.sig1; Scenario2.sig2] Scenario2.rpc
              Scenario2.indexer0)).
Proof.
  apply (indexer_redelivery_stores_nothing "prog" Scenario2.rpc 1700000100
           1700000200 2000 2005 [Scenario2.sig1; Scenario2.sig2]
           Scenario2.indexer0 ltac:(vm_compute; discriminate)).
Defined.

Lemma indexer_cursor_moves_forward_witness :
  IndexerSyncProcessor.lastProcessedSlot
    (snd (IndexerSyncProcessor.handleIndexerSync "prog" 1700000100 2000
            [Scenario2.sig1] Scenario2.rpc
            (IndexerSyncProcessor.mkIndexerState [] 1900))) <= 2000.
Proof.
  apply (indexer_cursor_moves_forward "prog" Scenario2.rpc 1700000100 2000
           [Scenario2.sig1] (IndexerSyncProcessor.mkIndexerState [] 1900)
           ltac:(cbn; lia)).
Defined.

(** ** Positions over whole executions *)

Section Traces.

Import StakingService.

Lemma map_updateWhere_same {B} (g : StakePosition -> B)
    (sel : StakePosition -> bool) (f : StakePosition -> StakePosition)
    (rows : list StakePosition) :
  (forall q, g (f q) = g q) ->
  map g (prisma.updateWhere sel f rows) = map g rows.
Proof.
  intros Hg. unfold prisma.updateWhere. rewrite map_map.
  apply map_ext. intros q. destruct (sel q); [apply Hg | reflexivity].
Qed.

Lemma fresh_id (row : StakePosition) (rows : list StakePosition) :
  existsb (fun p => pda_eqb (pda p) (pda row) || String.eqb (id p) (id row))
    rows = false ->
  ~ In (id row) (map id rows).
Proof.
  intros Hex Hin. apply in_map_iff in Hin as [q [Hq Hin]].
  assert (Ht : existsb
                 (fun p => pda_eqb (pda p) (pda row) || String.eqb (id p) (id row))
                 rows = true).
  { apply existsb_exists. exists q. split; [exact Hin |].
    rewrite Hq, String.eqb_refl. apply orb_true_r. }
  congruence.
Qed.

(** One operation either keeps the identity fields of every row, or
    appends one row whose address and identifier are new. *)
Lemma exec_positions (cfg : Config) (op : Op) (db : Db) :
  (forall B (g : StakePosition -> B),
     (forall v q, g (set_amount v q) = g q) ->
     (forall v q, g (set_cooldownEnd v q) = g q) ->
     (forall v q, g (set_pendingPrincipal v q) = g q) ->
     (forall v q, g (set_isActive v q) = g q) ->
     map g (stakePositions (snd (exec cfg op db))) = map g (stakePositions db))
  \/ exists row,
       stakePositions (snd (exec cfg op db)) = stakePositions db ++ [row]
       /\ ~ In (pda row) (map pda (stakePositions db))
       /\ ~ In (id row) (map id (stakePositions db)).
Proof.
  destruct op as [u d n w a m t l sd | n w sd | n w sd | n];
    unfold exec, bind.
  - destruct (stakeTokens_cases u d n w a m t l sd db) as [[e E] | [Hfresh [Hkey E]]];
      rewrite E; cbn [snd ret].
    + left. reflexivity.
    + right. eexists. split; [reflexivity |].
      split; [now apply fresh_pda | now apply fresh_id].
  - left. intros B g G1 G2 G3 G4.
    destruct (unstakeTokens_cases cfg n w sd db) as [[e E] | [p [Hf [Ha Hc]]]];
      [rewrite E; reflexivity |].
    destruct (unstakeTokens_ok cfg n w sd db p Hf Ha Hc) as [db' [E [Hpos _]]].
    rewrite E. cbn [snd ret]. rewrite Hpos.
    apply map_updateWhere_same. intros q. unfold closing.
    now rewrite G4, G3, G2.
  - left. intros B g G1 G2 G3 G4.
    destruct (finalizeUnstake_cases n w sd db)
      as [[e E] | [p [c [Hf [Ha [Hc [Hc0 Hle]]]]]]];
      [rewrite E; reflexivity |].
    rewrite (finalizeUnstake_ok n w sd db p c Hf Ha Hc Hc0 Hle).
    cbn [snd ret stakePositions set_stakePositions].
    apply map_updateWhere_same. intros q. unfold closed.
    now rewrite G1, G3, G2.
  - left. intros B g G1 G2 G3 G4.
    assert (Hsnd : snd ((r <- CooldownFinalizerProcessor.handleCooldownFinalization n ;;
                         ret (map CooldownFinalizerProcessor.fe_pda
                                (CooldownFinalizerProcessor.results r))) db)
                   = snd (CooldownFinalizerProcessor.handleCooldownFinalization
                            n db)).
    { unfold bind.
      destruct (CooldownFinalizerProcessor.handleCooldownFinalization n db)
        as [[r | e] db']; reflexivity. }
    unfold bind in Hsnd. rewrite Hsnd.
    rewrite handleCooldownFinalization_positions.
    rewrite map_map. apply map_ext. intros q.
    destruct (existsb _ _); [| reflexivity].
    unfold swept. now rewrite G2, G3, G4.
Qed.

(** X29.  Positions are append-only.  Through any sequence of open,
    initiate-close, finalize-close and sweep operations no row is removed
    or reordered and no row's identifier, owner, address, duration, tier,
    multiplier, staking power, start time, unlock time or seed changes: the
    old rows' identity fields are a prefix of the new table's.  Identifiers
    and addresses that were distinct stay distinct. *)
Theorem positions_are_append_only (cfg : Config) (ops : list Op)
    (st : Db * list Pda) :
  let ps := stakePositions (fst st) in
  let ps' := stakePositions (fst (run cfg ops st)) in
  (exists tail, map identityOf ps' = map identityOf ps ++ tail)
  /\ (NoDup (map id ps) -> NoDup (map id ps'))
  /\ (NoDup (map pda ps) -> NoDup (map pda ps')).
Proof.
  cbv zeta. revert st. unfold run.
  induction ops as [| op ops IH]; intros st.
  - cbn. split; [exists []; now rewrite app_nil_r | auto].
  - cbn [fold_left].
    destruct (IH (step cfg st op)) as [[tail Ht] [Hid Hpda]].
    rewrite step_fst in Ht, Hid, Hpda.
    destruct (exec_positions cfg op (fst st)) as [Hsame | [row [E [Fp Fi]]]].
    + rewrite (Hsame _ identityOf) in Ht by reflexivity.
      rewrite (Hsame _ id) in Hid by reflexivity.
      rewrite (Hsame _ pda) in Hpda by reflexivity.
      split; [now exists tail | auto].
    + rewrite E in Ht, Hid, Hpda. rewrite !map_app in *. cbn [map] in *.
      split; [exists (identityOf row :: tail); now rewrite Ht, <- app_assoc |].
      split; intros H; [apply Hid | apply Hpda]; now apply NoDup_snoc.
Qed.

Lemma positions_are_append_only_witness :
  NoDup (map id (stakePositions Scenario.db2)).
Proof.
  apply (proj1 (proj2 (positions_are_append_only Scenario.cfg
                         [Scenario.openOp; InitiateClose Scenario.t0 "alice" 7]
                         (Scenario.db0, [])))).
  constructor.
Defined.

End Traces.

Lemma sweep_finalizes_once_witness :
  Forall (fun q => id q <> "id-9"%string)
    (filter (CooldownFinalizerProcessor.expiredCooldown (Scenario.t0 + 99))
       (stakePositions
          (snd (CooldownFinalizerProcessor.handleCooldownFinalization
                  (Scenario.t0 + 20) Scenario2.sweepDb)))).
Proof.
  apply Forall_forall. intros q Hq Hid.
  apply (proj2 (sweep_finalizes_once (Scenario.t0 + 20) (Scenario.t0 + 99)
                  Scenario2.sweepDb) q Hq).
  rewrite Hid. left. reflexivity.
Defined.

Lemma indexer_stores_each_signature_once_witness :
  NoDup
    (map IndexerSyncProcessor.ev_signature
       (IndexerSyncProcessor.events
          (snd (IndexerSyncProcessor.handleIndexerSync "prog" 1700000100 2000
                  [Scenario2.sig1; Scenario2.sig2; Scenario2.sig1]
                  Scenario2.rpc Scenario2.indexer0)))).
Proof.
  destruct (indexer_stores_each_signature_once "prog" Scenario2.rpc 1700000100
              2000 [Scenario2.sig1; Scenario2.sig2; Scenario2.sig1]
              Scenario2.indexer0) as [tail [_ [_ [_ H]]]].
  apply H. constructor.
Defined.
